(** * L2OAM adapter: frame codec, correlation tags, dispatcher, sequencer and
      ONU status ledger.

    A shallow embedding of the Go sources of the EPON OLT adapter
    (package [l2oam] and package [core]) together with the properties of
    its natural-language specification.

    Conventions of the embedding.
    - Go's [uint8], [uint16], [uint32] and [int] are [Z]; a value read from
      a byte buffer is a [Z] in [0, 256).  Conversions that truncate are
      written out with [Z.land] and [Z.shiftr], arithmetic that wraps with
      [mod].
    - A [[]byte] is a [list Z]; a run-time panic (index or slice bounds out
      of range) is [None].
    - Package-level variables are threaded explicitly as state. *)

From Stdlib Require Import ZArith Lia Sorted.
From stdpp Require Import base option list strings gmap.

Local Open Scope Z_scope.

(* ===================================================================== *)
(** * Byte buffers *)
(* ===================================================================== *)

Module Buf.

(** [len(b)] as a Go [int]. *)
Definition len {A} (l : list A) : Z := Z.of_nat (length l).

(** A fresh, zero-filled block of [n] bytes.  This is what
    [gopacket.SerializeBuffer.PrependBytes(n)] hands out on the empty buffer
    that [CreateMessage] allocates for the innermost layer: the block has
    length and capacity [n]. *)
Definition zeros (n : Z) : list Z := replicate (Z.to_nat n) 0.

Definition PrependBytes (n : Z) : option (list Z) :=
  if 0 <=? n then Some (zeros n) else None.

(** [data[i]] as an r-value. *)
Definition index (data : list Z) (i : Z) : option Z :=
  if (0 <=? i) && (i <? len data) then data !! Z.to_nat i else None.

(** [data[i] = v]. *)
Definition store (data : list Z) (i v : Z) : option (list Z) :=
  if (0 <=? i) && (i <? len data) then Some (<[Z.to_nat i := v]> data) else None.

(** [data[i:j]] as an r-value.  Go checks the upper bound of a slice
    expression against the capacity of [data]; here it is checked against
    the length.  The two are the same for the buffer a serializer gets from
    [PrependBytes] on a fresh serialize buffer.  A frame that comes off the
    wire can have a capacity above its length (the receive path appends in
    place): every panic that a statement below tells of for received bytes
    is one that Go raises whatever the capacity, at an index [data[i]],
    which Go checks against the length as is done here, or at a slice whose
    bounds are in the wrong order. *)
Definition slice (data : list Z) (i j : Z) : option (list Z) :=
  if (0 <=? i) && (i <=? j) && (j <=? len data)
  then Some (take (Z.to_nat (j - i)) (drop (Z.to_nat i) data))
  else None.

(** Writing through the sub-slice [data[i:j]]: the sub-slice shares its
    backing array with [data], so what [f] writes into it lands in [data]. *)
Definition with_slice (data : list Z) (i j : Z)
    (f : list Z -> option (list Z)) : option (list Z) :=
  b ← slice data i j;
  b' ← f b;
  Some (take (Z.to_nat i) data ++ b' ++ drop (Z.to_nat j) data).

(** The built-in [copy(dst, src)]: copies [min(len(dst), len(src))] bytes.
    The source comes first here, so that [copy src] is what is done to the
    destination slice. *)
Definition copy (src dst : list Z) : option (list Z) :=
  Some (take (length dst) src ++ drop (length src) dst).

(** [encoding/binary.BigEndian]. *)
Definition PutUint16 (v : Z) (b : list Z) : option (list Z) :=
  match b with
  | _ :: _ :: rest =>
      Some (Z.land (Z.shiftr v 8) 255 :: Z.land v 255 :: rest)
  | _ => None
  end.

Definition PutUint32 (v : Z) (b : list Z) : option (list Z) :=
  match b with
  | _ :: _ :: _ :: _ :: rest =>
      Some (Z.land (Z.shiftr v 24) 255 :: Z.land (Z.shiftr v 16) 255
            :: Z.land (Z.shiftr v 8) 255 :: Z.land v 255 :: rest)
  | _ => None
  end.

Definition Uint16 (b : list Z) : option Z :=
  match b with
  | b0 :: b1 :: _ => Some (Z.lor b1 (Z.shiftl b0 8))
  | _ => None
  end.

Definition Uint32 (b : list Z) : option Z :=
  match b with
  | b0 :: b1 :: b2 :: b3 :: _ =>
      Some (Z.lor (Z.lor (Z.lor b3 (Z.shiftl b2 8)) (Z.shiftl b1 16))
                  (Z.shiftl b0 24))
  | _ => None
  end.

(** Type invariants of Go's unsigned integers. *)
Definition is_uint8 (x : Z) : Prop := 0 <= x < 256.
Definition is_uint16 (x : Z) : Prop := 0 <= x < 65536.
Definition is_uint32 (x : Z) : Prop := 0 <= x < 4294967296.

End Buf.

Import Buf.

(* ===================================================================== *)
(** * Package l2oam: message.go *)
(* ===================================================================== *)

(** [TomiObjectContext]. *)
Module TomiObjectContext.
Record t := mk {
  Branch : Z;     (* uint8 *)
  Type_ : Z;      (* uint16, the field [Type] *)
  Length : Z;     (* uint8 *)
  Instance : Z    (* uint32 *)
}.
End TomiObjectContext.

(** The correlation-tag counter: [var instance uint32 = 0x5c1f6a60].  The
    mutex serialises the callers; a call is one atomic step on the
    counter. *)
Definition instance_init : Z := 0x5c1f6a60.

(** [getOltInstance]: [instance = instance + 1; return instance] on a
    [uint32].  Returns the value and the new counter. *)
Definition getOltInstance (instance : Z) : Z * Z :=
  let instance := (instance + 1) mod 2 ^ 32 in
  (instance, instance).

(** The values returned by [n] successive calls, oldest first, and the
    counter after them. *)
Fixpoint getOltInstances (n : nat) (instance : Z) : list Z * Z :=
  match n with
  | O => ([], instance)
  | S n =>
      let '(v, instance) := getOltInstance instance in
      let '(vs, instance) := getOltInstances n instance in
      (v :: vs, instance)
  end.

(** The value returned by call number [n] (counting from 1) of a process,
    for [n] given in binary. *)
Definition instance_of_call (n : Z) : Z :=
  Z.iter n (fun instance => snd (getOltInstance instance)) instance_init.

(* ===================================================================== *)
(** * Package l2oam: toam_common (TOAMGetRequest) and msg_get_vendor_name.go *)
(* ===================================================================== *)

Module TOAMGetRequest.

Record t := mk {
  Opcode : Z;       (* uint8 *)
  Flags : Z;        (* uint16 *)
  OAMPDUCode : Z;   (* uint8 *)
  OUId : list Z;
  TOMIOpcode : Z;   (* uint8 *)
  CTBranch : Z;     (* uint8 *)
  CTType : Z;       (* uint16 *)
  CTLength : Z;     (* uint8 *)
  CTInstance : Z;   (* uint32 *)
  OCBranch : Z;     (* uint8 *)
  OCType : Z;       (* uint16 *)
  OCLength : Z;     (* uint8 *)
  OCInstance : Z;   (* uint32 *)
  VdBranch : Z;     (* uint8 *)
  VdLeaf : Z;       (* uint16 *)
  EndBranch : Z     (* uint8 *)
}.

Definition Len (d : t) : Z := 29.

Definition SerializeTo (d : t) : option (list Z) :=
  let plen := Len d in
  data ← PrependBytes plen;
  let i := 0 in
  data ← store data i (Opcode d);
  let i := i + 1 in
  data ← with_slice data i (i + 2) (PutUint16 (Flags d));
  let i := i + 2 in
  data ← store data i (OAMPDUCode d);
  let i := i + 1 in
  data ← with_slice data i (i + len (OUId d)) (copy (OUId d));
  let i := i + len (OUId d) in
  data ← store data i (TOMIOpcode d);
  let i := i + 1 in
  data ← store data i (CTBranch d);
  let i := i + 1 in
  data ← with_slice data i (i + 2) (PutUint16 (CTType d));
  let i := i + 2 in
  data ← store data i (CTLength d);
  let i := i + 1 in
  data ← with_slice data i (i + 4) (PutUint32 (CTInstance d));
  let i := i + 4 in
  data ← store data i (OCBranch d);
  let i := i + 1 in
  data ← with_slice data i (i + 2) (PutUint16 (OCType d));
  let i := i + 2 in
  data ← store data i (OCLength d);
  let i := i + 1 in
  data ← with_slice data i (i + 4) (PutUint32 (OCInstance d));
  let i := i + 4 in
  data ← store data i (VdBranch d);
  let i := i + 1 in
  data ← with_slice data i (i + 2) (PutUint16 (VdLeaf d));
  let i := i + 2 in
  data ← store data i (EndBranch d);
  Some data.

End TOAMGetRequest.

(** [GnerateGetVendorName]: draws the correlation tag from the counter. *)
Definition GnerateGetVendorName (instance : Z) : TOAMGetRequest.t * Z :=
  let '(ct, instance) := getOltInstance instance in
  ({| TOAMGetRequest.Opcode := 0x03;
      TOAMGetRequest.Flags := 0x0050;
      TOAMGetRequest.OAMPDUCode := 0xfe;
      TOAMGetRequest.OUId := [0x2a; 0xea; 0x15];
      TOAMGetRequest.TOMIOpcode := 0x01;
      TOAMGetRequest.CTBranch := 0x0c;
      TOAMGetRequest.CTType := 0x0c7a;
      TOAMGetRequest.CTLength := 4;
      TOAMGetRequest.CTInstance := ct;
      TOAMGetRequest.OCBranch := 0x0c;
      TOAMGetRequest.OCType := 0x0dce;
      TOAMGetRequest.OCLength := 4;
      TOAMGetRequest.OCInstance := 0x00000000;
      TOAMGetRequest.VdBranch := 0xde;
      TOAMGetRequest.VdLeaf := 0x0009;
      TOAMGetRequest.EndBranch := 0x00 |}, instance).

(** [encode(getVendorName())]: the bytes of the request generated at counter
    value [instance]. *)
Definition encodeGetVendorName (instance : Z) : option (list Z) :=
  TOAMGetRequest.SerializeTo (fst (GnerateGetVendorName instance)).

(** [GeneratePcscompuTivitcom] (msg_pcscompu_tibitcom.go): the correlation
    tag of this request is the constant 3; the counter is not touched. *)
Definition GeneratePcscompuTivitcom (oc : TomiObjectContext.t)
    : TOAMGetRequest.t :=
  {| TOAMGetRequest.Opcode := 0x03;
     TOAMGetRequest.Flags := 0x0050;
     TOAMGetRequest.OAMPDUCode := 0xfe;
     TOAMGetRequest.OUId := [0x2a; 0xea; 0x15];
     TOAMGetRequest.TOMIOpcode := 0x81;
     TOAMGetRequest.CTBranch := 0x0c;
     TOAMGetRequest.CTType := 0x0c7a;
     TOAMGetRequest.CTLength := 4;
     TOAMGetRequest.CTInstance := 0x00000003;
     TOAMGetRequest.OCBranch := TomiObjectContext.Branch oc;
     TOAMGetRequest.OCType := TomiObjectContext.Type_ oc;
     TOAMGetRequest.OCLength := TomiObjectContext.Length oc;
     TOAMGetRequest.OCInstance := TomiObjectContext.Instance oc;
     TOAMGetRequest.VdBranch := 0x01;
     TOAMGetRequest.VdLeaf := 0x0007;
     TOAMGetRequest.EndBranch := 0 |}.

(** The generators of the sources at hand that build an OLT-management
    request with a correlation tag, by the name of the function.
    ([GenerateGetMpcpMacAddress] builds a request without a correlation
    tag; the generators of requests to an ONU carry none either.) *)
Module Generator.
Inductive t :=
| GnerateGetVendorName
| GenerateGetFirmwareVersion
| GenerateManuFacturerInfo
| GenerateGetMacAddress
| GenerateGetSerialNumber
| GenerateGetPonMode
| GenerateSetHbtxPeriod
| GenerateSetHbtxTemplate
| GenerateSetManagementLock
| GenerateSetActionReset
| GenerateGenericActionCreate
| GenerateGenericActionCreateDs
| GenerateIngressPort
| GenerateCaptureProtocols
| GenerateGetTrafficControlReferenceTableReq
| GenerateSetTrafficProfile
| GenerateTrafficControlTrafficProfile
| GeneratePriority
| GenerateGuaranteedMbs
| GenerateBestEffortRate
| GenerateSetActionDelete
| GenerateSetActionDeleteStream
| GenerateSetDefaultOutlet
| GenerateL2switchingDomainActionLnletEntryUs
| GenerateL2switchingDomainActionLnletEntryDs
| GenerateL2switchingDomainActionInletEntryUsDel
| GenerateL2switchingDomainActionInletEntryDsDel
| GeneratePcscompuTivitcom.
End Generator.

(** The correlation tag of the request a call of a generator builds, and
    the counter after the call, whatever the other arguments of the
    generator: every generator has the one line [CTInstance:
    getOltInstance()] ([GenerateSetActionReset] writes the value of
    [getOltInstance()] into the bytes 12 to 15 of its frame, where the tag
    is), except [GeneratePcscompuTivitcom], whose line is [CTInstance:
    0x00000003]. *)
Definition CTInstance_of (g : Generator.t) (instance : Z) : Z * Z :=
  match g with
  | Generator.GeneratePcscompuTivitcom => (0x00000003, instance)
  | Generator.GnerateGetVendorName
  | Generator.GenerateGetFirmwareVersion
  | Generator.GenerateManuFacturerInfo
  | Generator.GenerateGetMacAddress
  | Generator.GenerateGetSerialNumber
  | Generator.GenerateGetPonMode
  | Generator.GenerateSetHbtxPeriod
  | Generator.GenerateSetHbtxTemplate
  | Generator.GenerateSetManagementLock
  | Generator.GenerateSetActionReset
  | Generator.GenerateGenericActionCreate
  | Generator.GenerateGenericActionCreateDs
  | Generator.GenerateIngressPort
  | Generator.GenerateCaptureProtocols
  | Generator.GenerateGetTrafficControlReferenceTableReq
  | Generator.GenerateSetTrafficProfile
  | Generator.GenerateTrafficControlTrafficProfile
  | Generator.GeneratePriority
  | Generator.GenerateGuaranteedMbs
  | Generator.GenerateBestEffortRate
  | Generator.GenerateSetActionDelete
  | Generator.GenerateSetActionDeleteStream
  | Generator.GenerateSetDefaultOutlet
  | Generator.GenerateL2switchingDomainActionLnletEntryUs
  | Generator.GenerateL2switchingDomainActionLnletEntryDs
  | Generator.GenerateL2switchingDomainActionInletEntryUsDel
  | Generator.GenerateL2switchingDomainActionInletEntryDsDel =>
      getOltInstance instance
  end.



(* ===================================================================== *)
(** * Package l2oam: msg_discovery.go *)
(* ===================================================================== *)

(** [DiscoverySolicit]: every field of the struct is assigned by [Decode], so
    the receiver it starts from does not matter and [Decode] returns the
    decoded struct. *)
Module DiscoverySolicit.

Record t := mk {
  Opcode : Z;         (* uint8 *)
  DiscoveryType : Z;  (* uint8 *)
  VendorType : Z;     (* uint8 *)
  Length : Z;         (* uint16: length of after this data without Padding *)
  VendorIDType : Z;     (* uint8 *)
  VendorIDLength : Z;   (* uint16 *)
  VendorID : list Z;
  CPType : Z;     (* uint8 *)
  CPLength : Z;   (* uint16 *)
  CPValue : list Z;
  NWType : Z;     (* uint8 *)
  NWLength : Z;   (* uint16 *)
  NWValue : list Z;
  DVType : Z;     (* uint8 *)
  DVLength : Z;   (* uint16 *)
  DVValue : list Z;
  SCPType : Z;     (* uint8 *)
  SCPLength : Z;   (* uint16 *)
  SCPValue : list Z;
  PadType : Z;     (* uint8 *)
  PadLength : Z;   (* uint16 *)
  PadValue : list Z
}.

Definition Len (d : t) : Z := (2) + (3) + Length d + (PadLength d + 3).

Definition SerializeTo (d : t) : option (list Z) :=
  let plen := Len d in
  data ← PrependBytes plen;
  let i := 0 in
  data ← store data i (Opcode d);
  let i := i + 1 in
  data ← store data i (DiscoveryType d);
  let i := i + 1 in
  data ← store data i (VendorType d);
  let i := i + 1 in
  data ← with_slice data i (i + 2) (PutUint16 (Length d));
  let i := i + 2 in
  data ← store data i (VendorIDType d);
  let i := i + 1 in
  data ← with_slice data i (i + 2) (PutUint16 (VendorIDLength d));
  let i := i + 2 in
  data ← with_slice data i (i + VendorIDLength d) (copy (VendorID d));
  let i := i + VendorIDLength d in
  data ← store data i (CPType d);
  let i := i + 1 in
  data ← with_slice data i (i + 2) (PutUint16 (CPLength d));
  let i := i + 2 in
  data ← with_slice data i (i + CPLength d) (copy (CPValue d));
  let i := i + CPLength d in
  data ← store data i (NWType d);
  let i := i + 1 in
  data ← with_slice data i (i + 2) (PutUint16 (NWLength d));
  let i := i + 2 in
  data ← with_slice data i (i + NWLength d) (copy (NWValue d));
  let i := i + NWLength d in
  data ← store data i (DVType d);
  let i := i + 1 in
  data ← with_slice data i (i + 2) (PutUint16 (DVLength d));
  let i := i + 2 in
  data ← with_slice data i (i + DVLength d) (copy (DVValue d));
  let i := i + DVLength d in
  data ← store data i (SCPType d);
  let i := i + 1 in
  data ← with_slice data i (i + 2) (PutUint16 (SCPLength d));
  let i := i + 2 in
  data ← with_slice data i (i + SCPLength d) (copy (SCPValue d));
  let i := i + SCPLength d in
  data ← store data i (PadType d);
  let i := i + 1 in
  data ← with_slice data i (i + 2) (PutUint16 (PadLength d));
  let i := i + 2 in
  data ← with_slice data i (i + PadLength d) (copy (PadValue d));
  Some data.

Definition Decode (data : list Z) : option t :=
  let i := 0 in
  Opcode ← index data i;
  let i := i + 1 in
  DiscoveryType ← index data i;
  let i := i + 1 in
  VendorType ← index data i;
  let i := i + 1 in
  Length ← slice data i (i + 2) ≫= Uint16;
  let i := i + 2 in
  VendorIDType ← index data i;
  let i := i + 1 in
  VendorIDLength ← slice data i (i + 2) ≫= Uint16;
  let i := i + 2 in
  VendorID ← slice data i (i + VendorIDLength);
  let i := i + VendorIDLength in
  CPType ← index data i;
  let i := i + 1 in
  CPLength ← slice data i (i + 2) ≫= Uint16;
  let i := i + 2 in
  CPValue ← slice data i (i + CPLength);
  let i := i + CPLength in
  NWType ← index data i;
  let i := i + 1 in
  NWLength ← slice data i (i + 2) ≫= Uint16;
  let i := i + 2 in
  NWValue ← slice data i (i + NWLength);
  let i := i + NWLength in
  DVType ← index data i;
  let i := i + 1 in
  DVLength ← slice data i (i + 2) ≫= Uint16;
  let i := i + 2 in
  DVValue ← slice data i (i + DVLength);
  let i := i + DVLength in
  SCPType ← index data i;
  let i := i + 1 in
  SCPLength ← slice data i (i + 2) ≫= Uint16;
  let i := i + 2 in
  SCPValue ← slice data i (i + SCPLength);
  let i := i + SCPLength in
  PadType ← index data i;
  let i := i + 1 in
  PadLength ← slice data i (i + 2) ≫= Uint16;
  let i := i + 2 in
  PadValue ← slice data i (i + PadLength);
  Some {| Opcode := Opcode; DiscoveryType := DiscoveryType;
          VendorType := VendorType; Length := Length;
          VendorIDType := VendorIDType; VendorIDLength := VendorIDLength; VendorID := VendorID;
          CPType := CPType; CPLength := CPLength; CPValue := CPValue;
          NWType := NWType; NWLength := NWLength; NWValue := NWValue;
          DVType := DVType; DVLength := DVLength; DVValue := DVValue;
          SCPType := SCPType; SCPLength := SCPLength; SCPValue := SCPValue;
          PadType := PadType; PadLength := PadLength; PadValue := PadValue |}.

End DiscoverySolicit.

(** [DiscoveryHello]. *)
Module DiscoveryHello.

Record t := mk {
  Opcode : Z;         (* uint8 *)
  DiscoveryType : Z;  (* uint8 *)
  VendorType : Z;     (* uint8 *)
  Length : Z;         (* uint16: length of after this data without Padding *)
  VendorIDType : Z;     (* uint8 *)
  VendorIDLength : Z;   (* uint16 *)
  VendorID : list Z;
  NWType : Z;     (* uint8 *)
  NWLength : Z;   (* uint16 *)
  NWValue : list Z;
  DVType : Z;     (* uint8 *)
  DVLength : Z;   (* uint16 *)
  DVValue : list Z;
  SCPType : Z;     (* uint8 *)
  SCPLength : Z;   (* uint16 *)
  SCPValue : list Z;
  TunnelType : Z;     (* uint8 *)
  TunnelLength : Z;   (* uint16 *)
  TunnelValue : list Z;
  PadType : Z;     (* uint8 *)
  PadLength : Z;   (* uint16 *)
  PadValue : list Z
}.

Definition Len (d : t) : Z := (2) + (3) + Length d + (PadLength d + 3).

Definition SerializeTo (d : t) : option (list Z) :=
  let plen := Len d in
  data ← PrependBytes plen;
  let i := 0 in
  data ← store data i (Opcode d);
  let i := i + 1 in
  data ← store data i (DiscoveryType d);
  let i := i + 1 in
  data ← store data i (VendorType d);
  let i := i + 1 in
  data ← with_slice data i (i + 2) (PutUint16 (Length d));
  let i := i + 2 in
  data ← store data i (VendorIDType d);
  let i := i + 1 in
  data ← with_slice data i (i + 2) (PutUint16 (VendorIDLength d));
  let i := i + 2 in
  data ← with_slice data i (i + VendorIDLength d) (copy (VendorID d));
  let i := i + VendorIDLength d in
  data ← store data i (NWType d);
  let i := i + 1 in
  data ← with_slice data i (i + 2) (PutUint16 (NWLength d));
  let i := i + 2 in
  data ← with_slice data i (i + NWLength d) (copy (NWValue d));
  let i := i + NWLength d in
  data ← store data i (DVType d);
  let i := i + 1 in
  data ← with_slice data i (i + 2) (PutUint16 (DVLength d));
  let i := i + 2 in
  data ← with_slice data i (i + DVLength d) (copy (DVValue d));
  let i := i + DVLength d in
  data ← store data i (SCPType d);
  let i := i + 1 in
  data ← with_slice data i (i + 2) (PutUint16 (SCPLength d));
  let i := i + 2 in
  data ← with_slice data i (i + SCPLength d) (copy (SCPValue d));
  let i := i + SCPLength d in
  data ← store data i (TunnelType d);
  let i := i + 1 in
  data ← with_slice data i (i + 2) (PutUint16 (TunnelLength d));
  let i := i + 2 in
  data ← with_slice data i (i + TunnelLength d) (copy (TunnelValue d));
  let i := i + TunnelLength d in
  data ← store data i (PadType d);
  let i := i + 1 in
  data ← with_slice data i (i + 2) (PutUint16 (PadLength d));
  let i := i + 2 in
  data ← with_slice data i (i + PadLength d) (copy (PadValue d));
  Some data.

Definition Decode (data : list Z) : option t :=
  let i := 0 in
  Opcode ← index data i;
  let i := i + 1 in
  DiscoveryType ← index data i;
  let i := i + 1 in
  VendorType ← index data i;
  let i := i + 1 in
  Length ← slice data i (i + 2) ≫= Uint16;
  let i := i + 2 in
  VendorIDType ← index data i;
  let i := i + 1 in
  VendorIDLength ← slice data i (i + 2) ≫= Uint16;
  let i := i + 2 in
  VendorID ← slice data i (i + VendorIDLength);
  let i := i + VendorIDLength in
  NWType ← index data i;
  let i := i + 1 in
  NWLength ← slice data i (i + 2) ≫= Uint16;
  let i := i + 2 in
  NWValue ← slice data i (i + NWLength);
  let i := i + NWLength in
  DVType ← index data i;
  let i := i + 1 in
  DVLength ← slice data i (i + 2) ≫= Uint16;
  let i := i + 2 in
  DVValue ← slice data i (i + DVLength);
  let i := i + DVLength in
  SCPType ← index data i;
  let i := i + 1 in
  SCPLength ← slice data i (i + 2) ≫= Uint16;
  let i := i + 2 in
  SCPValue ← slice data i (i + SCPLength);
  let i := i + SCPLength in
  TunnelType ← index data i;
  let i := i + 1 in
  TunnelLength ← slice data i (i + 2) ≫= Uint16;
  let i := i + 2 in
  TunnelValue ← slice data i (i + TunnelLength);
  let i := i + TunnelLength in
  PadType ← index data i;
  let i := i + 1 in
  PadLength ← slice data i (i + 2) ≫= Uint16;
  let i := i + 2 in
  PadValue ← slice data i (i + PadLength);
  Some {| Opcode := Opcode; DiscoveryType := DiscoveryType;
          VendorType := VendorType; Length := Length;
          VendorIDType := VendorIDType; VendorIDLength := VendorIDLength; VendorID := VendorID;
          NWType := NWType; NWLength := NWLength; NWValue := NWValue;
          DVType := DVType; DVLength := DVLength; DVValue := DVValue;
          SCPType := SCPType; SCPLength := SCPLength; SCPValue := SCPValue;
          TunnelType := TunnelType; TunnelLength := TunnelLength; TunnelValue := TunnelValue;
          PadType := PadType; PadLength := PadLength; PadValue := PadValue |}.

End DiscoveryHello.

(** [GenerateDiscoverySOLICIT]; [[]byte("tibitcom.com")] is written out. *)
Definition GenerateDiscoverySOLICIT : DiscoverySolicit.t :=
  {| DiscoverySolicit.Opcode := 0xfd;
     DiscoverySolicit.DiscoveryType := 0x01;
     DiscoverySolicit.VendorType := 0xfe;
     DiscoverySolicit.Length := 37;
     DiscoverySolicit.VendorIDType := 0xfd;
     DiscoverySolicit.VendorIDLength := 3;
     DiscoverySolicit.VendorID := [0x2a; 0xea; 0x15];
     DiscoverySolicit.CPType := 0x05;
     DiscoverySolicit.CPLength := 1;
     DiscoverySolicit.CPValue := [128];
     DiscoverySolicit.NWType := 0x06;
     DiscoverySolicit.NWLength := 16;
     DiscoverySolicit.NWValue :=
       [0x74; 0x69; 0x62; 0x69; 0x74; 0x63; 0x6f; 0x6d; 0x2e; 0x63; 0x6f; 0x6d];
     DiscoverySolicit.DVType := 0x07;
     DiscoverySolicit.DVLength := 1;
     DiscoverySolicit.DVValue := [1];
     DiscoverySolicit.SCPType := 0x08;
     DiscoverySolicit.SCPLength := 1;
     DiscoverySolicit.SCPValue := [0x03];
     DiscoverySolicit.PadType := 0xff;
     DiscoverySolicit.PadLength := 1;
     DiscoverySolicit.PadValue := [0] |}.


(* ===================================================================== *)
(** * Package l2oam: OAMPDU Information (keep-alive) *)
(* ===================================================================== *)

(** A non-nil [error] made by [fmt.Errorf(format, arg)]; [None] in an
    [option error] is Go's [nil]. *)
Inductive error := Errorf (format : string) (arg : Z).

Definition OampduTlvTypeLocalInfo : Z := 0x01.
Definition OampduTlvTypeRemoteInfo : Z := 0x02.
Definition OampduTlvTypeOrganizationSpecificInfo : Z := 0xfe.

Module OAMPDUInformation.

Record t := mk {
  Opcode : Z;     (* uint8 *)
  Flags : Z;      (* uint16 *)
  Code : Z;       (* uint8 *)
  LIType : Z;     (* uint8 *)
  LILength : Z;   (* uint8 *)
  LIValue : list Z;
  RIType : Z;     (* uint8 *)
  RILength : Z;   (* uint8 *)
  RIValue : list Z;
  OSIType : Z;    (* uint8 *)
  OSILength : Z;  (* uint8 *)
  OSIValue : list Z
}.

(** [&OAMPDUInformation{}]: the zero value, on which [Decode] is called. *)
Definition zero : t := mk 0 0 0 0 0 [] 0 0 [] 0 0 [].

Definition Len (d : t) : Z :=
  (1) + (3) + LILength d + RILength d + OSILength d.

Definition SerializeTo (d : t) : option (list Z) :=
  let plen := Len d in
  data ← PrependBytes plen;
  let i := 0 in
  data ← store data i (Opcode d);
  let i := i + 1 in
  data ← with_slice data i (i + 2) (PutUint16 (Flags d));
  let i := i + 2 in
  data ← store data i (Code d);
  let i := i + 1 in
  '(data, i) ←
    (if negb (LILength d =? 0) then
       data ← store data i (LIType d);
       data ← store data (i + 1) (LILength d);
       data ← with_slice data (i + 2) (i + LILength d) (copy (LIValue d));
       Some (data, i + LILength d)
     else Some (data, i));
  '(data, i) ←
    (if negb (RILength d =? 0) then
       data ← store data i (RIType d);
       data ← store data (i + 1) (RILength d);
       data ← with_slice data (i + 2) (i + RILength d) (copy (RIValue d));
       Some (data, i + RILength d)
     else Some (data, i));
  data ←
    (if negb (OSILength d =? 0) then
       data ← store data i (OSIType d);
       data ← store data (i + 1) (OSILength d);
       data ← with_slice data (i + 2) (i + OSILength d) (copy (OSIValue d));
       Some data
     else Some data);
  Some data.

Definition set_LI (d : t) (ty ln : Z) (v : list Z) : t :=
  mk (Opcode d) (Flags d) (Code d) ty ln v
     (RIType d) (RILength d) (RIValue d) (OSIType d) (OSILength d) (OSIValue d).
Definition set_RI (d : t) (ty ln : Z) (v : list Z) : t :=
  mk (Opcode d) (Flags d) (Code d) (LIType d) (LILength d) (LIValue d)
     ty ln v (OSIType d) (OSILength d) (OSIValue d).
Definition set_OSI (d : t) (ty ln : Z) (v : list Z) : t :=
  mk (Opcode d) (Flags d) (Code d) (LIType d) (LILength d) (LIValue d)
     (RIType d) (RILength d) (RIValue d) ty ln v.
Definition set_header (d : t) (op fl co : Z) : t :=
  mk op fl co (LIType d) (LILength d) (LIValue d)
     (RIType d) (RILength d) (RIValue d) (OSIType d) (OSILength d) (OSIValue d).

(** The [for] loop of [Decode].  Every iteration that does not leave the loop
    advances [i] by [tlvLength >= 1], so [fuel] iterations with
    [fuel > len data] are never used up. *)
Fixpoint Decode_loop (fuel : nat) (d : t) (data : list Z) (i : Z)
    : option (t * option error) :=
  match fuel with
  | O => None
  | S fuel =>
      if len data <=? i then Some (d, None)
      else
        tlvType ← index data i;
        tlvLength ← index data (i + 1);
        if tlvLength =? 0 then Some (d, None)
        else
          tlvValue ← slice data (i + 2) (i + tlvLength);
          let i := i + tlvLength in
          if tlvType =? OampduTlvTypeLocalInfo then
            Decode_loop fuel (set_LI d tlvType tlvLength tlvValue) data i
          else if tlvType =? OampduTlvTypeRemoteInfo then
            Decode_loop fuel (set_RI d tlvType tlvLength tlvValue) data i
          else if tlvType =? OampduTlvTypeOrganizationSpecificInfo then
            Decode_loop fuel (set_OSI d tlvType tlvLength tlvValue) data i
          else Some (d, Some (Errorf "tlvType Error: %v" tlvType))
  end.

(** [Decode] on the receiver [d]: the struct after the call and the returned
    error. *)
Definition Decode (d : t) (data : list Z) : option (t * option error) :=
  let i := 0 in
  Opcode ← index data i;
  let i := i + 1 in
  Flags ← slice data i (i + 2) ≫= Uint16;
  let i := i + 2 in
  Code ← index data i;
  let i := i + 1 in
  Decode_loop (S (length data)) (set_header d Opcode Flags Code) data i.

(** [IsOnuPkgA]; [&&] evaluates its right operand only when the left one
    holds. *)
Definition IsOnuPkgA (d : t) : option bool :=
  if OSILength d =? 0 then Some true
  else if OSILength d =? 7 then
    v0 ← index (OSIValue d) 0;
    if v0 =? 0x00 then
      v1 ← index (OSIValue d) 1;
      if v1 =? 0x10 then
        v2 ← index (OSIValue d) 2;
        Some (v2 =? 0x00)
      else Some false
    else Some false
  else Some false.

Definition IsOnuPkgB (d : t) : option bool :=
  if OSILength d =? 0 then Some true
  else if OSILength d =? 7 then
    v0 ← index (OSIValue d) 0;
    if v0 =? 0x90 then
      v1 ← index (OSIValue d) 1;
      if v1 =? 0x82 then
        v2 ← index (OSIValue d) 2;
        Some (v2 =? 0x60)
      else Some false
    else Some false
  else Some false.

End OAMPDUInformation.

Definition keepAliveLIValue : list Z :=
  [0x01; 0x00; 0x00; 0x00; 0x1b; 0x04; 0xb0; 0x2a; 0xea; 0x15; 0x00; 0x00; 0x00; 0x23].

(** [GeneateKeepAlive1]; fields not named in the literal are zero. *)
Definition GeneateKeepAlive1 (isOnuPkgA : bool) : OAMPDUInformation.t :=
  let '(osiLength, osiValue) :=
    if isOnuPkgA then (7, [0x00; 0x10; 0x00; 0x00; 0x23])
    else (8, [0x90; 0x82; 0x60; 0x02; 0x01; 0x01]) in
  {| OAMPDUInformation.Opcode := 0x03;
     OAMPDUInformation.Flags := 0x0008;
     OAMPDUInformation.Code := 0x00;
     OAMPDUInformation.LIType := OampduTlvTypeLocalInfo;
     OAMPDUInformation.LILength := 16;
     OAMPDUInformation.LIValue := keepAliveLIValue;
     OAMPDUInformation.RIType := 0;
     OAMPDUInformation.RILength := 0;
     OAMPDUInformation.RIValue := [];
     OAMPDUInformation.OSIType := OampduTlvTypeOrganizationSpecificInfo;
     OAMPDUInformation.OSILength := osiLength;
     OAMPDUInformation.OSIValue := osiValue |}.

(** [GeneateKeepAlive2]. *)
Definition GeneateKeepAlive2 (riValue : list Z) (isOnuPkgA : bool)
    : OAMPDUInformation.t :=
  let '(osiLength, osiValue) :=
    if isOnuPkgA then (7, [0x00; 0x10; 0x00; 0x00; 0x23])
    else (8, [0x90; 0x82; 0x60; 0x02; 0x01; 0x01]) in
  {| OAMPDUInformation.Opcode := 0x03;
     OAMPDUInformation.Flags := 0x0030;
     OAMPDUInformation.Code := 0x00;
     OAMPDUInformation.LIType := OampduTlvTypeLocalInfo;
     OAMPDUInformation.LILength := 16;
     OAMPDUInformation.LIValue := keepAliveLIValue;
     OAMPDUInformation.RIType := OampduTlvTypeRemoteInfo;
     OAMPDUInformation.RILength := 16;
     OAMPDUInformation.RIValue := riValue;
     OAMPDUInformation.OSIType := OampduTlvTypeOrganizationSpecificInfo;
     OAMPDUInformation.OSILength := osiLength;
     OAMPDUInformation.OSIValue := osiValue |}.

(** [GeneateKeepAlive3]. *)
Definition GeneateKeepAlive3 (riValue : list Z) : OAMPDUInformation.t :=
  {| OAMPDUInformation.Opcode := 0x03;
     OAMPDUInformation.Flags := 0x0050;
     OAMPDUInformation.Code := 0x00;
     OAMPDUInformation.LIType := OampduTlvTypeLocalInfo;
     OAMPDUInformation.LILength := 16;
     OAMPDUInformation.LIValue := keepAliveLIValue;
     OAMPDUInformation.RIType := OampduTlvTypeRemoteInfo;
     OAMPDUInformation.RILength := 16;
     OAMPDUInformation.RIValue := riValue;
     OAMPDUInformation.OSIType := 0;
     OAMPDUInformation.OSILength := 0;
     OAMPDUInformation.OSIValue := [] |}.


(* ===================================================================== *)
(** * Package l2oam: L2 switching domain request, TPID/VID entries *)
(* ===================================================================== *)

Module TpidVid.
Record t := mk {
  Length : Z;       (* uint8 *)
  TpIDLength : Z;   (* uint8 *)
  TpIDValue : list Z;
  VIdLength : Z;    (* uint8 *)
  VIdValue : list Z
}.
End TpidVid.

(** [serializeTpidVid(tpidVid, data, startIndex)]: writes into the caller's
    buffer and returns the next index; the result is the buffer after the
    call and that index. *)
Definition serializeTpidVid (tpidVid : TpidVid.t) (data : list Z)
    (startIndex : Z) : option (list Z * Z) :=
  let i := startIndex in
  data ← store data i (TpidVid.Length tpidVid);
  let i := i + 1 in
  let ln := TpidVid.TpIDLength tpidVid in
  data ← store data i ln;
  let i := i + 1 in
  '(data, i) ←
    (if negb (ln =? 128) then
       data ← with_slice data i (i + ln) (copy (TpidVid.TpIDValue tpidVid));
       Some (data, i + ln)
     else Some (data, i));
  let ln := TpidVid.VIdLength tpidVid in
  data ← store data i ln;
  let i := i + 1 in
  '(data, i) ←
    (if negb (ln =? 128) then
       data ← with_slice data i (i + ln) (copy (TpidVid.VIdValue tpidVid));
       Some (data, i + ln)
     else Some (data, i));
  Some (data, i).

(** The number of value bytes an entry puts on the wire for a field whose
    length byte is [ln]. *)
Definition emitted (ln : Z) : Z := if ln =? 128 then 0 else ln.

(* ===================================================================== *)
(** * Package l2oam: ONU status ledger (onu_list.json) *)
(* ===================================================================== *)

Module OnuStatus.
Record t := mk {
  ID : string;
  AdminState : string;
  OpeState : string;
  ConnectState : string;
  MacAddress : string;
  RebootState : string
}.
Definition set_RebootState (s : t) (v : string) : t :=
  mk (ID s) (AdminState s) (OpeState s) (ConnectState s) (MacAddress s) v.
End OnuStatus.

(** A [[]OnuStatus]: [None] is the nil slice. *)
Definition OnuStatusSlice : Type := option (list OnuStatus.t).

(** [unicode/utf8.ValidString]: a lead byte below 0x80 stands alone; 0xc2
    to 0xdf takes one continuation byte, 0xe0 to 0xef two and 0xf0 to 0xf4
    three, the first of them within the bounds that exclude overlong forms,
    surrogates and values above U+10FFFF; every other lead byte, and a
    sequence cut short, is invalid. *)
Fixpoint utf8_ValidString (s : string) : bool :=
  let byte c := Z.of_nat (Ascii.nat_of_ascii c) in
  let within lo hi b := (lo <=? b) && (b <=? hi) in
  match s with
  | EmptyString => true
  | String c0 s1 =>
      let b0 := byte c0 in
      if b0 <? 0x80 then utf8_ValidString s1
      else
        match s1 with
        | EmptyString => false
        | String c1 s2 =>
            let b1 := byte c1 in
            if within 0xc2 0xdf b0 then
              within 0x80 0xbf b1 && utf8_ValidString s2
            else
              match s2 with
              | EmptyString => false
              | String c2 s3 =>
                  let b2 := byte c2 in
                  if within 0xe0 0xef b0 then
                    (if b0 =? 0xe0 then within 0xa0 0xbf b1
                     else if b0 =? 0xed then within 0x80 0x9f b1
                     else within 0x80 0xbf b1)
                    && within 0x80 0xbf b2 && utf8_ValidString s3
                  else
                    match s3 with
                    | EmptyString => false
                    | String c3 s4 =>
                        let b3 := byte c3 in
                        if within 0xf0 0xf4 b0 then
                          (if b0 =? 0xf0 then within 0x90 0xbf b1
                           else if b0 =? 0xf4 then within 0x80 0x8f b1
                           else within 0x80 0xbf b1)
                          && within 0x80 0xbf b2 && within 0x80 0xbf b3
                          && utf8_ValidString s4
                        else false
                    end
              end
        end
  end.

(** A record all of whose strings are valid UTF-8. *)
Definition OnuStatus_valid (s : OnuStatus.t) : bool :=
  utf8_ValidString (OnuStatus.ID s)
  && utf8_ValidString (OnuStatus.AdminState s)
  && utf8_ValidString (OnuStatus.OpeState s)
  && utf8_ValidString (OnuStatus.ConnectState s)
  && utf8_ValidString (OnuStatus.MacAddress s)
  && utf8_ValidString (OnuStatus.RebootState s).

(** The file [$HOME/onu_list.json].  Its bytes are kept as what
    [json.Unmarshal] makes of them for a [[]OnuStatus]: the document [null],
    an array of records, or something [json.Unmarshal] rejects.  The strings
    [json.Unmarshal] returns are valid UTF-8, so the records of a
    [JsonArray] that stands for a file are. *)
Inductive JsonDoc :=
| JsonNull
| JsonArray (l : list OnuStatus.t)
| JsonInvalid.

Inductive OnuListFile :=
| FileNotExist                 (* [ioutil.ReadFile] fails, [os.IsNotExist] *)
| FileUnreadable               (* [ioutil.ReadFile] fails otherwise *)
| FileContent (doc : JsonDoc).

(** [json.Marshal(list)], as the document that [json.Unmarshal] reads back.
    For records whose strings are valid UTF-8 that is the list itself.
    [encoding/json] replaces a byte that is not part of a valid UTF-8
    sequence by U+FFFD, which is not followed here: a record that comes
    from a caller and not from the file is written as it is only if it is
    [OnuStatus_valid], and the statements about such a record assume so. *)
Definition json_Marshal (list : OnuStatusSlice) : JsonDoc :=
  match list with
  | None => JsonNull
  | Some l => JsonArray l
  end.

(** [json.Unmarshal(bytes, &onuList)] on a nil [onuList]. *)
Definition json_Unmarshal (doc : JsonDoc) : OnuStatusSlice * option error :=
  match doc with
  | JsonNull => (None, None)
  | JsonArray l => (Some l, None)
  | JsonInvalid => (None, Some (Errorf "invalid character" 0))
  end.

(** [ReadOnuStatusList]: a read error other than "not exist" leaves [bytes]
    empty, which [json.Unmarshal] rejects. *)
Definition ReadOnuStatusList (file : OnuListFile)
    : OnuStatusSlice * option error :=
  match file with
  | FileNotExist => (None, None)
  | FileUnreadable => (None, Some (Errorf "unexpected end of JSON input" 0))
  | FileContent doc =>
      match json_Unmarshal doc with
      | (_, Some err) => (None, Some err)
      | (onuList, None) => (onuList, None)
      end
  end.

(** [WriteOnuStatusList]: overwrites the whole file. *)
Definition WriteOnuStatusList (list : OnuStatusSlice) : OnuListFile :=
  FileContent (json_Marshal list).

(** [GetOnuFromDeviceID]. *)
Fixpoint GetOnuFromDeviceID_range (list : list OnuStatus.t) (id : string)
    : option OnuStatus.t :=
  match list with
  | [] => None
  | sts :: list =>
      if negb (String.eqb (OnuStatus.ID sts) id) then Some sts
      else GetOnuFromDeviceID_range list id
  end.

Definition GetOnuFromDeviceID (file : OnuListFile) (id : string)
    : option OnuStatus.t * option error :=
  match ReadOnuStatusList file with
  | (_, Some err) => (None, Some err)
  | (None, None) => (None, None)
  | (Some list, None) => (GetOnuFromDeviceID_range list id, None)
  end.

(** [GetOnuFromMacAddr]. *)
Fixpoint GetOnuFromMacAddr_range (list : list OnuStatus.t) (addr : string)
    : option OnuStatus.t :=
  match list with
  | [] => None
  | sts :: list =>
      if String.eqb (OnuStatus.MacAddress sts) addr then Some sts
      else GetOnuFromMacAddr_range list addr
  end.

Definition GetOnuFromMacAddr (file : OnuListFile) (addr : string)
    : option OnuStatus.t * option error :=
  match ReadOnuStatusList file with
  | (_, Some err) => (None, Some err)
  | (None, None) => (None, None)
  | (Some list, None) => (GetOnuFromMacAddr_range list addr, None)
  end.

(** [OnuPkgTypeA], [OnuPkgTypeB], the initial value of the variable
    [OnuPkgType] (which [readTechProfile] sets to either constant) and
    [GenerateSetResetOnu]; a [TibitFrame] is its [Data]. *)
Definition OnuPkgTypeA : string := "PkgA".
Definition OnuPkgTypeB : string := "PkgB".
Definition OnuPkgType_init : string := "PkgB".

Definition GenerateSetResetOnu (pkgType : string) : list Z :=
  if String.eqb pkgType OnuPkgTypeB then
    [0x03; 0x00; 0x50; 0xfe; 0x90; 0x82; 0x60; 0x03;
     0xca; 0xfe; 0x00; 0xb9; 0x00; 0x0e; 0x01; 0x01;
     0x00; 0x00]
  else
    [0x03; 0x00; 0x50; 0xfe; 0x00; 0x10; 0x00; 0x03;
     0xd6; 0x00; 0x00; 0xd9; 0x00; 0x01; 0x80; 0x00;
     0x00].


(* ===================================================================== *)
(** * Package core: devices, registry and the effects of the adapter *)
(* ===================================================================== *)

Inductive LogLevel := LvDebug | LvInfo | LvWarn | LvError.

(** [layers.Ethernet], as far as the adapter reads it. *)
Record Ethernet := mkEthernet {
  SrcMAC : list Z;
  DstMAC : list Z;
  EthernetType : Z;     (* uint16 *)
  Contents : list Z;    (* the 14 header bytes *)
  Payload : list Z
}.

(** [layers.Dot1Q], as far as the adapter reads it. *)
Record Dot1Q := mkDot1Q {
  Dot1Q_Type : Z;       (* the field [Type], uint16 *)
  Dot1Q_Payload : list Z
}.

Definition EthernetTypeEAPOL : Z := 0x888e.
Definition EthernetTypeDot1Q : Z := 0x8100.
Definition EthernetTypeQinQ : Z := 0x88a8.

(** [oop.PacketIndication]. *)
Record PacketIndication := mkPacketIndication {
  IntfId : Z;
  GemportId : Z;
  PortNo : Z;
  Pkt : list Z;
  IntfType : string
}.

(** [L2oamCmd]. *)
Record L2oamCmd := mkL2oamCmd {
  Type_ : string;
  Cir : list Z;
  Pir : list Z;
  Tpid : list Z;
  Vid : list Z;
  Itpid : list Z;
  Ivid : list Z;
  OnuDeviceID : string
}.

(** A request handed to [device.send], kept as the call that generates it
    (the bytes of these requests play no part below). *)
Inductive Message :=
| GenerateGenericActionCreateDs
| GenerateL2switchingDomainActionLnletEntryDs
    (oc : TomiObjectContext.t) (tmTpidValue tmVidValue : list Z)
| GenerateSetDefaultOutlet (oc onuID : TomiObjectContext.t)
| GenerateL2switchingDomainActionLnletEntryUs
    (oc : TomiObjectContext.t) (pushTpidValue pushVidValue : list Z)
    (onuID : TomiObjectContext.t)
| TibitFrame (Data : list Z).

(** Modelled from the spec: the device types [L2oamOltDevice] and
    [L2oamOnuDevice] with their embedded [Base] are declared in a file that
    is not part of the sources at hand.  Following the data model of the
    specification a device carries its opaque device ID, its MAC address, the
    flow-installed flag, its object context (for an OLT the current L2
    switching domain, for an ONU the context naming it, absent until it is
    registered) and the most recently applied flow parameters. *)
Inductive DeviceKind := L2oamOltDevice | L2oamOnuDevice.

(** Modelled from the spec: a device object, with the dynamic type of the
    [L2oamDevice] interface value in [kind] and the fields of [Base]. *)
Record Device := mkDevice {
  kind : DeviceKind;
  Base_DeviceID : string;
  Base_MacAddress : string;
  Base_FlowAdded : bool;
  ObjectContext : option TomiObjectContext.t;
  L2oamCmd_ : option L2oamCmd
}.

Definition set_FlowAdded (d : Device) (b : bool) : Device :=
  mkDevice (kind d) (Base_DeviceID d) (Base_MacAddress d) b
           (ObjectContext d) (L2oamCmd_ d).
Definition set_ObjectContext (d : Device) (oc : option TomiObjectContext.t)
    : Device :=
  mkDevice (kind d) (Base_DeviceID d) (Base_MacAddress d) (Base_FlowAdded d)
           oc (L2oamCmd_ d).
Definition set_L2oamCmd (d : Device) (cmd : option L2oamCmd) : Device :=
  mkDevice (kind d) (Base_DeviceID d) (Base_MacAddress d) (Base_FlowAdded d)
           (ObjectContext d) cmd.

(** Calls that leave the code followed here.  Modelled from the spec: the
    device methods [receiveEapol], [recieveKeepAlive] and [recieve] (the
    EAPOL-receive path, the keep-alive engine and the request/response
    channel of the device) are not part of the sources at hand.  Such a call
    is recorded with the device and the frame it is given, and that is all
    that is known of it here: what the callee goes on to do to the devices,
    the link and the log is not part of this model, so that a statement below
    about a run that makes such a call speaks of the call and of nothing
    after it.  [SendPacketIn] is the call of [coreProxy.SendPacketIn] by
    which a packet-in leaves the adapter for the core. *)
Inductive Upcall :=
| SendPacketIn (logicalPortNum : Z) (packet : list Z)
| receiveEapol (device : nat) (etherPacket : Ethernet)
| recieveKeepAlive (device : nat) (etherPacket : Ethernet)
| recieve (device : nat) (etherPacket : Ethernet).

(** What the code around the adapter answers: whether the logger writes at
    a level ([logger.V]), the logical port the flow manager finds for a
    packet indication ([flowMgr.GetLogicalPortFromPacketIn]), and whether the
    core takes a packet-in ([coreProxy.SendPacketIn]).  None of the three is
    part of the sources at hand. *)
Record Env := mkEnv {
  logV : LogLevel -> bool;
  logicalPort : PacketIndication -> Z * option error;
  corePacketIn : Z -> list Z -> option error
}.

(** What the link does with the next request: [device.send] fails, no
    response arrives within [ResponseTimer], or a frame is delivered. *)
Inductive Outcome :=
| SendFails
| TimesOut
| Responds (ether : Ethernet).

(** The state of the process.  Devices are Go pointers: [heap] holds the
    objects, and both registry maps refer to them by address, so a change
    made through one reference is seen through the other. *)
Record World := mkWorld {
  heap : gmap nat Device;
  DeviceMap : gmap string nat;       (* registry, by MAC address *)
  DeviceIDMap : gmap string nat;     (* registry, by device ID *)
  flowVersion : Z;
  OnuPkgType : string;               (* [l2oam.OnuPkgType] *)
  file : OnuListFile;
  exchanges : list Outcome;
  sent : list (nat * Message);       (* requests handed to [send], oldest first *)
  upcalls : list Upcall;             (* oldest first *)
  logs : list (LogLevel * string);   (* oldest first *)
  env : Env
}.

(** The initial value of [flowVersion]; [L2oamAddFlow] sets it to 2 or 3. *)
Definition flowVersion_init : Z := 3.

(** Computations on the process state that may panic. *)
Definition M (A : Type) : Type := World -> option (A * World).

Definition ret {A} (a : A) : M A := fun w => Some (a, w).
Definition bind {A B} (m : M A) (k : A -> M B) : M B :=
  fun w => match m w with
           | Some (a, w) => k a w
           | None => None
           end.
Definition panic {A} : M A := fun _ => None.
Definition lift {A} (o : option A) : M A :=
  fun w => match o with Some a => Some (a, w) | None => None end.
Definition get : M World := fun w => Some (w, w).

Notation "'let*' x := m 'in' k" := (bind m (fun x => k))
  (at level 10, x pattern, m at level 100, k at level 200).
Notation "m ;;; k" := (bind m (fun _ => k))
  (at level 100, k at level 200, right associativity).

Definition logger (lvl : LogLevel) (msg : string) : M unit :=
  fun w => Some (tt, mkWorld (heap w) (DeviceMap w) (DeviceIDMap w)
                             (flowVersion w) (OnuPkgType w) (file w)
                             (exchanges w) (sent w)
                             (upcalls w) (logs w ++ [(lvl, msg)]) (env w)).

Definition upcall (c : Upcall) : M unit :=
  fun w => Some (tt, mkWorld (heap w) (DeviceMap w) (DeviceIDMap w)
                             (flowVersion w) (OnuPkgType w) (file w)
                             (exchanges w) (sent w)
                             (upcalls w ++ [c]) (logs w) (env w)).

Definition set_heap (h : gmap nat Device) (w : World) : World :=
  mkWorld h (DeviceMap w) (DeviceIDMap w) (flowVersion w) (OnuPkgType w)
          (file w) (exchanges w) (sent w) (upcalls w) (logs w) (env w).
Definition set_file (f : OnuListFile) (w : World) : World :=
  mkWorld (heap w) (DeviceMap w) (DeviceIDMap w) (flowVersion w)
          (OnuPkgType w) f (exchanges w) (sent w) (upcalls w) (logs w)
          (env w).
Definition set_link (e : list Outcome) (s : list (nat * Message)) (w : World)
    : World :=
  mkWorld (heap w) (DeviceMap w) (DeviceIDMap w) (flowVersion w)
          (OnuPkgType w) (file w) e s (upcalls w) (logs w) (env w).

(** Modelled from the spec: [FindL2oamDevice] and [FindL2oamDeviceByDeviceID]
    are not part of the sources at hand; they look a device up in the
    process-wide registry, keyed by MAC address and by device ID, and return
    nil for an unknown key. *)
Definition FindL2oamDevice (macAddress : string) : M (option nat) :=
  fun w => Some (DeviceMap w !! macAddress, w).

(** Modelled from the spec: the lookup by device ID, see [FindL2oamDevice]. *)
Definition FindL2oamDeviceByDeviceID (deviceID : string) : M (option nat) :=
  fun w => Some (DeviceIDMap w !! deviceID, w).

(** Reading and updating the object behind a device pointer; a dangling
    pointer does not occur in Go and is a panic here. *)
Definition deref (p : nat) : M Device := fun w => lift (heap w !! p) w.
Definition update (p : nat) (f : Device -> Device) : M unit :=
  fun w => match heap w !! p with
           | Some d => Some (tt, set_heap (<[p := f d]> (heap w)) w)
           | None => None
           end.

(** Modelled from the spec: the methods of the [L2oamDevice] interface are
    not part of the sources at hand.  The accessors read and write the fields
    of the device; [updateMap] stores the device in the registry again, which
    changes nothing as the registry already refers to the object. *)
Definition getObjectContext (p : nat) : M (option TomiObjectContext.t) :=
  let* d := deref p in ret (ObjectContext d).

(** Modelled from the spec: the setter of the object context. *)
Definition setObjectContext (p : nat) (oc : option TomiObjectContext.t)
    : M unit :=
  update p (fun d => set_ObjectContext d oc).

(** Modelled from the spec: the getter of the most recently applied flow
    parameters. *)
Definition getL2oamCmd (p : nat) : M (option L2oamCmd) :=
  let* d := deref p in ret (L2oamCmd_ d).

(** Modelled from the spec: the setter of the flow parameters.  The command
    is kept by value; the sequences below do not change a command after
    storing it. *)
Definition setL2oamCmd (p : nat) (cmd : option L2oamCmd) : M unit :=
  update p (fun d => set_L2oamCmd d cmd).

(** Modelled from the spec: [updateMap], the update path of the registry. *)
Definition updateMap (p : nat) : M unit := let* _ := deref p in ret tt.

(** Modelled from the spec: [send] and [waitResponse] are not part of the
    sources at hand.  Per the request/response channel of the specification
    [send] transmits the request to the device and [waitResponse] returns the
    next frame routed to the device, or a timeout error when none arrives
    within [ResponseTimer].  The link is the list [exchanges]; a request that
    was handed to [send] is recorded in [sent]. *)
Definition send (p : nat) (m : Message) : M (option error) :=
  fun w =>
    let s := sent w ++ [(p, m)] in
    match exchanges w with
    | SendFails :: rest => Some (Some (Errorf "send" 0), set_link rest s w)
    | e => Some (None, set_link e s w)
    end.

(** Modelled from the spec: [waitResponse(ResponseTimer)], see [send]. *)
Definition waitResponse (p : nat) : M (option Ethernet * option error) :=
  fun w =>
    match exchanges w with
    | Responds ether :: rest => Some ((Some ether, None), set_link rest (sent w) w)
    | _ :: rest => Some ((None, Some (Errorf "timeout" 0)), set_link rest (sent w) w)
    | [] => Some ((None, Some (Errorf "timeout" 0)), w)
    end.


(* ===================================================================== *)
(** * Package core: l2oam_handle.go (dispatcher) *)
(* ===================================================================== *)

Definition vlanEnable : bool := true.

(** [encoding/hex.EncodeToString]. *)
Definition hexdigit (n : Z) : Ascii.ascii :=
  Ascii.ascii_of_nat
    (Z.to_nat (if n <? 10 then 48 + n else 87 + n)).

Fixpoint hex_EncodeToString (src : list Z) : string :=
  match src with
  | [] => EmptyString
  | b :: src =>
      String (hexdigit (Z.shiftr b 4))
        (String (hexdigit (Z.land b 15)) (hex_EncodeToString src))
  end.

(** [logger.V(level)] of the logging library. *)
Definition logger_V (lvl : LogLevel) : M bool :=
  fun w => Some (logV (env w) lvl, w).

(** Modelled from the spec: the flow manager is not part of the sources at
    hand.  [GetLogicalPortFromPacketIn] names the logical port of the
    northbound packet-in for an indication, or fails. *)
Definition GetLogicalPortFromPacketIn (packetIn : PacketIndication)
    : M (Z * option error) :=
  fun w => Some (logicalPort (env w) packetIn, w).

(** [coreProxy.SendPacketIn] of the adapter library: the packet-in leaves
    the adapter, and the core takes it or not. *)
Definition coreProxy_SendPacketIn (logicalPortNum : Z) (packet : list Z)
    : M (option error) :=
  upcall (SendPacketIn logicalPortNum packet) ;;;
  fun w => Some (corePacketIn (env w) logicalPortNum packet, w).

(** [DeviceHandler.handlePacketIndication] (device_handler.go), on the
    handler [l2oamDeviceHandler], which is taken to be set.  The errors are
    those of [olterrors.NewErrNotFound] and [olterrors.NewErrCommunication];
    the callers only test them against nil. *)
Definition handlePacketIndication (packetIn : PacketIndication)
    : M (option error) :=
  let* debug := logger_V LvDebug in
  (if debug then logger LvDebug "received-packet-in" else ret tt) ;;;
  let* (logicalPortNum, err) := GetLogicalPortFromPacketIn packetIn in
  if err is Some _ then ret (Some (Errorf "logical-port" 0))
  else
    let* debug := logger_V LvDebug in
    (if debug then logger LvDebug "sending-packet-in-to-core" else ret tt) ;;;
    let* err := coreProxy_SendPacketIn logicalPortNum (Pkt packetIn) in
    if err is Some _ then ret (Some (Errorf "send-packet-in" 0))
    else
      let* debug := logger_V LvDebug in
      (if debug then logger LvDebug "success-sending-packet-in-to-core!"
       else ret tt) ;;;
      ret None.

(** [L2oamHandle.packetIn]; an error of [handlePacketIndication] is only
    logged. *)
Definition packetIn (etherPacket : Ethernet) : M unit :=
  let packetBytes := Contents etherPacket ++ Payload etherPacket in
  let pktInd :=
    {| IntfId := 0; GemportId := 1; PortNo := 16; Pkt := packetBytes;
       IntfType := "pon" |} in
  logger LvInfo "L2oamHandle.packetIn() pktInd=%x" ;;;
  let* err := handlePacketIndication pktInd in
  if err is Some _ then logger LvError "L2oamHandle.packetIn() error. "
  else ret tt.

(** [L2oamHandle.dispatch]. *)
Definition dispatch (etherPacket : Ethernet) : M unit :=
  logger LvDebug "dispatch(). %x" ;;;
  let etherType := EthernetType etherPacket in
  if etherType =? EthernetTypeEAPOL then
    logger LvDebug "receive message = EAPOL, Contents=%x, Payload=%x" ;;;
    let* device := FindL2oamDevice (hex_EncodeToString (SrcMAC etherPacket)) in
    match device with
    | None =>
        logger LvError "Received from an unregistered device. macAddr=%s" ;;;
        packetIn etherPacket
    | Some device => upcall (receiveEapol device etherPacket)
    end
  else if etherType =? 0xa8c8 then
    let bytes := Payload etherPacket in
    let* opcode := lift (index bytes 0) in
    let* oampduCode := lift (index bytes 3) in
    logger LvDebug "receive message = 1904.2 OAM opcode=%v oampduCode=%v,  %x" ;;;
    let* device := FindL2oamDevice (hex_EncodeToString (SrcMAC etherPacket)) in
    match device with
    | None =>
        logger LvError "Received from an unregistered device. macAddr=%s"
    | Some device =>
        if (opcode =? 0x03) && (oampduCode =? 0x00) then
          upcall (recieveKeepAlive device etherPacket)
        else
          upcall (recieve device etherPacket)
    end
  else if etherType =? EthernetTypeDot1Q then
    let* device := FindL2oamDevice (hex_EncodeToString (SrcMAC etherPacket)) in
    match device with
    | None =>
        logger LvError "Received from an unregistered device. macAddr=%s" ;;;
        packetIn etherPacket
    | Some device => upcall (receiveEapol device etherPacket)
    end
  else
    logger LvError "unknown etherType = 0x%X".

Section Gopacket.

(** The decoders of the packet library, which is not part of the adapter:
    the layer a decoder leaves in a zero-valued receiver and the error it
    returns, or [None] when it panics. *)
Variable Dot1Q_DecodeFromBytes : list Z -> option (Dot1Q * option error).
Variable Ethernet_DecodeFromBytes : list Z -> option (Ethernet * option error).

(** [L2oamHandle.dispatchVlan]. *)
Definition dispatchVlan (etherPacket : Ethernet) : M unit :=
  logger LvDebug "dispatchVlan(). %x" ;;;
  let etherType := EthernetType etherPacket in
  if etherType =? EthernetTypeQinQ then
    let* (vlanPacket, err) := lift (Dot1Q_DecodeFromBytes (Payload etherPacket)) in
    (if err is Some _ then logger LvDebug "error:%v" else ret tt) ;;;
    let etherBytes := Contents etherPacket in
    let* etherBytes :=
      lift (with_slice etherBytes 12 (len etherBytes)
                       (PutUint16 (Dot1Q_Type vlanPacket))) in
    let packetBytes := etherBytes ++ Dot1Q_Payload vlanPacket in
    let* (etherPacket, err) := lift (Ethernet_DecodeFromBytes packetBytes) in
    (if err is Some _ then logger LvDebug "error:%v" else ret tt) ;;;
    dispatch etherPacket
  else
    logger LvError "Discard unsupported etherType. 0x%X".

(** The receive case of [L2oamHandle.startThread], for a packet that has an
    Ethernet layer. *)
Definition startThread_receive (etherPacket : Ethernet) : M unit :=
  logger LvDebug "gopacket receive. %x" ;;;
  logger LvDebug "gopacket ether receive. %x" ;;;
  if vlanEnable then dispatchVlan etherPacket
  else dispatch etherPacket.

End Gopacket.


(* ===================================================================== *)
(** * Package core: the add-flow-to-device sequence *)
(* ===================================================================== *)

(** [sendSetGenericActionCreateForDS]: the object context is read from the
    response at offset 29. *)
Definition sendSetGenericActionCreateForDS (device : nat)
    : M (option TomiObjectContext.t * option error) :=
  let* err := send device GenerateGenericActionCreateDs in
  if err is Some _ then ret (None, None)
  else
    let* (ether, err) := waitResponse device in
    match ether, err with
    | _, Some _ | None, _ =>
        ret (None, Some (Errorf "[%s] sendSetGenericActionCreateForDS() Send Error: %v" 0))
    | Some ether, None =>
        let i := 29 in
        let* Branch := lift (index (Payload ether) i) in
        let i := i + 1 in
        let* Type_ := lift (slice (Payload ether) i (i + 2) ≫= Uint16) in
        let i := i + 2 in
        let* Length := lift (index (Payload ether) i) in
        let i := i + 1 in
        let* Instance := lift (slice (Payload ether) i (i + 4) ≫= Uint32) in
        let oc := TomiObjectContext.mk Branch Type_ Length Instance in
        logger LvDebug "[%s] sendSetGenericActionCreateForDS() Success, response=%x, branch=%x, type=%x, length=%x, instance=%x" ;;;
        ret (Some oc, None)
    end.

(** The common shape of [sendSetL2SwitchingDomainForDS],
    [sendSetDefaultOutlet] and [sendSetL2SwitchingDomainForUS]: send the
    request, wait for the response, log it. *)
Definition sendAndWait (device : nat) (tibitData : Message)
    (errorFormat successFormat : string) : M (option error) :=
  let* err := send device tibitData in
  if err is Some _ then ret None
  else
    let* (ether, err) := waitResponse device in
    match err with
    | Some _ => ret (Some (Errorf errorFormat 0))
    | None => logger LvDebug successFormat ;;; ret None
    end.

Definition sendSetL2SwitchingDomainForDS (device : nat)
    (oc : TomiObjectContext.t) (tpid vid : list Z) : M (option error) :=
  sendAndWait device (GenerateL2switchingDomainActionLnletEntryDs oc tpid vid)
    "[%s] sendSetL2SwitchingDomain() Send Error: %v"
    "[%s] sendSetL2SwitchingDomain() Success, response=%x:%s".

Definition sendSetDefaultOutlet (device : nat)
    (oc onuID : TomiObjectContext.t) : M (option error) :=
  sendAndWait device (GenerateSetDefaultOutlet oc onuID)
    "[%s] sendSetDefaultOutlet() Send Error: %v"
    "[%s] sendSetDefaultOutlet() Success, response=%x:%s".

Definition sendSetL2SwitchingDomainForUS (device : nat)
    (oc : TomiObjectContext.t) (tpid vid : list Z)
    (onuID : TomiObjectContext.t) : M (option error) :=
  sendAndWait device
    (GenerateL2switchingDomainActionLnletEntryUs oc tpid vid onuID)
    "[%s] sendSetL2SwitchingDomainForUS() Send Error: %v"
    "[%s] sendSetL2SwitchingDomainForUS() Success, response=%x:%s".

(** [L2oamAddFlowToDeviceDS]; [dhDeviceID] is [dh.device.Id].  A nil [olt]
    is only logged and then used, which panics. *)
Definition L2oamAddFlowToDeviceDS (dhDeviceID : string) (cmd : L2oamCmd)
    : M (option TomiObjectContext.t) :=
  logger LvDebug "L2oamAddFlowToDeviceDS() Start." ;;;
  let* olt := FindL2oamDeviceByDeviceID dhDeviceID in
  (if olt is None
   then logger LvError "L2oamAddFlowToDeviceDS() FindL2oamDeviceByDeviceId() error. olt not found. deviceId=%s"
   else ret tt) ;;;
  let* olt := lift olt in
  let* (oc, err01) := sendSetGenericActionCreateForDS olt in
  match oc with
  | Some oc' =>
      let onuID := TomiObjectContext.mk 0x0c 0x0011 4 0x00000001 in
      let* err02 := sendSetL2SwitchingDomainForDS olt oc' (Tpid cmd) (Vid cmd) in
      let* err03 := sendSetDefaultOutlet olt oc' onuID in
      logger LvDebug "Sequence results: %v, %v, %v"
  | None => logger LvDebug "Sequence results: %v"
  end ;;;
  setL2oamCmd olt (Some cmd) ;;;
  setObjectContext olt oc ;;;
  updateMap olt ;;;
  ret oc.

(** [L2oamAddFlowToDeviceUS]. *)
Definition L2oamAddFlowToDeviceUS (dhDeviceID : string)
    (oc : TomiObjectContext.t) (cmd : L2oamCmd) : M unit :=
  logger LvDebug "L2oamAddFlowToDeviceUS() Start." ;;;
  let* olt := FindL2oamDeviceByDeviceID dhDeviceID in
  (if olt is None
   then logger LvError "L2oamAddFlowToDeviceUS() FindL2oamDeviceByDeviceId() error. olt not found. deviceId=%s"
   else ret tt) ;;;
  let* olt := lift olt in
  let onuID := TomiObjectContext.mk 0x0c 0x0011 4 0x00000002 in
  let* err01 := sendSetL2SwitchingDomainForUS olt oc (Tpid cmd) (Vid cmd) onuID in
  logger LvDebug "Sequence results: %v".

(** [L2oamAddFlowToDevice]. *)
Definition L2oamAddFlowToDevice (dhDeviceID : string) (cmd : L2oamCmd)
    : M (option error) :=
  let* w := get in
  if flowVersion w =? 1 then
    let* oc := L2oamAddFlowToDeviceDS dhDeviceID cmd in
    match oc with
    | None => ret (Some (Errorf "failed-to-add-flow-to-device-for-down-stream" 0))
    | Some oc =>
        L2oamAddFlowToDeviceUS dhDeviceID oc cmd ;;;
        ret None
    end
  else if 1 <? flowVersion w then
    logger LvDebug "L2oamAddFlowToDevice() Start." ;;;
    let* olt := FindL2oamDeviceByDeviceID dhDeviceID in
    match olt with
    | None =>
        logger LvError "L2oamAddFlowToDevice() FindL2oamDeviceByDeviceId() error. olt not found. deviceId=%s" ;;;
        ret None
    | Some olt =>
        (* add flow for downstream *)
        let* oc := getObjectContext olt in
        let onuDeviceID := OnuDeviceID cmd in
        (* "Generic/Action Create, L2 Switching Domain/Action Inlet entry"
           is created only first *)
        let* r :=
          match oc with
          | None =>
              let* (oc, err01) := sendSetGenericActionCreateForDS olt in
              match oc with
              | None =>
                  logger LvError "error. %v" ;;;
                  ret (inl (Some (Errorf "failed-to-add-flow-to-device-for-down-stream" 0)))
              | Some oc =>
                  let* err02 :=
                    sendSetL2SwitchingDomainForDS olt oc (Tpid cmd) (Vid cmd) in
                  setL2oamCmd olt (Some cmd) ;;;
                  setObjectContext olt (Some oc) ;;;
                  (let* oltDev := deref olt in
                   if kind oltDev is L2oamOltDevice
                   then update olt (fun d => set_FlowAdded d true)
                   else ret tt) ;;;
                  updateMap olt ;;;
                  ret (inr (oc, Some cmd))
              end
          | Some oc =>
              let* cmd := getL2oamCmd olt in
              ret (inr (oc, cmd))
          end in
        match r with
        | inl err => ret err
        | inr (oc, cmd) =>
            let* onu := FindL2oamDeviceByDeviceID onuDeviceID in
            match onu with
            | None =>
                logger LvDebug "L2oamCmdRequest() FindL2oamDevice() onu not found. deviceId=%s" ;;;
                ret None
            | Some onu =>
                let* onuID := getObjectContext onu in
                match onuID with
                | None =>
                    logger LvError "catnnot-get-onu-object-context." ;;;
                    ret None
                | Some onuID =>
                    let* err03 := sendSetDefaultOutlet olt oc onuID in
                    (* [cmd.Tpid]: a nil [cmd] panics here *)
                    let* cmd := lift cmd in
                    let* err04 :=
                      sendSetL2SwitchingDomainForUS olt oc (Tpid cmd) (Vid cmd) onuID in
                    logger LvDebug "Sequence results: %v, %v, %v, %v" ;;;
                    let* onuDev := deref onu in
                    (if kind onuDev is L2oamOnuDevice
                     then update onu (fun d => set_FlowAdded d true) ;;;
                          updateMap onu
                     else logger LvError "assertion failed. device-id:%s") ;;;
                    ret None
                end
            end
        end
    end
  else ret None.

(* ===================================================================== *)
(** * Package core: olt_onu_msg.go (the ledger poll loop) *)
(* ===================================================================== *)

(** The body of [for i, onu := range onuList] in [WatchStatus]: the records
    of the list after the loop. *)
Fixpoint WatchStatus_range (onuList : list OnuStatus.t)
    : M (list OnuStatus.t) :=
  match onuList with
  | [] => ret []
  | onu :: onuList =>
      if String.eqb (OnuStatus.RebootState onu) "reboot" then
        logger LvDebug "WatchStatus() reboot: %s" ;;;
        (* reboot flag is set to off immediately *)
        let onu_i := OnuStatus.set_RebootState onu "" in
        (* find onu using MAC address *)
        (let* onuDevice := FindL2oamDevice (OnuStatus.MacAddress onu) in
         match onuDevice with
         | None => logger LvDebug "WatchStatus() device not found: %s"
         | Some onuDevice =>
             (* send Reset ONU message *)
             let* w := get in
             let* err :=
               send onuDevice (TibitFrame (GenerateSetResetOnu (OnuPkgType w))) in
             if err is Some _ then ret tt
             else
               let* (_, err) := waitResponse onuDevice in
               if err is Some _
               then logger LvError "[%s] reset ONU Send Error: %v"
               else ret tt
         end) ;;;
        let* onuList := WatchStatus_range onuList in
        ret (onu_i :: onuList)
      else
        let* onuList := WatchStatus_range onuList in
        ret (onu :: onuList)
  end.

(** One turn of the loop [for range ticker.C] of [WatchStatus], which the
    ticker starts every 1000 ms.  Writing the file is taken to succeed. *)
Definition WatchStatus_tick : M unit :=
  let* w := get in
  let '(onuList, err) := ReadOnuStatusList (file w) in
  if err is None then
    let* onuList :=
      match onuList with
      | None => ret None
      | Some l => let* l := WatchStatus_range l in ret (Some l)
      end in
    fun w => Some (tt, set_file (WriteOnuStatusList onuList) w)
  else ret tt.

(* ===================================================================== *)
(** * Predicates and sample values used in the statements *)
(* ===================================================================== *)

Definition no_decoder {A} (_ : list Z) : option (A * option error) := None.

(** Surroundings in which the logger is not at debug level, the flow
    manager finds the logical port 16 for every indication and the core
    takes every packet-in. *)
Definition env0 : Env :=
  mkEnv (fun _ => false) (fun _ => (16, None)) (fun _ _ => None).

Definition world0 : World :=
  mkWorld ∅ ∅ ∅ flowVersion_init OnuPkgType_init FileNotExist [] [] [] []
          env0.

Definition packetIn_indication (etherPacket : Ethernet) : PacketIndication :=
  {| IntfId := 0; GemportId := 1; PortNo := 16;
     Pkt := Contents etherPacket ++ Payload etherPacket;
     IntfType := "pon" |}.

Definition frame_from_unknown (ty : Z) (payload : list Z) : Ethernet :=
  mkEthernet [0x00; 0x25; 0xdc; 0x00; 0x00; 0x01]
             [0x00; 0x25; 0xdc; 0x00; 0x00; 0x02] ty
             ([0x00; 0x25; 0xdc; 0x00; 0x00; 0x02;
               0x00; 0x25; 0xdc; 0x00; 0x00; 0x01]
                ++ [Z.shiftr ty 8; Z.land ty 255]) payload.

(** [w'] differs from [w] at most in the link (pending outcomes, requests
    sent) and the log. *)
Definition same_devices (w w' : World) : Prop :=
  heap w' = heap w /\ DeviceMap w' = DeviceMap w /\
  DeviceIDMap w' = DeviceIDMap w /\ flowVersion w' = flowVersion w /\
  file w' = file w /\ upcalls w' = upcalls w /\
  OnuPkgType w' = OnuPkgType w.

(** What a turn of the loop leaves of a record. *)
Definition clear_reboot (onu : OnuStatus.t) : OnuStatus.t :=
  if String.eqb (OnuStatus.RebootState onu) "reboot"
  then OnuStatus.set_RebootState onu "" else onu.

(** The reset requests a turn of the loop hands to [send]: one for every
    record that asks for a reboot and whose MAC address is registered, in
    the order of the records. *)
Definition reset_requests (reg : gmap string nat) (pkgType : string)
    (l : list OnuStatus.t) : list (nat * Message) :=
  omap (fun onu =>
          if String.eqb (OnuStatus.RebootState onu) "reboot" then
            match reg !! OnuStatus.MacAddress onu with
            | Some onuDevice =>
                Some (onuDevice, TibitFrame (GenerateSetResetOnu pkgType))
            | None => None
            end
          else None) l.

Definition ledger_world (reg : gmap string nat) (l : list OnuStatus.t) : World :=
  mkWorld ∅ reg ∅ flowVersion_init OnuPkgType_init
          (FileContent (JsonArray l)) [] [] [] [] env0.

Definition flow_cmd (onuDeviceID : string) : L2oamCmd :=
  mkL2oamCmd "add-flow-dev" [] [] [0x88; 0xa8] [0x00; 0x64]
             [0x81; 0x00] [0x00; 0x0a] onuDeviceID.

Definition flow_response : Ethernet :=
  mkEthernet [] [] 0xa8c8 []
    (zeros 29 ++ [0x0c; 0x0d; 0xce; 0x04; 0x00; 0x00; 0x00; 0x01]).

Definition flow_onu_oc (n : Z) : TomiObjectContext.t :=
  TomiObjectContext.mk 0x0c 0x0011 4 n.

Definition flow_world : World :=
  mkWorld
    {[ 0%nat := mkDevice L2oamOltDevice "olt" "0025dc000000" false None None;
       1%nat := mkDevice L2oamOnuDevice "onu-a" "0025dc000001" false
                         (Some (flow_onu_oc 1)) None;
       2%nat := mkDevice L2oamOnuDevice "onu-b" "0025dc000002" false
                         (Some (flow_onu_oc 2)) None ]}
    ∅
    {[ "olt" := 0%nat; "onu-a" := 1%nat; "onu-b" := 2%nat ]}
    flowVersion_init OnuPkgType_init FileNotExist
    [Responds flow_response] [] [] [] env0.

(** Legal Discovery-Solicit values: every length field is the byte count of
    the value it declares, and [Length] is the size of the fields before the
    padding. *)
Definition DiscoverySolicit_legal (d : DiscoverySolicit.t) : Prop :=
  DiscoverySolicit.VendorIDLength d = len (DiscoverySolicit.VendorID d) /\
  DiscoverySolicit.CPLength d = len (DiscoverySolicit.CPValue d) /\
  DiscoverySolicit.NWLength d = len (DiscoverySolicit.NWValue d) /\
  DiscoverySolicit.DVLength d = len (DiscoverySolicit.DVValue d) /\
  DiscoverySolicit.SCPLength d = len (DiscoverySolicit.SCPValue d) /\
  DiscoverySolicit.PadLength d = len (DiscoverySolicit.PadValue d) /\
  DiscoverySolicit.Length d =
    (3 + DiscoverySolicit.VendorIDLength d) + (3 + DiscoverySolicit.CPLength d)
    + (3 + DiscoverySolicit.NWLength d) + (3 + DiscoverySolicit.DVLength d)
    + (3 + DiscoverySolicit.SCPLength d) /\
  is_uint16 (DiscoverySolicit.Length d) /\
  is_uint16 (DiscoverySolicit.PadLength d).

(** Legal Discovery-Hello values: every length field is the byte count of
    the value it declares, and [Length] is the size of the fields before the
    padding. *)
Definition DiscoveryHello_legal (d : DiscoveryHello.t) : Prop :=
  DiscoveryHello.VendorIDLength d = len (DiscoveryHello.VendorID d) /\
  DiscoveryHello.NWLength d = len (DiscoveryHello.NWValue d) /\
  DiscoveryHello.DVLength d = len (DiscoveryHello.DVValue d) /\
  DiscoveryHello.SCPLength d = len (DiscoveryHello.SCPValue d) /\
  DiscoveryHello.TunnelLength d = len (DiscoveryHello.TunnelValue d) /\
  DiscoveryHello.PadLength d = len (DiscoveryHello.PadValue d) /\
  DiscoveryHello.Length d =
    (3 + DiscoveryHello.VendorIDLength d) + (3 + DiscoveryHello.NWLength d)
    + (3 + DiscoveryHello.DVLength d) + (3 + DiscoveryHello.SCPLength d)
    + (3 + DiscoveryHello.TunnelLength d) /\
  is_uint16 (DiscoveryHello.Length d) /\
  is_uint16 (DiscoveryHello.PadLength d).

(** Legal OAMPDU-Information values.  A TLV is either absent (length 0, and
    then its type is 0 and its value empty, as in the zero value [Decode]
    starts from), or it carries its own type code and a length that counts
    the type byte, the length byte and the value bytes. *)
Definition tlv_legal (tlvType : Z) (ty ln : Z) (v : list Z) : Prop :=
  (ln = 0 /\ ty = 0 /\ v = []) \/ (ty = tlvType /\ ln = len v + 2).

Definition OAMPDUInformation_legal (d : OAMPDUInformation.t) : Prop :=
  is_uint16 (OAMPDUInformation.Flags d) /\
  tlv_legal OampduTlvTypeLocalInfo (OAMPDUInformation.LIType d)
            (OAMPDUInformation.LILength d) (OAMPDUInformation.LIValue d) /\
  tlv_legal OampduTlvTypeRemoteInfo (OAMPDUInformation.RIType d)
            (OAMPDUInformation.RILength d) (OAMPDUInformation.RIValue d) /\
  tlv_legal OampduTlvTypeOrganizationSpecificInfo (OAMPDUInformation.OSIType d)
            (OAMPDUInformation.OSILength d) (OAMPDUInformation.OSIValue d).

(** The PDU shapes of the frame codec that have both an encoder and a
    decoder. *)
Inductive PDU :=
| Solicit (d : DiscoverySolicit.t)
| Hello (d : DiscoveryHello.t)
| Information (d : OAMPDUInformation.t).

Inductive Shape := SolicitShape | HelloShape | InformationShape.

Definition shape_of (x : PDU) : Shape :=
  match x with
  | Solicit _ => SolicitShape
  | Hello _ => HelloShape
  | Information _ => InformationShape
  end.

Definition encode (x : PDU) : option (list Z) :=
  match x with
  | Solicit d => DiscoverySolicit.SerializeTo d
  | Hello d => DiscoveryHello.SerializeTo d
  | Information d => OAMPDUInformation.SerializeTo d
  end.

(** Decoding as a given shape; [None] when the decoder panics or returns an
    error. *)
Definition decode (s : Shape) (bytes : list Z) : option PDU :=
  match s with
  | SolicitShape => Solicit <$> DiscoverySolicit.Decode bytes
  | HelloShape => Hello <$> DiscoveryHello.Decode bytes
  | InformationShape =>
      match OAMPDUInformation.Decode OAMPDUInformation.zero bytes with
      | Some (d, None) => Some (Information d)
      | _ => None
      end
  end.

Definition legal (x : PDU) : Prop :=
  match x with
  | Solicit d => DiscoverySolicit_legal d
  | Hello d => DiscoveryHello_legal d
  | Information d => OAMPDUInformation_legal d
  end.

(** The Discovery Solicit of [GenerateDiscoverySOLICIT] with its network ID
    padded to the 16 bytes its length field declares. *)
Definition legalDiscoverySOLICIT : DiscoverySolicit.t :=
  {| DiscoverySolicit.Opcode := 0xfd;
     DiscoverySolicit.DiscoveryType := 0x01;
     DiscoverySolicit.VendorType := 0xfe;
     DiscoverySolicit.Length := 37;
     DiscoverySolicit.VendorIDType := 0xfd;
     DiscoverySolicit.VendorIDLength := 3;
     DiscoverySolicit.VendorID := [0x2a; 0xea; 0x15];
     DiscoverySolicit.CPType := 0x05;
     DiscoverySolicit.CPLength := 1;
     DiscoverySolicit.CPValue := [128];
     DiscoverySolicit.NWType := 0x06;
     DiscoverySolicit.NWLength := 16;
     DiscoverySolicit.NWValue :=
       [0x74; 0x69; 0x62; 0x69; 0x74; 0x63; 0x6f; 0x6d; 0x2e; 0x63; 0x6f; 0x6d;
        0; 0; 0; 0];
     DiscoverySolicit.DVType := 0x07;
     DiscoverySolicit.DVLength := 1;
     DiscoverySolicit.DVValue := [1];
     DiscoverySolicit.SCPType := 0x08;
     DiscoverySolicit.SCPLength := 1;
     DiscoverySolicit.SCPValue := [0x03];
     DiscoverySolicit.PadType := 0xff;
     DiscoverySolicit.PadLength := 1;
     DiscoverySolicit.PadValue := [0] |}.

(* ===================================================================== *)
(** * Package core: OpenFlow port numbers *)
(* ===================================================================== *)

(** The port-number layout of the adapter: a UNI port number holds the PON
    interface in bits 12..19, the ONU in bits 4..11 and the UNI in bits 0..3;
    an NNI port number has bit 20 set; a PON port number carries the marker
    [0x2] from bit 28 on.  All values are [uint32]; a left shift drops the
    bits it moves past bit 31. *)
Definition bitsForUniID : Z := 4.
Definition bitsForONUID : Z := 8.
Definition bitsForPONID : Z := 8.
Definition MaxOnusPerPon : Z := Z.shiftl 1 bitsForONUID.
Definition MaxPonsPerOlt : Z := Z.shiftl 1 bitsForPONID.
Definition MaxUnisPerOnu : Z := Z.shiftl 1 bitsForUniID.
Definition nniUniDiffPos : Z := bitsForUniID + bitsForONUID + bitsForPONID.
Definition ponIntfMarkerPos : Z := 28.
Definition ponIntfMarkerValue : Z := 0x2.
Definition bitsforNNIID : Z := 20.
Definition minNniIntPortNum : Z := Z.shiftl 1 bitsforNNIID.
Definition maxNniPortNum : Z := Z.shiftl 1 (bitsforNNIID + 1) - 1.

Definition controllerPorts : list Z := [0xfffd; 0x7ffffffd; 0xfffffffd].

(** [voltha.Port_PortType], the port kinds of the VOLTHA protocol. *)
Inductive Port_PortType :=
| Port_UNKNOWN
| Port_ETHERNET_NNI
| Port_ETHERNET_UNI
| Port_PON_OLT
| Port_PON_ONU.

(** [olterrors.ErrInvalidPortRange]: a non-nil error value of a package that
    is not part of the adapter's own sources. *)
Definition ErrInvalidPortRange : error := Errorf "invalid-port-range" 0.

(** [MkUniPortNum]. *)
Definition MkUniPortNum (intfID onuID uniID : Z) : M Z :=
  let limit := onuID in
  (if MaxOnusPerPon <? limit
   then logger LvWarn "exceeded-the-max-onus-per-pon"
   else ret tt) ;;;
  ret (Z.lor (Z.lor (Z.shiftl intfID (bitsForUniID + bitsForONUID) mod 2 ^ 32)
                    (Z.shiftl onuID bitsForUniID mod 2 ^ 32))
             uniID).

(** [OnuIDFromPortNum]. *)
Definition OnuIDFromPortNum (portNum : Z) : Z :=
  Z.land (Z.shiftr portNum bitsForUniID) (MaxOnusPerPon - 1).

(** [IntfIDFromUniPortNum]. *)
Definition IntfIDFromUniPortNum (portNum : Z) : Z :=
  Z.land (Z.shiftr portNum (bitsForUniID + bitsForONUID)) (MaxPonsPerOlt - 1).

(** [UniIDFromPortNum]. *)
Definition UniIDFromPortNum (portNum : Z) : Z :=
  Z.land portNum (MaxUnisPerOnu - 1).

(** [IntfIDToPortNo]. *)
Definition IntfIDToPortNo (intfID : Z) (intfType : Port_PortType) : Z :=
  match intfType with
  | Port_ETHERNET_NNI => Z.lor (Z.shiftl 1 nniUniDiffPos) intfID
  | Port_PON_OLT =>
      Z.lor (Z.shiftl ponIntfMarkerValue ponIntfMarkerPos) intfID
  | _ => 0
  end.

(** [PortNoToIntfID]. *)
Definition PortNoToIntfID (portno : Z) (intfType : Port_PortType) : Z :=
  match intfType with
  | Port_ETHERNET_NNI => Z.lxor (Z.shiftl 1 nniUniDiffPos) portno
  | Port_PON_OLT =>
      Z.lxor (Z.shiftl ponIntfMarkerValue ponIntfMarkerPos) portno
  | _ => 0
  end.

(** [IntfIDFromNniPortNum]. *)
Definition IntfIDFromNniPortNum (portNum : Z) : M (Z * option error) :=
  if (portNum <? minNniIntPortNum) || (maxNniPortNum <? portNum) then
    logger LvError "nniportnumber-is-not-in-valid-range" ;;;
    ret (0, Some ErrInvalidPortRange)
  else ret (Z.land portNum 0xFFFF, None).

(** [IntfIDToPortTypeName]. *)
Definition IntfIDToPortTypeName (intfID : Z) : Port_PortType :=
  if Z.lxor (Z.shiftl ponIntfMarkerValue ponIntfMarkerPos) intfID
     <? MaxPonsPerOlt
  then Port_PON_OLT
  else if Z.land intfID (Z.shiftl 1 nniUniDiffPos)
          =? Z.shiftl 1 nniUniDiffPos
  then Port_ETHERNET_NNI
  else Port_ETHERNET_UNI.

(** The loop [for _, port := range controllerPorts] that [IsUpstream] and
    [IsControllerBoundFlow] share: whether it returns [true]. *)
Fixpoint controllerPorts_range (ports : list Z) (outPort : Z) : bool :=
  match ports with
  | [] => false
  | port :: ports =>
      if port =? outPort then true else controllerPorts_range ports outPort
  end.

(** [IsUpstream]. *)
Definition IsUpstream (outPort : Z) : bool :=
  if controllerPorts_range controllerPorts outPort then true
  else Z.land outPort (Z.shiftl 1 nniUniDiffPos) =? Z.shiftl 1 nniUniDiffPos.

(** [IsControllerBoundFlow]. *)
Definition IsControllerBoundFlow (outPort : Z) : bool :=
  if controllerPorts_range controllerPorts outPort then true else false.

(** [OnuIDFromUniPortNum]. *)
Definition OnuIDFromUniPortNum (portNum : Z) : Z :=
  Z.land (Z.shiftr portNum bitsForUniID) (MaxOnusPerPon - 1).

(** [ExtractAccessFromFlow]. *)
Definition ExtractAccessFromFlow (inPort outPort : Z) : Z * Z * Z * Z :=
  if IsUpstream outPort then
    (inPort, IntfIDFromUniPortNum inPort, OnuIDFromPortNum inPort,
     UniIDFromPortNum inPort)
  else
    (outPort, IntfIDFromUniPortNum outPort, OnuIDFromPortNum outPort,
     UniIDFromPortNum outPort).

(** The port number [MkUniPortNum] computes, without its log entry. *)
Definition uniPortNum (intfID onuID uniID : Z) : Z :=
  Z.lor (Z.lor (Z.shiftl intfID 12 mod 2 ^ 32) (Z.shiftl onuID 4 mod 2 ^ 32))
        uniID.

(* ===================================================================== *)
(** * Package l2oam: changing the ONU status ledger *)
(* ===================================================================== *)

(** [AddOnu], [UpdateOnu] and [RemoveOnu] read the whole file, change the
    list and write the whole file back.  Each is given as the file after the
    call and the error returned; writing the file is taken to succeed, as it
    is for the poll loop. *)
Definition AddOnu (sts : OnuStatus.t) (file : OnuListFile)
    : OnuListFile * option error :=
  match ReadOnuStatusList file with
  | (_, Some err) => (file, Some err)
  | (None, None) =>
      let newList := [sts] in
      (WriteOnuStatusList (Some newList), None)
  | (Some list, None) => (WriteOnuStatusList (Some (list ++ [sts])), None)
  end.

(** The loop of [UpdateOnu], which appends to [newList]. *)
Fixpoint UpdateOnu_range (list : list OnuStatus.t) (upSts : OnuStatus.t)
    (newList : Datatypes.list OnuStatus.t) : Datatypes.list OnuStatus.t :=
  match list with
  | [] => newList
  | sts :: list =>
      if String.eqb (OnuStatus.ID sts) (OnuStatus.ID upSts)
      then UpdateOnu_range list upSts (newList ++ [upSts])
      else UpdateOnu_range list upSts (newList ++ [sts])
  end.

Definition UpdateOnu (upSts : OnuStatus.t) (file : OnuListFile)
    : OnuListFile * option error :=
  match ReadOnuStatusList file with
  | (_, Some err) => (file, Some err)
  | (None, None) => (file, None)
  | (Some list, None) =>
      let newList := [] in
      (WriteOnuStatusList (Some (UpdateOnu_range list upSts newList)), None)
  end.

(** The loop of [RemoveOnu]. *)
Fixpoint RemoveOnu_range (list : list OnuStatus.t) (id : string)
    (newList : Datatypes.list OnuStatus.t) : Datatypes.list OnuStatus.t :=
  match list with
  | [] => newList
  | sts :: list =>
      if negb (String.eqb (OnuStatus.ID sts) id)
      then RemoveOnu_range list id (newList ++ [sts])
      else RemoveOnu_range list id newList
  end.

Definition RemoveOnu (id : string) (file : OnuListFile)
    : OnuListFile * option error :=
  match ReadOnuStatusList file with
  | (_, Some err) => (file, Some err)
  | (None, None) => (file, None)
  | (Some list, None) =>
      let newList := [] in
      (WriteOnuStatusList (Some (RemoveOnu_range list id newList)), None)
  end.

(** What [OAMPDUInformation.Decode] leaves in the length and value of a TLV:
    nothing, or a length of at least 2 with a value of two bytes less. *)
Definition tlv_decoded (ln : Z) (v : list Z) : Prop :=
  (ln = 0 /\ v = []) \/ (2 <= ln /\ len v = ln - 2).

Definition OAMPDUInformation_decoded (d : OAMPDUInformation.t) : Prop :=
  tlv_decoded (OAMPDUInformation.LILength d) (OAMPDUInformation.LIValue d) /\
  tlv_decoded (OAMPDUInformation.RILength d) (OAMPDUInformation.RIValue d) /\
  tlv_decoded (OAMPDUInformation.OSILength d) (OAMPDUInformation.OSIValue d).

(* ===================================================================== *)
(** * Package l2oam: the response to Generic/Action Create *)
(* ===================================================================== *)

Module SetGenericActionCreateRes.

Record t := mk {
  Opcode : Z;       (* uint8 *)
  Flags : Z;        (* uint16 *)
  OAMPDUCode : Z;   (* uint8 *)
  OUId : list Z;
  TOMIOpcode : Z;   (* uint8 *)
  CTBranch : Z;     (* uint8 *)
  CTType : Z;       (* uint16 *)
  CTLength : Z;     (* uint8 *)
  CTInstance : Z;   (* uint32 *)
  OCBranch : Z;     (* uint8 *)
  OCType : Z;       (* uint16 *)
  OCLength : Z;     (* uint8 *)
  OCInstance : Z;   (* uint32 *)
  VcBranch : Z;     (* uint8 *)
  VcLeaf : Z;       (* uint16 *)
  VcLength : Z;     (* uint8 *)
  ObOCLength : Z;   (* uint8 *)
  ObOCBranch : Z;   (* uint8 *)
  ObOCType : Z;     (* uint16 *)
  ObOCLength2 : Z;  (* uint8 *)
  ObOCInstance : list Z;
  EndBranch : Z     (* uint8 *)
}.

(** [Decode] assigns every field of its receiver and always returns nil;
    the result is the struct after the call. *)
Definition Decode (data : list Z) : option t :=
  let i := 0 in
  Opcode ← index data i;
  let i := i + 1 in
  Flags ← slice data i (i + 2) ≫= Uint16;
  let i := i + 2 in
  OAMPDUCode ← index data i;
  let i := i + 1 in
  OUId ← slice data i (i + 3);
  let i := i + len OUId in
  TOMIOpcode ← index data i;
  let i := i + 1 in
  CTBranch ← index data i;
  let i := i + 1 in
  CTType ← slice data i (i + 2) ≫= Uint16;
  let i := i + 2 in
  CTLength ← index data i;
  let i := i + 1 in
  CTInstance ← slice data i (i + 4) ≫= Uint32;
  let i := i + 4 in
  OCBranch ← index data i;
  let i := i + 1 in
  OCType ← slice data i (i + 2) ≫= Uint16;
  let i := i + 2 in
  OCLength ← index data i;
  let i := i + 1 in
  OCInstance ← slice data i (i + 4) ≫= Uint32;
  let i := i + 4 in
  VcBranch ← index data i;
  let i := i + 1 in
  VcLeaf ← slice data i (i + 2) ≫= Uint16;
  let i := i + 2 in
  VcLength ← index data i;
  let i := i + 1 in
  ObOCLength ← index data i;
  let i := i + 1 in
  ObOCBranch ← index data i;
  let i := i + 1 in
  ObOCType ← slice data i (i + 2) ≫= Uint16;
  let i := i + 2 in
  ObOCLength2 ← index data i;
  let i := i + 1 in
  ObOCInstance ← slice data i (i + ObOCLength2);
  let i := i + ObOCLength2 in
  EndBranch ← index data i;
  Some (mk Opcode Flags OAMPDUCode OUId TOMIOpcode CTBranch CTType CTLength
           CTInstance OCBranch OCType OCLength OCInstance VcBranch VcLeaf
           VcLength ObOCLength ObOCBranch ObOCType ObOCLength2 ObOCInstance
           EndBranch).

(** [GetTrafficProfile]. *)
Definition GetTrafficProfile (d : t) : list Z := ObOCInstance d.

End SetGenericActionCreateRes.

(* ===================================================================== *)
(** * Package l2oam: the L2 switching domain request *)
(* ===================================================================== *)

Module L2switchingDomainRequest.

Record t := mk {
  Opcode : Z;       (* uint8 *)
  Flags : Z;        (* uint16 *)
  OAMPDUCode : Z;   (* uint8 *)
  OUId : list Z;
  TOMIOpcode : Z;   (* uint8 *)
  CTBranch : Z;     (* uint8 *)
  CTType : Z;       (* uint16 *)
  CTLength : Z;     (* uint8 *)
  CTInstance : Z;   (* uint32 *)
  OCBranch : Z;     (* uint8 *)
  OCType : Z;       (* uint16 *)
  OCLength : Z;     (* uint8 *)
  OCInstance : Z;   (* uint32 *)
  VcBranch : Z;     (* uint8 *)
  VcLeaf : Z;       (* uint16 *)
  VcLength : Z;     (* uint8 *)
  SOLength : Z;     (* uint8 *)
  SOBranch : Z;     (* uint8 *)
  SOType : Z;       (* uint16 *)
  SOValLength : Z;  (* uint8 *)
  SOInstance : Z;   (* uint8 *)
  TMLLength : Z;    (* uint8 *)
  TMLList : list TpidVid.t;
  TOPopLength : Z;  (* uint8 *)
  TOPopValue : Z;   (* uint8 *)
  TOSLength : Z;    (* uint8 *)
  TOSList : list TpidVid.t;
  TOPushLength : Z; (* uint8 *)
  TOPushList : list TpidVid.t;
  EndBranch : Z;    (* uint8 *)
  SizeMargin : Z    (* uint8 *)
}.

Definition Len (d : t) : Z :=
  22 + CTLength d + OCLength d + VcLength d + SizeMargin d.

(** The loops [for _, e := range list] of [SerializeTo], each turn of which
    serializes one entry at [i] and moves [i] behind it. *)
Fixpoint serializeTpidVid_range (list : list TpidVid.t)
    (data : Datatypes.list Z) (i : Z) : option (Datatypes.list Z * Z) :=
  match list with
  | [] => Some (data, i)
  | tpidVid :: list =>
      '(data, nextIndex) ← serializeTpidVid tpidVid data i;
      let i := nextIndex in
      serializeTpidVid_range list data i
  end.

Definition SerializeTo (d : t) : option (list Z) :=
  let plen := Len d in
  data ← PrependBytes plen;
  let i := 0 in
  data ← store data i (Opcode d);
  let i := i + 1 in
  data ← with_slice data i (i + 2) (PutUint16 (Flags d));
  let i := i + 2 in
  data ← store data i (OAMPDUCode d);
  let i := i + 1 in
  data ← with_slice data i (i + len (OUId d)) (copy (OUId d));
  let i := i + len (OUId d) in
  data ← store data i (TOMIOpcode d);
  let i := i + 1 in
  data ← store data i (CTBranch d);
  let i := i + 1 in
  data ← with_slice data i (i + 2) (PutUint16 (CTType d));
  let i := i + 2 in
  data ← store data i (CTLength d);
  let i := i + 1 in
  data ← with_slice data i (i + 4) (PutUint32 (CTInstance d));
  let i := i + 4 in
  data ← store data i (OCBranch d);
  let i := i + 1 in
  data ← with_slice data i (i + 2) (PutUint16 (OCType d));
  let i := i + 2 in
  data ← store data i (OCLength d);
  let i := i + 1 in
  data ← with_slice data i (i + 4) (PutUint32 (OCInstance d));
  let i := i + 4 in
  data ← store data i (VcBranch d);
  let i := i + 1 in
  data ← with_slice data i (i + 2) (PutUint16 (VcLeaf d));
  let i := i + 2 in
  data ← store data i (VcLength d);
  let i := i + 1 in
  data ← store data i (SOLength d);
  let i := i + 1 in
  data ← store data i (SOBranch d);
  let i := i + 1 in
  data ← with_slice data i (i + 2) (PutUint16 (SOType d));
  let i := i + 2 in
  data ← store data i (SOValLength d);
  let i := i + 1 in
  data ← store data i (SOInstance d);
  let i := i + 1 in
  data ← store data i (TMLLength d);
  let i := i + 1 in
  '(data, i) ← serializeTpidVid_range (TMLList d) data i;
  data ← store data i (TOPopLength d);
  let i := i + 1 in
  data ← store data i (TOPopValue d);
  let i := i + 1 in
  data ← store data i (TOSLength d);
  let i := i + 1 in
  '(data, i) ← serializeTpidVid_range (TOSList d) data i;
  data ← store data i (TOPushLength d);
  let i := i + 1 in
  '(data, i) ← serializeTpidVid_range (TOPushList d) data i;
  data ← store data i (EndBranch d);
  Some data.

End L2switchingDomainRequest.

(** The generators of the two Inlet-entry requests, as functions to the
    request struct; they draw the correlation tag from the counter.  (The
    constructors of [Message] with the same names stand for the calls.)
    [uint8(n)] keeps the low eight bits of [n]. *)
Module Layer.

Definition GenerateL2switchingDomainActionLnletEntryUs
    (oc : TomiObjectContext.t) (pushTpidValue pushVidValue : list Z)
    (onuID : TomiObjectContext.t) (instance : Z)
    : L2switchingDomainRequest.t * Z :=
  let '(ct, instance) := getOltInstance instance in
  ({| L2switchingDomainRequest.Opcode := 0x03;
      L2switchingDomainRequest.Flags := 0x0050;
      L2switchingDomainRequest.OAMPDUCode := 0xfe;
      L2switchingDomainRequest.OUId := [0x2a; 0xea; 0x15];
      L2switchingDomainRequest.TOMIOpcode := 0x03;
      L2switchingDomainRequest.CTBranch := 0x0c;
      L2switchingDomainRequest.CTType := 0x0c7a;
      L2switchingDomainRequest.CTLength := 4;
      L2switchingDomainRequest.CTInstance := ct;
      L2switchingDomainRequest.OCBranch := TomiObjectContext.Branch oc;
      L2switchingDomainRequest.OCType := TomiObjectContext.Type_ oc;
      L2switchingDomainRequest.OCLength := TomiObjectContext.Length oc;
      L2switchingDomainRequest.OCInstance := TomiObjectContext.Instance oc;
      L2switchingDomainRequest.VcBranch := 0x5d;
      L2switchingDomainRequest.VcLeaf := 0x7001;
      L2switchingDomainRequest.VcLength :=
        (24 + len pushTpidValue + len pushVidValue) mod 2 ^ 8;
      L2switchingDomainRequest.SOLength := 5;
      L2switchingDomainRequest.SOBranch := 0x0c;
      L2switchingDomainRequest.SOType := 0x0011;
      L2switchingDomainRequest.SOValLength := 1;
      L2switchingDomainRequest.SOInstance :=
        TomiObjectContext.Instance onuID mod 2 ^ 8;
      L2switchingDomainRequest.TMLLength := 7;
      L2switchingDomainRequest.TMLList :=
        [TpidVid.mk 3 0x80 [0] 1 [0x00];
         TpidVid.mk 2 0x80 [0] 0x80 [0]];
      L2switchingDomainRequest.TOPopLength := 1;
      L2switchingDomainRequest.TOPopValue := 0x00;
      L2switchingDomainRequest.TOSLength := 3;
      L2switchingDomainRequest.TOSList := [TpidVid.mk 2 0x80 [0] 0x80 [0]];
      L2switchingDomainRequest.TOPushLength :=
        (3 + len pushTpidValue + len pushVidValue) mod 2 ^ 8;
      L2switchingDomainRequest.TOPushList :=
        [TpidVid.mk ((2 + len pushTpidValue + len pushVidValue) mod 2 ^ 8)
                    (len pushTpidValue mod 2 ^ 8) pushTpidValue
                    (len pushVidValue mod 2 ^ 8) pushVidValue];
      L2switchingDomainRequest.EndBranch := 0x00;
      L2switchingDomainRequest.SizeMargin := 0 |}, instance).

Definition GenerateL2switchingDomainActionLnletEntryDs
    (oc : TomiObjectContext.t) (tmTpidValue tmVidValue : list Z)
    (instance : Z) : L2switchingDomainRequest.t * Z :=
  let '(ct, instance) := getOltInstance instance in
  ({| L2switchingDomainRequest.Opcode := 0x03;
      L2switchingDomainRequest.Flags := 0x0050;
      L2switchingDomainRequest.OAMPDUCode := 0xfe;
      L2switchingDomainRequest.OUId := [0x2a; 0xea; 0x15];
      L2switchingDomainRequest.TOMIOpcode := 0x03;
      L2switchingDomainRequest.CTBranch := 0x0c;
      L2switchingDomainRequest.CTType := 0x0c7a;
      L2switchingDomainRequest.CTLength := 4;
      L2switchingDomainRequest.CTInstance := ct;
      L2switchingDomainRequest.OCBranch := TomiObjectContext.Branch oc;
      L2switchingDomainRequest.OCType := TomiObjectContext.Type_ oc;
      L2switchingDomainRequest.OCLength := TomiObjectContext.Length oc;
      L2switchingDomainRequest.OCInstance := TomiObjectContext.Instance oc;
      L2switchingDomainRequest.VcBranch := 0x5d;
      L2switchingDomainRequest.VcLeaf := 0x7001;
      L2switchingDomainRequest.VcLength :=
        (23 + len tmTpidValue + len tmVidValue) mod 2 ^ 8;
      L2switchingDomainRequest.SOLength := 5;
      L2switchingDomainRequest.SOBranch := 0x0c;
      L2switchingDomainRequest.SOType := 0x0eca;
      L2switchingDomainRequest.SOValLength := 1;
      L2switchingDomainRequest.SOInstance := 0x00;
      L2switchingDomainRequest.TMLLength :=
        (6 + len tmTpidValue + len tmVidValue) mod 2 ^ 8;
      L2switchingDomainRequest.TMLList :=
        [TpidVid.mk ((2 + len tmTpidValue + len tmVidValue) mod 2 ^ 8)
                    (len tmTpidValue mod 2 ^ 8) tmTpidValue
                    (len tmVidValue mod 2 ^ 8) tmVidValue;
         TpidVid.mk 2 128 [0] 128 [0x00]];
      L2switchingDomainRequest.TOPopLength := 1;
      L2switchingDomainRequest.TOPopValue := 0x01;
      L2switchingDomainRequest.TOSLength := 3;
      L2switchingDomainRequest.TOSList := [TpidVid.mk 2 128 [0] 128 [0]];
      L2switchingDomainRequest.TOPushLength := 3;
      L2switchingDomainRequest.TOPushList := [TpidVid.mk 2 128 [0] 128 [0]];
      L2switchingDomainRequest.EndBranch := 0x00;
      L2switchingDomainRequest.SizeMargin := 0 |}, instance).

End Layer.

(** The four bytes [PutUint32] writes for [v], and the two of [PutUint16]. *)
Definition be32 (v : Z) : list Z :=
  [Z.land (Z.shiftr v 24) 255; Z.land (Z.shiftr v 16) 255;
   Z.land (Z.shiftr v 8) 255; Z.land v 255].
Definition be16 (v : Z) : list Z :=
  [Z.land (Z.shiftr v 8) 255; Z.land v 255].

(** The bytes one entry of a tag list puts on the wire: its three length
    bytes, and each value unless its length byte is 0x80. *)
Definition TpidVid_wire (e : TpidVid.t) : list Z :=
  TpidVid.Length e :: TpidVid.TpIDLength e
  :: (if TpidVid.TpIDLength e =? 128 then [] else TpidVid.TpIDValue e)
  ++ TpidVid.VIdLength e
  :: (if TpidVid.VIdLength e =? 128 then [] else TpidVid.VIdValue e).

(** An entry whose length bytes are the lengths of the values it carries. *)
Definition TpidVid_consistent (e : TpidVid.t) : Prop :=
  (0 <= TpidVid.TpIDLength e /\ 0 <= TpidVid.VIdLength e) /\
  (TpidVid.TpIDLength e <> 128 ->
   len (TpidVid.TpIDValue e) = TpidVid.TpIDLength e) /\
  (TpidVid.VIdLength e <> 128 ->
   len (TpidVid.VIdValue e) = TpidVid.VIdLength e).

(* ===================================================================== *)
(** * Facts about byte buffers *)
(* ===================================================================== *)

Section BufFacts.

Implicit Types (pre mid post src data b : list Z) (i j k v : Z).

Lemma len_nil {A} : len (@nil A) = 0.
Proof. reflexivity. Qed.

Lemma len_cons {A} (x : A) (l : list A) : len (x :: l) = len l + 1.
Proof. unfold len. simpl length. lia. Qed.

Lemma len_app {A} (l1 l2 : list A) : len (l1 ++ l2) = len l1 + len l2.
Proof. unfold len. rewrite length_app. lia. Qed.

Lemma len_nonneg {A} (l : list A) : 0 <= len l.
Proof. unfold len. lia. Qed.

Lemma len_zeros k : 0 <= k -> len (zeros k) = k.
Proof. intros. unfold len, zeros. rewrite length_replicate. lia. Qed.

Lemma zeros_0 k : k = 0 -> zeros k = [].
Proof. intros ->. reflexivity. Qed.

Lemma zeros_cons k : 0 < k -> zeros k = 0 :: zeros (k - 1).
Proof.
  intros Hk. unfold zeros.
  replace (Z.to_nat k) with (S (Z.to_nat (k - 1))) by lia.
  reflexivity.
Qed.

Lemma zeros_app a k : 0 <= a <= k -> zeros k = zeros a ++ zeros (k - a).
Proof.
  intros Hk. unfold zeros.
  replace (Z.to_nat k) with (Z.to_nat a + Z.to_nat (k - a))%nat by lia.
  apply replicate_add.
Qed.

Lemma index_cursor pre v post i :
  i = len pre -> index (pre ++ v :: post) i = Some v.
Proof.
  intros ->. unfold index.
  pose proof (len_nonneg pre). rewrite len_app, len_cons.
  pose proof (len_nonneg post).
  replace (0 <=? len pre) with true by (symmetry; apply Z.leb_le; lia).
  replace (len pre <? len pre + (len post + 1)) with true
    by (symmetry; apply Z.ltb_lt; lia).
  simpl. unfold len. rewrite Nat2Z.id.
  apply list_lookup_middle. reflexivity.
Qed.

Lemma store_cursor_gen pre x post i v :
  i = len pre -> store (pre ++ x :: post) i v = Some (pre ++ v :: post).
Proof.
  intros ->. unfold store.
  pose proof (len_nonneg pre). rewrite len_app, len_cons.
  pose proof (len_nonneg post).
  replace (0 <=? len pre) with true by (symmetry; apply Z.leb_le; lia).
  replace (len pre <? len pre + (len post + 1)) with true
    by (symmetry; apply Z.ltb_lt; lia).
  simpl. f_equal. unfold len. rewrite Nat2Z.id.
  replace (length pre) with (length pre + 0)%nat by lia.
  rewrite insert_app_r. reflexivity.
Qed.

Lemma slice_cursor pre mid post i j :
  i = len pre -> j = i + len mid -> slice (pre ++ mid ++ post) i j = Some mid.
Proof.
  intros -> ->. unfold slice.
  pose proof (len_nonneg pre). pose proof (len_nonneg mid).
  pose proof (len_nonneg post). rewrite !len_app.
  replace (0 <=? len pre) with true by (symmetry; apply Z.leb_le; lia).
  replace (len pre <=? len pre + len mid) with true
    by (symmetry; apply Z.leb_le; lia).
  replace (len pre + len mid <=? len pre + (len mid + len post)) with true
    by (symmetry; apply Z.leb_le; lia).
  simpl. f_equal.
  replace (len pre + len mid - len pre) with (len mid) by lia.
  unfold len. rewrite !Nat2Z.id.
  rewrite drop_app_length. apply take_app_length.
Qed.

Lemma slice_cursor_end pre mid i j :
  i = len pre -> j = i + len mid -> slice (pre ++ mid) i j = Some mid.
Proof.
  intros. rewrite <- (app_nil_r mid) at 1. by apply slice_cursor.
Qed.

Lemma slice2_cursor pre x y post i j :
  i = len pre -> j = i + 2 -> slice (pre ++ x :: y :: post) i j = Some [x; y].
Proof. intros. by apply (slice_cursor pre [x; y] post). Qed.

Lemma slice4_cursor pre x y z u post i j :
  i = len pre -> j = i + 4 ->
  slice (pre ++ x :: y :: z :: u :: post) i j = Some [x; y; z; u].
Proof. intros. by apply (slice_cursor pre [x; y; z; u] post). Qed.

Lemma with_slice_cursor_gen pre mid post i j f :
  i = len pre -> j = i + len mid ->
  with_slice (pre ++ mid ++ post) i j f =
  (b' ← f mid; Some (pre ++ b' ++ post)).
Proof.
  intros Hi Hj. unfold with_slice. rewrite slice_cursor by assumption.
  simpl. destruct (f mid) as [b'|]; [|reflexivity]. simpl.
  subst.
  replace (Z.to_nat (len pre + len mid))
    with (length (pre ++ mid)) by (unfold len; rewrite length_app; lia).
  replace (Z.to_nat (len pre)) with (length pre) by (unfold len; lia).
  rewrite take_app_length.
  rewrite (app_assoc pre mid post), drop_app_length. reflexivity.
Qed.

Lemma store_cursor pre k i v :
  i = len pre -> 0 < k ->
  store (pre ++ zeros k) i v = Some ((pre ++ [v]) ++ zeros (k - 1)).
Proof.
  intros Hi Hk. rewrite (zeros_cons k) by assumption.
  rewrite store_cursor_gen by assumption. by rewrite <- app_assoc.
Qed.

Lemma put16_cursor pre k i j v :
  i = len pre -> j = i + 2 -> 2 <= k ->
  with_slice (pre ++ zeros k) i j (PutUint16 v) =
  Some ((pre ++ [Z.land (Z.shiftr v 8) 255; Z.land v 255]) ++ zeros (k - 2)).
Proof.
  intros Hi Hj Hk. rewrite (zeros_app 2 k) by lia.
  rewrite with_slice_cursor_gen by (try assumption; rewrite len_zeros; lia).
  simpl. by rewrite <- app_assoc.
Qed.

Lemma put32_cursor pre k i j v :
  i = len pre -> j = i + 4 -> 4 <= k ->
  with_slice (pre ++ zeros k) i j (PutUint32 v) =
  Some ((pre ++ [Z.land (Z.shiftr v 24) 255; Z.land (Z.shiftr v 16) 255;
                 Z.land (Z.shiftr v 8) 255; Z.land v 255]) ++ zeros (k - 4)).
Proof.
  intros Hi Hj Hk. rewrite (zeros_app 4 k) by lia.
  rewrite with_slice_cursor_gen by (try assumption; rewrite len_zeros; lia).
  simpl. by rewrite <- app_assoc.
Qed.

Lemma copy_exact src dst :
  length src = length dst -> copy src dst = Some src.
Proof.
  intros H. unfold copy. rewrite <- H, firstn_all. rewrite H, drop_all.
  by rewrite app_nil_r.
Qed.

Lemma copy_cursor pre k i j src :
  i = len pre -> j = i + len src -> len src <= k ->
  with_slice (pre ++ zeros k) i j (copy src) =
  Some ((pre ++ src) ++ zeros (k - len src)).
Proof.
  intros Hi Hj Hk. pose proof (len_nonneg src).
  rewrite (zeros_app (len src) k) by lia.
  rewrite with_slice_cursor_gen by (try assumption; rewrite len_zeros; lia).
  rewrite copy_exact.
  - simpl. by rewrite <- app_assoc.
  - unfold zeros, len. rewrite length_replicate. lia.
Qed.

End BufFacts.

Section BitFacts.

Lemma testbit_255 n : 0 <= n -> Z.testbit 255 n = (n <? 8).
Proof.
  intros Hn. change 255 with (Z.ones 8).
  destruct (Z.ltb_spec n 8).
  - apply Z.ones_spec_low. lia.
  - apply Z.ones_spec_high. lia.
Qed.

Lemma testbit_high v k n : 0 <= v < 2 ^ k -> k <= n -> Z.testbit v n = false.
Proof.
  intros [H0 Hk] Hn.
  destruct (Z.eq_dec v 0) as [->|Hv]; [apply Z.bits_0|].
  apply Z.bits_above_log2; [lia|].
  assert (Z.log2 v < k); [|lia].
  apply Z.log2_lt_pow2; lia.
Qed.

Lemma testbit_byte_of v s n :
  0 <= n -> 0 <= s ->
  Z.testbit (Z.shiftl (Z.land (Z.shiftr v s) 255) s) n =
  (s <=? n) && (n <? s + 8) && Z.testbit v n.
Proof.
  intros Hn Hs. rewrite Z.shiftl_spec by lia.
  destruct (Z.leb_spec s n); simpl.
  - rewrite Z.land_spec, Z.shiftr_spec, testbit_255 by lia.
    replace (n - s + s) with n by lia.
    destruct (Z.ltb_spec (n - s) 8), (Z.ltb_spec n (s + 8)); try lia;
      simpl; rewrite ?andb_true_r, ?andb_false_r; reflexivity.
  - apply Z.testbit_neg_r. lia.
Qed.

Lemma Uint16_PutUint16 v :
  is_uint16 v -> Uint16 [Z.land (Z.shiftr v 8) 255; Z.land v 255] = Some v.
Proof.
  intros Hv. unfold Uint16. f_equal. apply Z.bits_inj'. intros n Hn.
  rewrite Z.lor_spec, testbit_byte_of by lia.
  rewrite Z.land_spec, testbit_255 by lia.
  destruct (Z.ltb_spec n 8), (Z.leb_spec 8 n), (Z.ltb_spec n (8 + 8));
    try lia; simpl; rewrite ?andb_true_r, ?andb_false_r, ?orb_false_r;
    try reflexivity.
  symmetry. apply (testbit_high v 16); [exact Hv | lia].
Qed.

Lemma Uint32_PutUint32 v :
  is_uint32 v ->
  Uint32 [Z.land (Z.shiftr v 24) 255; Z.land (Z.shiftr v 16) 255;
          Z.land (Z.shiftr v 8) 255; Z.land v 255] = Some v.
Proof.
  intros Hv. unfold Uint32. f_equal. apply Z.bits_inj'. intros n Hn.
  rewrite !Z.lor_spec, !testbit_byte_of by lia.
  rewrite Z.land_spec, testbit_255 by lia.
  destruct (Z.ltb_spec n 8), (Z.leb_spec 8 n), (Z.ltb_spec n (8 + 8)),
    (Z.leb_spec 16 n), (Z.ltb_spec n (16 + 8)),
    (Z.leb_spec 24 n), (Z.ltb_spec n (24 + 8));
    try lia; simpl; rewrite ?andb_true_r, ?andb_false_r, ?orb_false_r;
    try reflexivity.
  symmetry. apply (testbit_high v 32); [exact Hv | lia].
Qed.

End BitFacts.

(* ===================================================================== *)
(** * Proof steps for the serializers and decoders *)
(* ===================================================================== *)

Ltac buf_side :=
  try reflexivity; try assumption;
  unfold len in *; rewrite ?length_app; simpl length; lia.

(** One write of a serializer on a buffer of the form [pre ++ zeros k],
    at index [len pre]. *)
Ltac ser_step :=
  first [ rewrite store_cursor by buf_side
        | rewrite put16_cursor by buf_side
        | rewrite put32_cursor by buf_side
        | rewrite copy_cursor by buf_side ];
  cbn [mbind option_bind].

(* ===================================================================== *)
(** * Get requests *)
(* ===================================================================== *)

Lemma TOAMGetRequest_SerializeTo_bytes (d : TOAMGetRequest.t) o0 o1 o2 :
  TOAMGetRequest.OUId d = [o0; o1; o2] ->
  TOAMGetRequest.SerializeTo d =
  Some ([TOAMGetRequest.Opcode d]
        ++ [Z.land (Z.shiftr (TOAMGetRequest.Flags d) 8) 255;
            Z.land (TOAMGetRequest.Flags d) 255]
        ++ [TOAMGetRequest.OAMPDUCode d]
        ++ [o0; o1; o2]
        ++ [TOAMGetRequest.TOMIOpcode d]
        ++ [TOAMGetRequest.CTBranch d]
        ++ [Z.land (Z.shiftr (TOAMGetRequest.CTType d) 8) 255;
            Z.land (TOAMGetRequest.CTType d) 255]
        ++ [TOAMGetRequest.CTLength d]
        ++ [Z.land (Z.shiftr (TOAMGetRequest.CTInstance d) 24) 255;
            Z.land (Z.shiftr (TOAMGetRequest.CTInstance d) 16) 255;
            Z.land (Z.shiftr (TOAMGetRequest.CTInstance d) 8) 255;
            Z.land (TOAMGetRequest.CTInstance d) 255]
        ++ [TOAMGetRequest.OCBranch d]
        ++ [Z.land (Z.shiftr (TOAMGetRequest.OCType d) 8) 255;
            Z.land (TOAMGetRequest.OCType d) 255]
        ++ [TOAMGetRequest.OCLength d]
        ++ [Z.land (Z.shiftr (TOAMGetRequest.OCInstance d) 24) 255;
            Z.land (Z.shiftr (TOAMGetRequest.OCInstance d) 16) 255;
            Z.land (Z.shiftr (TOAMGetRequest.OCInstance d) 8) 255;
            Z.land (TOAMGetRequest.OCInstance d) 255]
        ++ [TOAMGetRequest.VdBranch d]
        ++ [Z.land (Z.shiftr (TOAMGetRequest.VdLeaf d) 8) 255;
            Z.land (TOAMGetRequest.VdLeaf d) 255]
        ++ [TOAMGetRequest.EndBranch d]
        ++ [0]).
Proof.
  intros HO.
  unfold TOAMGetRequest.SerializeTo, TOAMGetRequest.Len, PrependBytes.
  rewrite HO. cbn [Z.leb Z.compare mbind option_bind].
  change (zeros 29) with ([] ++ zeros 29).
  do 16 ser_step.
  reflexivity.
Qed.

(** The request made by [GnerateGetVendorName] at any counter value. *)
Lemma encodeGetVendorName_bytes instance :
  exists c3 c2 c1 c0,
    encodeGetVendorName instance =
    Some [0x03; 0x00; 0x50; 0xfe; 0x2a; 0xea; 0x15; 0x01;
          0x0c; 0x0c; 0x7a; 0x04; c3; c2; c1; c0;
          0x0c; 0x0d; 0xce; 0x04; 0x00; 0x00; 0x00; 0x00;
          0xde; 0x00; 0x09; 0x00; 0x00].
Proof.
  unfold encodeGetVendorName, GnerateGetVendorName, getOltInstance.
  cbn [fst].
  set (ct := (instance + 1) mod 2 ^ 32).
  exists (Z.land (Z.shiftr ct 24) 255), (Z.land (Z.shiftr ct 16) 255),
         (Z.land (Z.shiftr ct 8) 255), (Z.land ct 255).
  erewrite TOAMGetRequest_SerializeTo_bytes by reflexivity.
  reflexivity.
Qed.

(** C3, as the code has it: the encoded Get-Vendor-Name request has exactly
    29 bytes; bytes 0..3 are 03 00 50 fe, the OUI 2a ea 15 is at 4..6, the
    TOMI opcode 01 at 7, the Vd triple de 00 09 at 24..26, the end byte 00 at
    27, and byte 28 is a trailing zero that [SerializeTo] never writes. *)
Theorem GetVendorName_layout :
  forall instance, exists bytes,
    encodeGetVendorName instance = Some bytes /\
    len bytes = 29 /\
    slice bytes 0 4 = Some [0x03; 0x00; 0x50; 0xfe] /\
    slice bytes 4 7 = Some [0x2a; 0xea; 0x15] /\
    index bytes 7 = Some 0x01 /\
    slice bytes 24 27 = Some [0xde; 0x00; 0x09] /\
    index bytes 27 = Some 0x00 /\
    index bytes 28 = Some 0x00.
Proof.
  intros instance.
  destruct (encodeGetVendorName_bytes instance) as (c3 & c2 & c1 & c0 & ->).
  eexists. split; [reflexivity|]. repeat split; reflexivity.
Qed.

(** C3, as the specification states it, fails for the very first request of a
    process: bytes 25..27 are 00 09 00, not de 00 09. *)
Lemma GetVendorName_layout_claimed_fails :
  ~ (exists bytes,
       encodeGetVendorName instance_init = Some bytes /\
       len bytes = 29 /\
       slice bytes 0 4 = Some [0x03; 0x00; 0x50; 0xfe] /\
       slice bytes 4 7 = Some [0x2a; 0xea; 0x15] /\
       index bytes 7 = Some 0x01 /\
       slice bytes 25 28 = Some [0xde; 0x00; 0x09] /\
       index bytes 28 = Some 0x00).
Proof.
  intros (bytes & Henc & _ & _ & _ & _ & Hvd & _).
  vm_compute in Henc. injection Henc as <-.
  vm_compute in Hvd. discriminate Hvd.
Qed.

(* ===================================================================== *)
(** * Correlation tags *)
(* ===================================================================== *)

Lemma getOltInstances_fst n : forall s,
  fst (getOltInstances n s)
  = map (fun k => (s + Z.of_nat k) mod 2 ^ 32) (seq 1 n).
Proof.
  induction n as [|n IH]; intros s; [reflexivity|].
  cbn [getOltInstances getOltInstance].
  specialize (IH ((s + 1) mod 2 ^ 32)).
  destruct (getOltInstances n ((s + 1) mod 2 ^ 32)) as [vs s'].
  cbn [fst] in *. subst vs. cbn [seq map]. f_equal.
  rewrite <- (seq_shift n 1), map_map. apply map_ext. intros k.
  rewrite Zplus_mod_idemp_l. f_equal. lia.
Qed.

Lemma getOltInstances_snd n : forall s,
  is_uint32 s ->
  snd (getOltInstances n s) = (s + Z.of_nat n) mod 2 ^ 32.
Proof.
  unfold is_uint32.
  induction n as [|n IH]; intros s Hs.
  - cbn [getOltInstances snd]. rewrite Z.mod_small; lia.
  - cbn [getOltInstances getOltInstance].
    assert (Hs' : 0 <= (s + 1) mod 2 ^ 32 < 4294967296)
      by (apply Z.mod_pos_bound; lia).
    specialize (IH ((s + 1) mod 2 ^ 32) Hs').
    destruct (getOltInstances n ((s + 1) mod 2 ^ 32)) as [vs s'].
    cbn [snd] in *. subst s'.
    rewrite Zplus_mod_idemp_l. f_equal. lia.
Qed.



Lemma instance_of_call_mod n :
  0 <= n -> instance_of_call n = (instance_init + n) mod 2 ^ 32.
Proof.
  intros Hn. unfold instance_of_call. rewrite iter_nat_of_Z by assumption.
  rewrite Zabs2Nat.abs_nat_nonneg by assumption.
  rewrite <- (Z2Nat.id n) at 2 by assumption.
  induction (Z.to_nat n) as [|m IH].
  - reflexivity.
  - cbn [nat_rect]. rewrite IH. cbn [getOltInstance snd].
    rewrite Zplus_mod_idemp_l. f_equal. lia.
Qed.

(** [instance_of_call n] is the counter after the first [n] calls of a
    process, that is the value call number [n] returned. *)
Lemma instance_of_call_getOltInstances (n : nat) :
  instance_of_call (Z.of_nat n) = snd (getOltInstances n instance_init).
Proof.
  rewrite instance_of_call_mod by lia.
  rewrite getOltInstances_snd; [reflexivity|].
  unfold is_uint32, instance_init. lia.
Qed.


(** The generators that are written out in full agree with [CTInstance_of]
    on the tag and on the counter. *)
Lemma CTInstance_of_written_out (oc : TomiObjectContext.t) (s : Z) :
  (let '(r, s') := GnerateGetVendorName s in (TOAMGetRequest.CTInstance r, s'))
  = CTInstance_of Generator.GnerateGetVendorName s /\
  (TOAMGetRequest.CTInstance (GeneratePcscompuTivitcom oc), s)
  = CTInstance_of Generator.GeneratePcscompuTivitcom s.
Proof. split; reflexivity. Qed.




(** The counter itself wraps: call number 2749404575 of a process
    returns 0xffffffff and the next call returns 0. *)
Lemma correlation_tags_wrap :
  instance_of_call 2749404575 = 0xffffffff /\
  instance_of_call 2749404576 = 0 /\
  ~ (forall m n, 0 < m < n -> instance_of_call m < instance_of_call n).
Proof.
  assert (H1 : instance_of_call 2749404575 = 0xffffffff)
    by (rewrite instance_of_call_mod by lia; reflexivity).
  assert (H2 : instance_of_call 2749404576 = 0)
    by (rewrite instance_of_call_mod by lia; reflexivity).
  split; [exact H1|]. split; [exact H2|].
  intros H. specialize (H 2749404575 2749404576).
  rewrite H1, H2 in H. lia.
Qed.

(* ===================================================================== *)
(** * Package variants *)
(* ===================================================================== *)

Lemma index_cons3 (a b c : Z) rest : index (a :: b :: c :: rest) 0 = Some a.
Proof. apply (index_cursor [] a (b :: c :: rest) 0). reflexivity. Qed.

Lemma index_cons3_1 (a b c : Z) rest :
  index (a :: b :: c :: rest) 1 = Some b.
Proof. apply (index_cursor [a] b (c :: rest) 1). reflexivity. Qed.

Lemma index_cons3_2 (a b c : Z) rest :
  index (a :: b :: c :: rest) 2 = Some c.
Proof. apply (index_cursor [a; b] c rest 2). reflexivity. Qed.

Lemma IsOnuPkg_A (d : OAMPDUInformation.t) rest :
  OAMPDUInformation.OSILength d = 7 ->
  OAMPDUInformation.OSIValue d = 0x00 :: 0x10 :: 0x00 :: rest ->
  OAMPDUInformation.IsOnuPkgA d = Some true /\
  OAMPDUInformation.IsOnuPkgB d = Some false.
Proof.
  intros HL HV.
  unfold OAMPDUInformation.IsOnuPkgA, OAMPDUInformation.IsOnuPkgB.
  rewrite HL, HV.
  rewrite (index_cons3 0x00 0x10 0x00 rest).
  rewrite (index_cons3_1 0x00 0x10 0x00 rest).
  rewrite (index_cons3_2 0x00 0x10 0x00 rest).
  split; reflexivity.
Qed.

Lemma IsOnuPkg_B (d : OAMPDUInformation.t) rest :
  OAMPDUInformation.OSILength d = 7 ->
  OAMPDUInformation.OSIValue d = 0x90 :: 0x82 :: 0x60 :: rest ->
  OAMPDUInformation.IsOnuPkgB d = Some true /\
  OAMPDUInformation.IsOnuPkgA d = Some false.
Proof.
  intros HL HV.
  unfold OAMPDUInformation.IsOnuPkgA, OAMPDUInformation.IsOnuPkgB.
  rewrite HL, HV.
  rewrite (index_cons3 0x90 0x82 0x60 rest).
  rewrite (index_cons3_1 0x90 0x82 0x60 rest).
  rewrite (index_cons3_2 0x90 0x82 0x60 rest).
  split; reflexivity.
Qed.

Lemma take3_cons (l : list Z) a b c :
  take 3 l = [a; b; c] -> exists rest, l = a :: b :: c :: rest.
Proof.
  destruct l as [|x [|y [|z rest]]]; try discriminate.
  intros [= -> -> ->]. eauto.
Qed.

(** C6: for every decoded OAMPDU-Information frame, an OSI TLV of length 7
    whose value starts 00 10 00 is variant A and not variant B, one whose
    value starts 90 82 60 is variant B and not variant A, and an OSI length
    of 0 matches both. *)
Theorem package_variant_classification
    (data : list Z) (d : OAMPDUInformation.t) :
  OAMPDUInformation.Decode OAMPDUInformation.zero data = Some (d, None) ->
  (OAMPDUInformation.OSILength d = 7 ->
   take 3 (OAMPDUInformation.OSIValue d) = [0x00; 0x10; 0x00] ->
   OAMPDUInformation.IsOnuPkgA d = Some true /\
   OAMPDUInformation.IsOnuPkgB d = Some false) /\
  (OAMPDUInformation.OSILength d = 7 ->
   take 3 (OAMPDUInformation.OSIValue d) = [0x90; 0x82; 0x60] ->
   OAMPDUInformation.IsOnuPkgB d = Some true /\
   OAMPDUInformation.IsOnuPkgA d = Some false) /\
  (OAMPDUInformation.OSILength d = 0 ->
   OAMPDUInformation.IsOnuPkgA d = Some true /\
   OAMPDUInformation.IsOnuPkgB d = Some true).
Proof.
  intros _. repeat split.
  - destruct (take3_cons _ _ _ _ H0) as [rest Hr].
    apply (IsOnuPkg_A d rest); assumption.
  - destruct (take3_cons _ _ _ _ H0) as [rest Hr].
    apply (IsOnuPkg_A d rest); assumption.
  - destruct (take3_cons _ _ _ _ H0) as [rest Hr].
    apply (IsOnuPkg_B d rest); assumption.
  - destruct (take3_cons _ _ _ _ H0) as [rest Hr].
    apply (IsOnuPkg_B d rest); assumption.
  - unfold OAMPDUInformation.IsOnuPkgA. rewrite H. reflexivity.
  - unfold OAMPDUInformation.IsOnuPkgB. rewrite H. reflexivity.
Qed.

(** The three cases on frames as they arrive: a keep-alive with the
    variant-A OSI, one with a variant-B OSI of length 7, and a frame
    without OSI. *)
Lemma package_variant_classification_witness :
  let dataA := [0x03; 0x00; 0x08; 0x00; 0xfe; 0x07; 0x00; 0x10; 0x00; 0x00; 0x23] in
  let dA := OAMPDUInformation.mk 3 8 0 0 0 [] 0 0 [] 0xfe 7 [0x00; 0x10; 0x00; 0x00; 0x23] in
  let dataB := [0x03; 0x00; 0x08; 0x00; 0xfe; 0x07; 0x90; 0x82; 0x60; 0x02; 0x01] in
  let dB := OAMPDUInformation.mk 3 8 0 0 0 [] 0 0 [] 0xfe 7 [0x90; 0x82; 0x60; 0x02; 0x01] in
  let data0 := [0x03; 0x00; 0x50; 0x00; 0x01; 0x03; 0x2a] in
  let d0 := OAMPDUInformation.mk 3 0x50 0 1 3 [0x2a] 0 0 [] 0 0 [] in
  (OAMPDUInformation.Decode OAMPDUInformation.zero dataA = Some (dA, None) /\
   OAMPDUInformation.IsOnuPkgA dA = Some true /\
   OAMPDUInformation.IsOnuPkgB dA = Some false) /\
  (OAMPDUInformation.Decode OAMPDUInformation.zero dataB = Some (dB, None) /\
   OAMPDUInformation.IsOnuPkgB dB = Some true /\
   OAMPDUInformation.IsOnuPkgA dB = Some false) /\
  (OAMPDUInformation.Decode OAMPDUInformation.zero data0 = Some (d0, None) /\
   OAMPDUInformation.IsOnuPkgA d0 = Some true /\
   OAMPDUInformation.IsOnuPkgB d0 = Some true).
Proof.
  intros dataA dA dataB dB data0 d0.
  assert (HA : OAMPDUInformation.Decode OAMPDUInformation.zero dataA = Some (dA, None))
    by (vm_compute; reflexivity).
  assert (HB : OAMPDUInformation.Decode OAMPDUInformation.zero dataB = Some (dB, None))
    by (vm_compute; reflexivity).
  assert (H0 : OAMPDUInformation.Decode OAMPDUInformation.zero data0 = Some (d0, None))
    by (vm_compute; reflexivity).
  destruct (package_variant_classification dataA dA HA) as (PA & _ & _).
  destruct (package_variant_classification dataB dB HB) as (_ & PB & _).
  destruct (package_variant_classification data0 d0 H0) as (_ & _ & P0).
  split; [|split].
  - split; [exact HA|]. apply PA; reflexivity.
  - split; [exact HB|]. apply PB; reflexivity.
  - split; [exact H0|]. apply P0; reflexivity.
Defined.

(* ===================================================================== *)
(** * ONU status ledger: lookups *)
(* ===================================================================== *)

Lemma GetOnuFromDeviceID_range_all_match (list : list OnuStatus.t) id :
  Forall (fun sts => OnuStatus.ID sts = id) list ->
  GetOnuFromDeviceID_range list id = None.
Proof.
  induction 1 as [|sts list Hsts _ IH]; [reflexivity|].
  cbn [GetOnuFromDeviceID_range].
  rewrite (proj2 (String.eqb_eq _ _) Hsts). exact IH.
Qed.

Lemma GetOnuFromDeviceID_range_first_mismatch l1 sts l2 id :
  Forall (fun sts => OnuStatus.ID sts = id) l1 ->
  OnuStatus.ID sts <> id ->
  GetOnuFromDeviceID_range (l1 ++ sts :: l2) id = Some sts.
Proof.
  intros Hl1 Hne. induction Hl1 as [|x l1 Hx _ IH].
  - cbn [app GetOnuFromDeviceID_range].
    rewrite (proj2 (String.eqb_neq _ _) Hne). reflexivity.
  - cbn [app GetOnuFromDeviceID_range].
    rewrite (proj2 (String.eqb_eq _ _) Hx). exact IH.
Qed.

(** C9: on a ledger whose records before [sts] all have the ID [id] and
    where [sts] has another ID, [GetOnuFromDeviceID id] returns [sts], the
    first record whose ID does not match; it returns nil when the file is
    absent, the list is nil or empty, or every record has the ID [id]. *)
Theorem GetOnuFromDeviceID_first_mismatch (id : string) :
  (forall l1 sts l2,
     Forall (fun x => OnuStatus.ID x = id) l1 ->
     OnuStatus.ID sts <> id ->
     GetOnuFromDeviceID (FileContent (JsonArray (l1 ++ sts :: l2))) id
     = (Some sts, None)) /\
  GetOnuFromDeviceID FileNotExist id = (None, None) /\
  GetOnuFromDeviceID (FileContent JsonNull) id = (None, None) /\
  GetOnuFromDeviceID (FileContent (JsonArray [])) id = (None, None) /\
  (forall list,
     Forall (fun x => OnuStatus.ID x = id) list ->
     GetOnuFromDeviceID (FileContent (JsonArray list)) id = (None, None)).
Proof.
  split; [|repeat split].
  - intros l1 sts l2 Hl1 Hne.
    unfold GetOnuFromDeviceID. cbn [ReadOnuStatusList json_Unmarshal].
    by rewrite GetOnuFromDeviceID_range_first_mismatch.
  - intros list Hall.
    unfold GetOnuFromDeviceID. cbn [ReadOnuStatusList json_Unmarshal].
    by rewrite GetOnuFromDeviceID_range_all_match.
Qed.

(** Asked for the device "onu-1", the lookup returns the record of "onu-2",
    and asked for an ID that every record has it returns nil. *)
Lemma GetOnuFromDeviceID_first_mismatch_witness :
  let r1 := OnuStatus.mk "onu-1" "up" "up" "up" "000000000001" "" in
  let r2 := OnuStatus.mk "onu-2" "up" "up" "up" "000000000002" "" in
  GetOnuFromDeviceID (FileContent (JsonArray [r1; r2])) "onu-1"
  = (Some r2, None) /\
  GetOnuFromDeviceID (FileContent (JsonArray [r1])) "onu-1" = (None, None).
Proof.
  intros r1 r2.
  destruct (GetOnuFromDeviceID_first_mismatch "onu-1") as (Hfirst & _ & _ & _ & Hall).
  split.
  - apply (Hfirst [r1] r2 []).
    + repeat constructor.
    + discriminate.
  - apply (Hall [r1]). repeat constructor.
Defined.

(* ===================================================================== *)
(** * TPID/VID entries *)
(* ===================================================================== *)

Lemma split_at {A} (l : list A) n :
  0 <= n <= len l -> exists l1 l2, l = l1 ++ l2 /\ len l1 = n.
Proof.
  intros Hn. exists (take (Z.to_nat n) l), (drop (Z.to_nat n) l). split.
  - symmetry. apply take_drop.
  - unfold len in *. rewrite length_take. lia.
Qed.

Lemma shift1 {A} (pre : list A) a rest :
  pre ++ a :: rest = (pre ++ [a]) ++ rest.
Proof. by rewrite <- app_assoc. Qed.

Lemma len_copy src dst r : copy src dst = Some r -> len r = len dst.
Proof.
  unfold copy. intros [= <-]. unfold len.
  rewrite length_app, length_take, length_drop. lia.
Qed.

(** The value bytes one field of an entry occupies in the buffer: none for
    the length byte 0x80, else [ln] bytes, which are those of [value] when
    it has [ln] bytes. *)
Lemma serialize_field pre old post ln value i :
  i = len pre -> len old = emitted ln ->
  exists bytes,
    (if negb (ln =? 128) then
       data ← with_slice (pre ++ old ++ post) i (i + ln) (copy value);
       Some (data, i + ln)
     else Some (pre ++ old ++ post, i))
    = Some (pre ++ bytes ++ post, i + emitted ln) /\
    len bytes = emitted ln /\
    (ln = 128 /\ bytes = [] \/ ln <> 128 /\ len bytes = ln) /\
    (ln <> 128 -> len value = ln -> bytes = value).
Proof.
  intros Hi Hold. unfold emitted in *.
  destruct (Z.eqb_spec ln 128) as [Heq|Hne]; cbn [negb].
  - exists []. destruct old; [|rewrite len_cons in Hold; pose proof (len_nonneg old); lia].
    repeat split; try (left; split; [assumption | reflexivity]);
      try contradiction.
    f_equal. f_equal. lia.
  - rewrite with_slice_cursor_gen by (try assumption; lia).
    destruct (copy value old) as [bytes|] eqn:Hc; [|discriminate Hc].
    cbn [mbind option_bind]. exists bytes.
    pose proof (len_copy _ _ _ Hc) as Hlen.
    split; [reflexivity|]. split; [lia|]. split.
    + right. split; [assumption | lia].
    + intros _ Hv. rewrite copy_exact in Hc by (unfold len in *; lia).
      by injection Hc.
Qed.

Lemma serializeTpidVid_cursor
    (tpidVid : TpidVid.t) pre o0 o1 oldT o2 oldV post startIndex :
  startIndex = len pre ->
  len oldT = emitted (TpidVid.TpIDLength tpidVid) ->
  len oldV = emitted (TpidVid.VIdLength tpidVid) ->
  exists tpid vid,
    serializeTpidVid tpidVid
      (pre ++ o0 :: o1 :: oldT ++ o2 :: oldV ++ post) startIndex
    = Some (pre ++ TpidVid.Length tpidVid :: TpidVid.TpIDLength tpidVid
                   :: tpid ++ TpidVid.VIdLength tpidVid :: vid ++ post,
            startIndex + 3 + emitted (TpidVid.TpIDLength tpidVid)
              + emitted (TpidVid.VIdLength tpidVid)) /\
    (TpidVid.TpIDLength tpidVid = 0x80 /\ tpid = [] \/
     TpidVid.TpIDLength tpidVid <> 0x80 /\
     len tpid = TpidVid.TpIDLength tpidVid) /\
    (TpidVid.VIdLength tpidVid = 0x80 /\ vid = [] \/
     TpidVid.VIdLength tpidVid <> 0x80 /\
     len vid = TpidVid.VIdLength tpidVid) /\
    (TpidVid.TpIDLength tpidVid <> 0x80 ->
     len (TpidVid.TpIDValue tpidVid) = TpidVid.TpIDLength tpidVid ->
     tpid = TpidVid.TpIDValue tpidVid) /\
    (TpidVid.VIdLength tpidVid <> 0x80 ->
     len (TpidVid.VIdValue tpidVid) = TpidVid.VIdLength tpidVid ->
     vid = TpidVid.VIdValue tpidVid).
Proof.
  intros Hpre HoldT HoldV.
  set (nt := emitted (TpidVid.TpIDLength tpidVid)) in *.
  set (nv := emitted (TpidVid.VIdLength tpidVid)) in *.
  unfold serializeTpidVid.
  rewrite (store_cursor_gen pre o0 _ startIndex) by lia.
  cbn [mbind option_bind]. rewrite (shift1 pre).
  rewrite (store_cursor_gen _ o1 _ (startIndex + 1))
    by (rewrite len_app, len_cons, len_nil; lia).
  cbn [mbind option_bind]. rewrite (shift1 (pre ++ _)).
  destruct (serialize_field
              ((pre ++ [TpidVid.Length tpidVid]) ++ [TpidVid.TpIDLength tpidVid])
              oldT (o2 :: oldV ++ post)
              (TpidVid.TpIDLength tpidVid) (TpidVid.TpIDValue tpidVid)
              (startIndex + 1 + 1))
    as (tpid & Htpid & HlenT & HcaseT & HvalT);
    [rewrite !len_app, !len_cons, len_nil; lia | exact HoldT |].
  fold nt in Htpid, HlenT.
  rewrite Htpid. cbn [mbind option_bind].
  rewrite (app_assoc _ tpid).
  rewrite (store_cursor_gen _ o2 _ (startIndex + 1 + 1 + nt))
    by (rewrite !len_app, !len_cons, len_nil; lia).
  cbn [mbind option_bind]. rewrite (shift1 (_ ++ tpid)).
  destruct (serialize_field
              ((((pre ++ [TpidVid.Length tpidVid]) ++ [TpidVid.TpIDLength tpidVid])
                  ++ tpid) ++ [TpidVid.VIdLength tpidVid])
              oldV post
              (TpidVid.VIdLength tpidVid) (TpidVid.VIdValue tpidVid)
              (startIndex + 1 + 1 + nt + 1))
    as (vid & Hvid & HlenV & HcaseV & HvalV);
    [rewrite !len_app, !len_cons, len_nil; lia | exact HoldV |].
  fold nv in Hvid, HlenV.
  rewrite Hvid. cbn [mbind option_bind].
  exists tpid, vid. split; [|auto].
  f_equal. f_equal; [|lia].
  rewrite <- !app_assoc. reflexivity.
Qed.

(** C5: an entry serialized at [startIndex] into a buffer with room for it
    occupies [3 + emitted TpIDLength + emitted VIdLength] bytes: its length
    byte, the TPID length byte, the TPID value bytes, the VID length byte and
    the VID value bytes.  Either the TPID length byte is 0x80 and no TPID
    value byte is emitted, or exactly TPID-length value bytes are; and the
    same for the VID. *)
Theorem serializeTpidVid_emits
    (tpidVid : TpidVid.t) (data : list Z) (startIndex : Z) :
  0 <= startIndex ->
  is_uint8 (TpidVid.TpIDLength tpidVid) ->
  is_uint8 (TpidVid.VIdLength tpidVid) ->
  startIndex + 3 + emitted (TpidVid.TpIDLength tpidVid)
    + emitted (TpidVid.VIdLength tpidVid) <= len data ->
  exists pre old post tpid vid,
    data = pre ++ old ++ post /\
    len pre = startIndex /\
    len old = 3 + emitted (TpidVid.TpIDLength tpidVid)
                + emitted (TpidVid.VIdLength tpidVid) /\
    serializeTpidVid tpidVid data startIndex
    = Some (pre ++ ([TpidVid.Length tpidVid; TpidVid.TpIDLength tpidVid]
                    ++ tpid ++ [TpidVid.VIdLength tpidVid] ++ vid) ++ post,
            startIndex + 3 + emitted (TpidVid.TpIDLength tpidVid)
              + emitted (TpidVid.VIdLength tpidVid)) /\
    (TpidVid.TpIDLength tpidVid = 0x80 /\ tpid = [] \/
     TpidVid.TpIDLength tpidVid <> 0x80 /\
     len tpid = TpidVid.TpIDLength tpidVid) /\
    (TpidVid.VIdLength tpidVid = 0x80 /\ vid = [] \/
     TpidVid.VIdLength tpidVid <> 0x80 /\
     len vid = TpidVid.VIdLength tpidVid) /\
    (TpidVid.TpIDLength tpidVid <> 0x80 ->
     len (TpidVid.TpIDValue tpidVid) = TpidVid.TpIDLength tpidVid ->
     tpid = TpidVid.TpIDValue tpidVid) /\
    (TpidVid.VIdLength tpidVid <> 0x80 ->
     len (TpidVid.VIdValue tpidVid) = TpidVid.VIdLength tpidVid ->
     vid = TpidVid.VIdValue tpidVid).
Proof.
  intros Hstart HT HV Hroom.
  set (nt := emitted (TpidVid.TpIDLength tpidVid)) in *.
  set (nv := emitted (TpidVid.VIdLength tpidVid)) in *.
  assert (Hnt : 0 <= nt) by (unfold nt, emitted, is_uint8 in *; case_match; lia).
  assert (Hnv : 0 <= nv) by (unfold nv, emitted, is_uint8 in *; case_match; lia).
  destruct (split_at data startIndex) as (pre & r0 & -> & Hpre); [lia|].
  rewrite len_app in Hroom.
  destruct (split_at r0 (3 + nt + nv)) as (old & post & -> & Hold); [lia|].
  exists pre, old, post.
  destruct old as [|o0 [|o1 old]];
    [rewrite len_nil in Hold; lia | rewrite !len_cons, len_nil in Hold; lia|].
  pose proof Hold as Hold'. rewrite !len_cons in Hold'.
  destruct (split_at old nt) as (oldT & r1 & -> & HoldT); [lia|].
  rewrite len_app in Hold'.
  destruct r1 as [|o2 oldV]; [rewrite len_nil in Hold'; lia|].
  rewrite len_cons in Hold'.
  destruct (serializeTpidVid_cursor tpidVid pre o0 o1 oldT o2 oldV post startIndex)
    as (tpid & vid & Hser & Hrest); [lia | exact HoldT | fold nv; lia |].
  exists tpid, vid.
  split; [reflexivity|]. split; [assumption|]. split; [assumption|].
  split; [|exact Hrest].
  fold nt nv in Hser. cbn [app]. rewrite <- !app_assoc. cbn [app].
  exact Hser.
Qed.

Lemma serializeTpidVid_emits_witness :
  serializeTpidVid (TpidVid.mk 3 0x80 [0] 1 [0x64]) (zeros 8) 2
  = Some ([0; 0; 3; 0x80; 1; 0x64; 0; 0], 6).
Proof.
  destruct (serializeTpidVid_emits (TpidVid.mk 3 0x80 [0] 1 [0x64]) (zeros 8) 2)
    as (pre & old & post & tpid & vid & Hd & Hpre & Hold & Hser & _);
    [lia | unfold is_uint8; simpl; lia | unfold is_uint8; simpl; lia
     | vm_compute; discriminate |].
  reflexivity.
Defined.

(* ===================================================================== *)
(** * Dispatcher *)
(* ===================================================================== *)

(** C10: VLAN mode is on, and then a frame whose outer EtherType is not
    0x88a8 is dropped by the receive path: nothing is handed to a device
    (keep-alive, response or EAPOL path) and no packet-in is raised; the
    process state is unchanged except for the log, which ends with the
    "Discard unsupported etherType" entry.  This holds whatever the packet
    library's decoders do. *)
Theorem vlan_mode_discards_untagged
    (Dot1Q_DecodeFromBytes : list Z -> option (Dot1Q * option error))
    (Ethernet_DecodeFromBytes : list Z -> option (Ethernet * option error))
    (etherPacket : Ethernet) (w : World) :
  EthernetType etherPacket <> 0x88a8 ->
  vlanEnable = true /\
  exists w',
    startThread_receive Dot1Q_DecodeFromBytes Ethernet_DecodeFromBytes
      etherPacket w = Some (tt, w') /\
    upcalls w' = upcalls w /\
    sent w' = sent w /\
    heap w' = heap w /\
    DeviceMap w' = DeviceMap w /\
    DeviceIDMap w' = DeviceIDMap w /\
    file w' = file w /\
    exchanges w' = exchanges w /\
    logs w' = logs w ++
      [(LvDebug, "gopacket receive. %x");
       (LvDebug, "gopacket ether receive. %x");
       (LvDebug, "dispatchVlan(). %x");
       (LvError, "Discard unsupported etherType. 0x%X")].
Proof.
  intros Hty. split; [reflexivity|].
  unfold startThread_receive, dispatchVlan, vlanEnable, EthernetTypeQinQ.
  destruct (Z.eqb_spec (EthernetType etherPacket) 0x88a8) as [Heq|_];
    [contradiction|].
  eexists. split; [reflexivity|].
  cbn. rewrite <- !app_assoc. repeat split; reflexivity.
Qed.

(** An untagged keep-alive (0xa8c8), an EAPOL frame (0x888e) and a C-tagged
    frame (0x8100) raise no upcall at all. *)
Lemma vlan_mode_discards_untagged_witness :
  let frame ty payload :=
    mkEthernet [0; 0; 0; 0; 0; 1] [0; 0; 0; 0; 0; 2] ty
               ([0; 0; 0; 0; 0; 2; 0; 0; 0; 0; 0; 1]
                  ++ [Z.shiftr ty 8; Z.land ty 255]) payload in
  Forall (fun ty =>
    exists w',
      startThread_receive no_decoder no_decoder
        (frame ty [0x03; 0x00; 0x50; 0x00]) world0 = Some (tt, w') /\
      upcalls w' = [])
    [0xa8c8; 0x888e; 0x8100].
Proof.
  intros frame.
  repeat constructor.
  - destruct (vlan_mode_discards_untagged no_decoder no_decoder
                (frame 0xa8c8 [0x03; 0x00; 0x50; 0x00]) world0)
      as (_ & w' & Hrun & Hup & _); [discriminate|].
    exists w'. split; [exact Hrun | exact Hup].
  - destruct (vlan_mode_discards_untagged no_decoder no_decoder
                (frame 0x888e [0x03; 0x00; 0x50; 0x00]) world0)
      as (_ & w' & Hrun & Hup & _); [discriminate|].
    exists w'. split; [exact Hrun | exact Hup].
  - destruct (vlan_mode_discards_untagged no_decoder no_decoder
                (frame 0x8100 [0x03; 0x00; 0x50; 0x00]) world0)
      as (_ & w' & Hrun & Hup & _); [discriminate|].
    exists w'. split; [exact Hrun | exact Hup].
Defined.

Lemma index_cons_0 (a : Z) rest : index (a :: rest) 0 = Some a.
Proof. apply (index_cursor [] a rest 0). reflexivity. Qed.

Lemma index_cons_3 (a b c d : Z) rest :
  index (a :: b :: c :: d :: rest) 3 = Some d.
Proof. apply (index_cursor [a; b; c] d rest 3). reflexivity. Qed.

(** The packet-in path for a frame: the indication goes to the flow
    manager; with a logical port the packet is sent to the core, without
    one nothing leaves the adapter; an error on the way is logged once. *)
Lemma packetIn_spec (etherPacket : Ethernet) (w : World) :
  let pktInd := packetIn_indication etherPacket in
  exists w',
    packetIn etherPacket w = Some (tt, w') /\
    DeviceMap w' = DeviceMap w /\
    match logicalPort (env w) pktInd with
    | (logicalPortNum, None) =>
        upcalls w' = upcalls w ++ [SendPacketIn logicalPortNum (Pkt pktInd)] /\
        (corePacketIn (env w) logicalPortNum (Pkt pktInd) <> None ->
         last (logs w') = Some (LvError, "L2oamHandle.packetIn() error. "))
    | (_, Some _) =>
        upcalls w' = upcalls w /\
        last (logs w') = Some (LvError, "L2oamHandle.packetIn() error. ")
    end.
Proof.
  intros pktInd. subst pktInd.
  unfold packetIn, handlePacketIndication, packetIn_indication,
    GetLogicalPortFromPacketIn, coreProxy_SendPacketIn, logger_V.
  unfold bind, logger, upcall, ret. cbn.
  destruct (logicalPort (env w) _) as [logicalPortNum [err|]] eqn:Hport;
    destruct (logV (env w) LvDebug) eqn:HV; cbn; rewrite ?Hport; cbn;
    rewrite ?HV; cbn.
  1, 2: eexists; split; [reflexivity|]; split; [reflexivity|];
    split; [reflexivity|]; cbn; by rewrite last_snoc.
  all: destruct (corePacketIn (env w) logicalPortNum
                   (Contents etherPacket ++ Payload etherPacket))
         as [err|] eqn:Hcore; cbn; rewrite ?HV; cbn;
    eexists; (split; [reflexivity|]); (split; [reflexivity|]);
    (split; [reflexivity|]); cbn; intros Herr;
    first [by rewrite last_snoc | contradiction].
Qed.

(** C7, as the code has it.  For a frame from a source MAC that is not in
    the registry: when its EtherType is EAPOL (0x888e) or C-tagged (0x8100),
    [dispatch] hands it to the packet-in path, where it leaves for the core
    under the logical port the flow manager names for its indication, and
    where a failure is only logged; a slow-protocol frame (0xa8c8) is never
    forwarded: with four payload bytes or more it is dropped with a log
    entry and no call at all, with fewer [dispatch] panics on reading the
    opcode and the OAMPDU code, which it does before the lookup. *)
Theorem dispatch_unknown_source (etherPacket : Ethernet) (w : World) :
  DeviceMap w !! hex_EncodeToString (SrcMAC etherPacket) = None ->
  (EthernetType etherPacket = 0x888e \/ EthernetType etherPacket = 0x8100 ->
   let pktInd := packetIn_indication etherPacket in
   exists w',
     dispatch etherPacket w = Some (tt, w') /\
     match logicalPort (env w) pktInd with
     | (logicalPortNum, None) =>
         upcalls w' = upcalls w
                      ++ [SendPacketIn logicalPortNum (Pkt pktInd)] /\
         (corePacketIn (env w) logicalPortNum (Pkt pktInd) <> None ->
          last (logs w') = Some (LvError, "L2oamHandle.packetIn() error. "))
     | (_, Some _) =>
         upcalls w' = upcalls w /\
         last (logs w') = Some (LvError, "L2oamHandle.packetIn() error. ")
     end) /\
  (EthernetType etherPacket = 0xa8c8 ->
   (4 <= len (Payload etherPacket) ->
    exists w',
      dispatch etherPacket w = Some (tt, w') /\
      upcalls w' = upcalls w /\
      last (logs w')
      = Some (LvError, "Received from an unregistered device. macAddr=%s")) /\
   (len (Payload etherPacket) < 4 -> dispatch etherPacket w = None)).
Proof.
  intros Hunknown. split.
  - intros Hty pktInd.
    assert (exists w1,
              dispatch etherPacket w = packetIn etherPacket w1 /\
              upcalls w1 = upcalls w /\ env w1 = env w)
      as (w1 & -> & Hup & Henv).
    { unfold dispatch, EthernetTypeEAPOL, EthernetTypeDot1Q.
      destruct Hty as [Hty | Hty]; rewrite Hty; cbn [Z.eqb Pos.eqb];
        unfold bind at 1; cbn [logger];
        [unfold bind at 1; cbn [logger]|];
        unfold bind at 1; unfold FindL2oamDevice at 1; cbn [DeviceMap];
        rewrite Hunknown; unfold bind at 1; cbn [logger];
        eexists; (split; [reflexivity|]); split; reflexivity. }
    destruct (packetIn_spec etherPacket w1) as (w' & Hrun & _ & Hout).
    exists w'. split; [exact Hrun|].
    rewrite Henv, Hup in Hout. exact Hout.
  - intros Hty. split.
    + intros Hlen. unfold dispatch, EthernetTypeEAPOL. rewrite Hty.
      cbn [Z.eqb Pos.eqb].
      destruct (Payload etherPacket) as [|b0 [|b1 [|b2 [|b3 rest]]]] eqn:HP;
        try (rewrite ?len_cons, len_nil in Hlen; lia).
      unfold bind, logger, FindL2oamDevice, lift.
      rewrite index_cons_0, index_cons_3.
      cbn. rewrite Hunknown. eexists. split; [reflexivity|].
      split; [reflexivity|]. cbn. by rewrite last_snoc.
    + intros Hlen. unfold dispatch, EthernetTypeEAPOL. rewrite Hty.
      cbn [Z.eqb Pos.eqb].
      unfold bind at 1. cbn [logger].
      unfold bind at 1. unfold lift at 1.
      destruct (index (Payload etherPacket) 0) as [opcode|]; [|reflexivity].
      unfold bind at 1. unfold lift at 1.
      assert (index (Payload etherPacket) 3 = None) as ->; [|reflexivity].
      unfold index.
      destruct (Z.ltb_spec 3 (len (Payload etherPacket))); [lia|].
      reflexivity.
Qed.

Lemma dispatch_unknown_source_witness :
  let etherPacket := frame_from_unknown 0x888e [0x01; 0x01; 0x00; 0x00] in
  exists w',
    dispatch etherPacket world0 = Some (tt, w') /\
    upcalls w' =
    [SendPacketIn 16 (Contents etherPacket ++ Payload etherPacket)].
Proof.
  intros etherPacket.
  destruct (dispatch_unknown_source etherPacket world0) as [Hin _];
    [reflexivity|].
  destruct Hin as (w' & Hrun & Hup & _); [left; reflexivity|].
  exists w'. split; [exact Hrun | exact Hup].
Defined.

(** C7, as the specification states it, fails for the slow-protocol
    EtherType: a 0xa8c8 frame from a MAC that is not in the (empty)
    registry is processed without any packet-in, whatever the flow manager
    would have answered. *)
Lemma dispatch_slow_protocol_unknown_source :
  let etherPacket := frame_from_unknown 0xa8c8 [0x03; 0x00; 0x50; 0xfe] in
  DeviceMap world0 !! hex_EncodeToString (SrcMAC etherPacket) = None /\
  exists w',
    dispatch etherPacket world0 = Some (tt, w') /\
    upcalls w' = [] /\
    logs w'
    = [(LvDebug, "dispatch(). %x"%string);
       (LvDebug,
        "receive message = 1904.2 OAM opcode=%v oampduCode=%v,  %x"%string);
       (LvError, "Received from an unregistered device. macAddr=%s"%string)].
Proof.
  intros etherPacket. split; [reflexivity|].
  eexists. split; [vm_compute; reflexivity|].
  split; reflexivity.
Qed.

(* ===================================================================== *)
(** * The link: what [send] and [waitResponse] leave unchanged *)
(* ===================================================================== *)

Lemma same_devices_refl w : same_devices w w.
Proof. repeat split. Qed.

Lemma same_devices_trans w1 w2 w3 :
  same_devices w1 w2 -> same_devices w2 w3 -> same_devices w1 w3.
Proof.
  unfold same_devices. intros (?&?&?&?&?&?&?) (?&?&?&?&?&?&?).
  repeat split; congruence.
Qed.

Lemma send_spec p m w :
  exists err w',
    send p m w = Some (err, w') /\ same_devices w w' /\
    sent w' = sent w ++ [(p, m)] /\
    (err = None -> exchanges w' = exchanges w).
Proof.
  unfold send. destruct (exchanges w) as [|[| |ether] rest] eqn:E;
    eexists _, _; (split; [reflexivity|]);
    (split; [repeat split|]); (split; [reflexivity|]);
    cbn; congruence.
Qed.

Lemma waitResponse_spec p w :
  exists r w',
    waitResponse p w = Some (r, w') /\ same_devices w w' /\ sent w' = sent w.
Proof.
  unfold waitResponse. destruct (exchanges w) as [|[| |ether] rest];
    eexists _, _; (split; [reflexivity|]); split; try reflexivity;
    repeat split.
Qed.

Lemma logger_spec lvl msg w :
  exists w',
    logger lvl msg w = Some (tt, w') /\ same_devices w w' /\
    sent w' = sent w /\ exchanges w' = exchanges w.
Proof. eexists. split; [reflexivity|]. repeat split. Qed.

(* ===================================================================== *)
(** * ONU status ledger: the poll loop *)
(* ===================================================================== *)

Lemma WatchStatus_range_spec (l : list OnuStatus.t) : forall w,
  exists w',
    WatchStatus_range l w = Some (map clear_reboot l, w') /\
    same_devices w w' /\
    sent w' = sent w ++ reset_requests (DeviceMap w) (OnuPkgType w) l.
Proof.
  induction l as [|onu l IH]; intros w.
  - exists w. split; [reflexivity|]. split; [apply same_devices_refl|].
    cbn. by rewrite app_nil_r.
  - cbn [WatchStatus_range map]. unfold clear_reboot at 1.
    destruct (String.eqb (OnuStatus.RebootState onu) "reboot") eqn:Hreboot.
    + unfold bind at 1. cbn [logger].
      set (w1 := mkWorld _ _ _ _ _ _ _ _ _ _ _).
      unfold bind at 1. unfold bind at 1. unfold FindL2oamDevice at 1.
      assert (Hw1 : same_devices w w1) by (repeat split).
      assert (Hs1 : sent w1 = sent w) by reflexivity.
      assert (HD1 : DeviceMap w1 = DeviceMap w) by reflexivity.
      assert (HP1 : OnuPkgType w1 = OnuPkgType w) by reflexivity.
      rewrite HD1.
      destruct (DeviceMap w !! OnuStatus.MacAddress onu) as [onuDevice|] eqn:Hfind.
      * unfold bind at 1. unfold get at 1. unfold bind at 1. rewrite HP1.
        destruct (send_spec onuDevice
                    (TibitFrame (GenerateSetResetOnu (OnuPkgType w))) w1)
          as (err & w2 & -> & Hw2 & Hs2 & _).
        assert (exists w3, (if err is Some _ then ret tt
                  else let* (_, err0) := waitResponse onuDevice in
                       if err0 is Some _
                       then logger LvError "[%s] reset ONU Send Error: %v"
                       else ret tt) w2 = Some (tt, w3)
                  /\ same_devices w2 w3 /\ sent w3 = sent w2)
          as (w3 & -> & Hw3 & Hs3).
        { destruct err as [e|].
          - exists w2. split; [reflexivity|].
            split; [apply same_devices_refl|reflexivity].
          - unfold bind.
            destruct (waitResponse_spec onuDevice w2)
              as ([r [e|]] & w3 & -> & Hw3 & Hs3).
            + eexists. split; [reflexivity|]. split; [|exact Hs3].
              eapply same_devices_trans; [exact Hw3|]. repeat split.
            + exists w3. split; [reflexivity|]. split; assumption. }
        destruct (IH w3) as (w4 & Hrun & Hw4 & Hs4).
        unfold bind at 1. rewrite Hrun. eexists. split; [reflexivity|].
        assert (Hw13 : same_devices w w3).
        { eapply same_devices_trans; [exact Hw1|].
          eapply same_devices_trans; [exact Hw2|exact Hw3]. }
        split; [by eapply same_devices_trans|].
        rewrite Hs4, Hs3, Hs2, Hs1.
        destruct Hw13 as (_ & HA & _ & _ & _ & _ & HB).
        rewrite HA, HB. unfold reset_requests.
        cbn [omap list_omap]. rewrite Hreboot, Hfind.
        by rewrite <- app_assoc.
      * cbn [logger]. set (w2 := mkWorld _ _ _ _ _ _ _ _ _ _ _).
        destruct (IH w2) as (w4 & Hrun & Hw4 & Hs4).
        unfold bind at 1. rewrite Hrun. eexists. split; [reflexivity|].
        split.
        -- eapply same_devices_trans; [|exact Hw4]. repeat split.
        -- rewrite Hs4. unfold reset_requests.
           cbn [omap list_omap]. rewrite Hreboot, Hfind. reflexivity.
    + destruct (IH w) as (w4 & Hrun & Hw4 & Hs4).
      unfold bind at 1. rewrite Hrun. eexists. split; [reflexivity|].
      split; [assumption|]. rewrite Hs4. unfold reset_requests.
      cbn [omap list_omap]. rewrite Hreboot. reflexivity.
Qed.

Lemma clear_reboot_reboot onu :
  OnuStatus.RebootState onu = "reboot" ->
  clear_reboot onu = OnuStatus.set_RebootState onu "" /\
  OnuStatus.RebootState (clear_reboot onu) = "".
Proof. intros H. unfold clear_reboot. rewrite H. split; reflexivity. Qed.

Lemma reset_requests_elem reg pkgType l onu p :
  onu ∈ l ->
  OnuStatus.RebootState onu = "reboot" ->
  reg !! OnuStatus.MacAddress onu = Some p ->
  (p, TibitFrame (GenerateSetResetOnu pkgType)) ∈ reset_requests reg pkgType l.
Proof.
  intros Hin Hreboot Hfind. unfold reset_requests.
  apply list_elem_of_omap. exists onu. split; [assumption|].
  rewrite Hreboot, Hfind. reflexivity.
Qed.

Lemma reset_requests_device reg pkgType l p m :
  (p, m) ∈ reset_requests reg pkgType l ->
  m = TibitFrame (GenerateSetResetOnu pkgType) /\
  exists onu, onu ∈ l /\ OnuStatus.RebootState onu = "reboot" /\
              reg !! OnuStatus.MacAddress onu = Some p.
Proof.
  unfold reset_requests. intros Hin. apply list_elem_of_omap in Hin.
  destruct Hin as (onu & Hin & Hsome).
  destruct (String.eqb (OnuStatus.RebootState onu) "reboot") eqn:Hreboot;
    [|discriminate].
  destruct (reg !! OnuStatus.MacAddress onu) as [q|] eqn:Hfind; [|discriminate].
  injection Hsome as -> ->. split; [reflexivity|].
  exists onu. split; [assumption|]. split; [|assumption].
  by apply String.eqb_eq.
Qed.

(** C8, as the code has it: reading an absent file gives the nil list and
    no error.  A turn of the poll loop on a file holding the records [l]
    rewrites the whole file with the reboot flag of every record cleared,
    and hands one Set-Reset-ONU request (the literal of the current package
    variant) to [send] for every record whose [reboot_state] is "reboot" and
    whose MAC address is registered, to the device registered under that
    address; a record whose MAC address is not registered only has its flag
    cleared. *)
Theorem WatchStatus_tick_resets_registered (w : World) (l : list OnuStatus.t) :
  file w = FileContent (JsonArray l) ->
  ReadOnuStatusList FileNotExist = (None, None) /\
  exists w',
    WatchStatus_tick w = Some (tt, w') /\
    file w' = FileContent (JsonArray (map clear_reboot l)) /\
    sent w' = sent w ++ reset_requests (DeviceMap w) (OnuPkgType w) l /\
    heap w' = heap w /\ DeviceMap w' = DeviceMap w /\
    (forall onu, onu ∈ l -> OnuStatus.RebootState onu = "reboot" ->
       OnuStatus.RebootState (clear_reboot onu) = "" /\
       (forall p, DeviceMap w !! OnuStatus.MacAddress onu = Some p ->
          (p, TibitFrame (GenerateSetResetOnu (OnuPkgType w))) ∈ sent w')) /\
    (forall p m, (p, m) ∈ reset_requests (DeviceMap w) (OnuPkgType w) l ->
       exists onu, onu ∈ l /\ OnuStatus.RebootState onu = "reboot" /\
                   DeviceMap w !! OnuStatus.MacAddress onu = Some p).
Proof.
  intros Hfile. split; [reflexivity|].
  unfold WatchStatus_tick, bind, get. rewrite Hfile.
  cbn [ReadOnuStatusList json_Unmarshal].
  destruct (WatchStatus_range_spec l w) as (w1 & -> & Hsame & Hsent).
  cbn [ret]. eexists. split; [reflexivity|].
  destruct Hsame as (Hheap & HD & _).
  split; [reflexivity|]. split; [exact Hsent|].
  split; [exact Hheap|]. split; [exact HD|]. split.
  - intros onu Hin Hreboot. split; [by apply clear_reboot_reboot|].
    intros p Hfind. cbn. rewrite Hsent. apply elem_of_app. right.
    by apply reset_requests_elem with onu.
  - intros p m Hin. by apply reset_requests_device in Hin as [_ ?].
Qed.

(** A ledger with a record to reboot whose MAC address is registered for
    device 7. *)
Lemma WatchStatus_tick_resets_registered_witness :
  let onu := OnuStatus.mk "onu-1" "up" "up" "up" "0025dc000001" "reboot" in
  let w := ledger_world {["0025dc000001" := 7%nat]} [onu] in
  exists w',
    WatchStatus_tick w = Some (tt, w') /\
    file w' = FileContent (JsonArray [OnuStatus.set_RebootState onu ""]) /\
    sent w' = [(7%nat, TibitFrame (GenerateSetResetOnu OnuPkgTypeB))].
Proof.
  intros onu w.
  destruct (WatchStatus_tick_resets_registered w [onu] eq_refl)
    as (_ & w' & Hrun & Hfile & Hsent & _).
  exists w'. split; [exact Hrun|]. split; [exact Hfile|].
  rewrite Hsent. reflexivity.
Defined.

(** C8, as the specification states it, fails for a record whose MAC address
    is not registered: its flag is cleared and the file rewritten, but no
    Set-Reset-ONU request is sent. *)
Lemma WatchStatus_tick_unregistered_mac :
  let onu := OnuStatus.mk "onu-1" "up" "up" "up" "0025dc000001" "reboot" in
  let w := ledger_world ∅ [onu] in
  OnuStatus.RebootState onu = "reboot" /\
  exists w',
    WatchStatus_tick w = Some (tt, w') /\
    file w' = FileContent (JsonArray [OnuStatus.set_RebootState onu ""]) /\
    sent w' = [].
Proof.
  intros onu w. split; [reflexivity|].
  eexists. split; [vm_compute; reflexivity|]. split; reflexivity.
Qed.

(* ===================================================================== *)
(** * The add-flow-to-device sequence *)
(* ===================================================================== *)

Lemma bind_eq {A B} (m : M A) (k : A -> M B) w a w' :
  m w = Some (a, w') -> bind m k w = k a w'.
Proof. unfold bind. by intros ->. Qed.

Lemma deref_eq p d w : heap w !! p = Some d -> deref p w = Some (d, w).
Proof. unfold deref, lift. by intros ->. Qed.

Lemma update_eq p f d w :
  heap w !! p = Some d ->
  update p f w = Some (tt, set_heap (<[p := f d]> (heap w)) w).
Proof. unfold update. by intros ->. Qed.

Lemma sendAndWait_spec device m f1 f2 w :
  exists err w',
    sendAndWait device m f1 f2 w = Some (err, w') /\
    same_devices w w' /\ sent w' = sent w ++ [(device, m)].
Proof.
  unfold sendAndWait.
  destruct (send_spec device m w) as (err & w1 & Hsend & Hw1 & Hs1 & _).
  rewrite (bind_eq _ _ _ _ _ Hsend). destruct err as [e|].
  - eexists _, w1. split; [reflexivity|]. split; assumption.
  - destruct (waitResponse_spec device w1) as ([ether [e|]] & w2 & Hwait & Hw2 & Hs2);
      rewrite (bind_eq _ _ _ _ _ Hwait).
    + eexists _, w2. split; [reflexivity|].
      split; [by eapply same_devices_trans | congruence].
    + destruct (logger_spec LvDebug f2 w2) as (w3 & Hlog & Hw3 & Hs3 & _).
      rewrite (bind_eq _ _ _ _ _ Hlog).
      eexists _, w3. split; [reflexivity|]. split; [|congruence].
      eapply same_devices_trans; [exact Hw1|].
      by eapply same_devices_trans.
Qed.

Lemma index_in_range data i :
  0 <= i < len data -> exists v, index data i = Some v.
Proof.
  intros Hi. unfold index.
  replace (0 <=? i) with true by (symmetry; apply Z.leb_le; lia).
  replace (i <? len data) with true by (symmetry; apply Z.ltb_lt; lia).
  cbn [andb]. apply lookup_lt_is_Some_2. unfold len in Hi. lia.
Qed.

Lemma slice_in_range data i j :
  0 <= i <= j -> j <= len data ->
  exists b, slice data i j = Some b /\ len b = j - i.
Proof.
  intros Hi Hj. unfold slice.
  replace (0 <=? i) with true by (symmetry; apply Z.leb_le; lia).
  replace (i <=? j) with true by (symmetry; apply Z.leb_le; lia).
  replace (j <=? len data) with true by (symmetry; apply Z.leb_le; lia).
  cbn [andb]. eexists. split; [reflexivity|].
  unfold len in *. rewrite length_take, length_drop. lia.
Qed.

Lemma Uint16_in_range b : len b = 2 -> exists v, Uint16 b = Some v.
Proof.
  destruct b as [|b0 [|b1 b]]; rewrite ?len_cons, ?len_nil; try lia.
  intros _. eexists. reflexivity.
Qed.

Lemma Uint32_in_range b : len b = 4 -> exists v, Uint32 b = Some v.
Proof.
  destruct b as [|b0 [|b1 [|b2 [|b3 b]]]]; rewrite ?len_cons, ?len_nil; try lia.
  intros _. eexists. reflexivity.
Qed.

(** A response of at least 37 bytes to Generic-Action-Create yields an
    object context. *)
Lemma sendSetGenericActionCreateForDS_responds device w resp rest :
  exchanges w = Responds resp :: rest ->
  37 <= len (Payload resp) ->
  exists oc w',
    sendSetGenericActionCreateForDS device w = Some ((Some oc, None), w') /\
    same_devices w w' /\
    sent w' = sent w ++ [(device, GenerateGenericActionCreateDs)] /\
    exchanges w' = rest.
Proof.
  intros Hex Hlen. unfold sendSetGenericActionCreateForDS.
  unfold bind at 1. unfold send. rewrite Hex.
  unfold bind at 1. unfold waitResponse. cbn [exchanges set_link].
  destruct (index_in_range (Payload resp) 29) as [Branch HB]; [lia|].
  destruct (slice_in_range (Payload resp) (29 + 1) (29 + 1 + 2)) as (bT & HT & HlT);
    [lia|lia|].
  destruct (Uint16_in_range bT) as [Type_ HT']; [lia|].
  destruct (index_in_range (Payload resp) (29 + 1 + 2)) as [Length HL]; [lia|].
  destruct (slice_in_range (Payload resp) (29 + 1 + 2 + 1) (29 + 1 + 2 + 1 + 4))
    as (bI & HI & HlI); [lia|lia|].
  destruct (Uint32_in_range bI) as [Instance HI']; [lia|].
  unfold bind, lift. rewrite HB, HT. cbn [mbind option_bind]. rewrite HT', HL, HI.
  cbn [mbind option_bind]. rewrite HI'.
  eexists _, _. split; [reflexivity|]. repeat split.
Qed.

(** The part of [L2oamAddFlowToDevice] that serves the ONU. *)
Lemma L2oamAddFlowToDevice_onu pOlt oc cmd0 pOnu onu onuID w :
  heap w !! pOnu = Some onu ->
  kind onu = L2oamOnuDevice ->
  exists w',
    (let* err03 := sendSetDefaultOutlet pOlt oc onuID in
     let* cmd := lift (Some cmd0) in
     let* err04 :=
       sendSetL2SwitchingDomainForUS pOlt oc (Tpid cmd) (Vid cmd) onuID in
     logger LvDebug "Sequence results: %v, %v, %v, %v" ;;;
     let* onuDev := deref pOnu in
     (if kind onuDev is L2oamOnuDevice
      then update pOnu (fun d => set_FlowAdded d true) ;;;
           updateMap pOnu
      else logger LvError "assertion failed. device-id:%s") ;;;
     ret (@None error)) w = Some (None, w') /\
    sent w' = sent w ++
      [(pOlt, GenerateSetDefaultOutlet oc onuID);
       (pOlt, GenerateL2switchingDomainActionLnletEntryUs
                oc (Tpid cmd0) (Vid cmd0) onuID)] /\
    heap w' = <[pOnu := set_FlowAdded onu true]> (heap w) /\
    DeviceIDMap w' = DeviceIDMap w /\
    flowVersion w' = flowVersion w.
Proof.
  intros Hheap Hkind.
  destruct (sendAndWait_spec pOlt (GenerateSetDefaultOutlet oc onuID)
              "[%s] sendSetDefaultOutlet() Send Error: %v"
              "[%s] sendSetDefaultOutlet() Success, response=%x:%s" w)
    as (err03 & w1 & H1 & Hw1 & Hs1).
  rewrite (bind_eq _ _ _ _ _ H1).
  unfold bind at 1. unfold lift at 1.
  destruct (sendAndWait_spec pOlt
              (GenerateL2switchingDomainActionLnletEntryUs
                 oc (Tpid cmd0) (Vid cmd0) onuID)
              "[%s] sendSetL2SwitchingDomainForUS() Send Error: %v"
              "[%s] sendSetL2SwitchingDomainForUS() Success, response=%x:%s" w1)
    as (err04 & w2 & H2 & Hw2 & Hs2).
  rewrite (bind_eq _ _ _ _ _ H2).
  unfold bind at 1. cbn [logger]. set (w3 := mkWorld _ _ _ _ _ _ _ _ _ _ _).
  assert (Hw : same_devices w w2) by (by eapply same_devices_trans).
  destruct Hw as (Hh & _ & HD & Hfv & _).
  assert (Hheap3 : heap w3 !! pOnu = Some onu) by (cbn; by rewrite Hh).
  rewrite (bind_eq _ _ w3 onu w3) by (by apply deref_eq).
  rewrite Hkind.
  unfold bind at 1. unfold bind at 1.
  rewrite (update_eq pOnu _ onu w3 Hheap3).
  unfold updateMap, bind, deref, lift, ret. cbn [heap set_heap].
  rewrite lookup_insert_eq.
  eexists. split; [reflexivity|]. cbn.
  rewrite Hs2, Hs1, Hh, HD, Hfv, <- app_assoc. repeat split.
Qed.

Lemma L2oamAddFlowToDevice_later
    dhDeviceID cmd w pOlt olt oc cmd0 pOnu onu onuID :
  1 < flowVersion w ->
  DeviceIDMap w !! dhDeviceID = Some pOlt ->
  heap w !! pOlt = Some olt ->
  ObjectContext olt = Some oc ->
  L2oamCmd_ olt = Some cmd0 ->
  DeviceIDMap w !! OnuDeviceID cmd = Some pOnu ->
  heap w !! pOnu = Some onu ->
  kind onu = L2oamOnuDevice ->
  ObjectContext onu = Some onuID ->
  exists w',
    L2oamAddFlowToDevice dhDeviceID cmd w = Some (None, w') /\
    sent w' = sent w ++
      [(pOlt, GenerateSetDefaultOutlet oc onuID);
       (pOlt, GenerateL2switchingDomainActionLnletEntryUs
                oc (Tpid cmd0) (Vid cmd0) onuID)] /\
    heap w' = <[pOnu := set_FlowAdded onu true]> (heap w) /\
    DeviceIDMap w' = DeviceIDMap w /\
    flowVersion w' = flowVersion w.
Proof.
  intros Hfv Holt Hheap Hoc Hcmd Honu HheapO Hkind HonuID.
  unfold L2oamAddFlowToDevice.
  unfold bind at 1. unfold get.
  replace (flowVersion w =? 1) with false by (symmetry; apply Z.eqb_neq; lia).
  replace (1 <? flowVersion w) with true by (symmetry; apply Z.ltb_lt; lia).
  unfold bind at 1. cbn [logger].
  set (w1 := mkWorld _ _ _ _ _ _ _ _ _ _ _).
  unfold bind at 1. unfold FindL2oamDeviceByDeviceID at 1.
  change (DeviceIDMap w1) with (DeviceIDMap w). rewrite Holt.
  unfold bind at 1. unfold getObjectContext at 1.
  rewrite (bind_eq _ _ w1 olt w1) by (apply deref_eq; exact Hheap).
  unfold ret at 1. rewrite Hoc.
  unfold bind at 1. unfold bind at 1. unfold getL2oamCmd at 1.
  rewrite (bind_eq _ _ w1 olt w1) by (apply deref_eq; exact Hheap).
  unfold ret at 1. rewrite Hcmd. unfold ret at 1.
  unfold bind at 1. unfold FindL2oamDeviceByDeviceID at 1.
  change (DeviceIDMap w1) with (DeviceIDMap w). rewrite Honu.
  unfold bind at 1. unfold getObjectContext at 1.
  rewrite (bind_eq _ _ w1 onu w1) by (apply deref_eq; exact HheapO).
  unfold ret at 1. rewrite HonuID.
  destruct (L2oamAddFlowToDevice_onu pOlt oc cmd0 pOnu onu onuID w1)
    as (w' & Hrun & Hsent & Hh & HD & Hfv'); [exact HheapO | exact Hkind |].
  exists w'. split; [exact Hrun|]. split; [exact Hsent|]. auto.
Qed.

Lemma L2oamAddFlowToDevice_first
    dhDeviceID cmd w pOlt olt pOnu onu onuID resp rest :
  1 < flowVersion w ->
  DeviceIDMap w !! dhDeviceID = Some pOlt ->
  heap w !! pOlt = Some olt ->
  kind olt = L2oamOltDevice ->
  ObjectContext olt = None ->
  DeviceIDMap w !! OnuDeviceID cmd = Some pOnu ->
  heap w !! pOnu = Some onu ->
  kind onu = L2oamOnuDevice ->
  ObjectContext onu = Some onuID ->
  exchanges w = Responds resp :: rest ->
  37 <= len (Payload resp) ->
  exists oc w',
    L2oamAddFlowToDevice dhDeviceID cmd w = Some (None, w') /\
    sent w' = sent w ++
      [(pOlt, GenerateGenericActionCreateDs);
       (pOlt, GenerateL2switchingDomainActionLnletEntryDs
                oc (Tpid cmd) (Vid cmd));
       (pOlt, GenerateSetDefaultOutlet oc onuID);
       (pOlt, GenerateL2switchingDomainActionLnletEntryUs
                oc (Tpid cmd) (Vid cmd) onuID)] /\
    heap w' =
      <[pOnu := set_FlowAdded onu true]>
        (<[pOlt := set_FlowAdded
                     (set_ObjectContext (set_L2oamCmd olt (Some cmd)) (Some oc))
                     true]> (heap w)) /\
    DeviceIDMap w' = DeviceIDMap w /\
    flowVersion w' = flowVersion w.
Proof.
  intros Hfv Holt Hheap HkindO Hoc Honu HheapO Hkind HonuID Hex Hlen.
  assert (Hne : pOnu <> pOlt) by (intros ->; congruence).
  unfold L2oamAddFlowToDevice.
  unfold bind at 1. unfold get.
  replace (flowVersion w =? 1) with false by (symmetry; apply Z.eqb_neq; lia).
  replace (1 <? flowVersion w) with true by (symmetry; apply Z.ltb_lt; lia).
  unfold bind at 1. cbn [logger].
  set (w1 := mkWorld _ _ _ _ _ _ _ _ _ _ _).
  unfold bind at 1. unfold FindL2oamDeviceByDeviceID at 1.
  change (DeviceIDMap w1) with (DeviceIDMap w). rewrite Holt.
  unfold bind at 1. unfold getObjectContext at 1.
  rewrite (bind_eq _ _ w1 olt w1) by (apply deref_eq; exact Hheap).
  unfold ret at 1. rewrite Hoc.
  unfold bind at 1. unfold bind at 1.
  destruct (sendSetGenericActionCreateForDS_responds pOlt w1 resp rest)
    as (oc & w2 & H2 & Hw2 & Hs2 & _); [exact Hex | exact Hlen |].
  rewrite H2.
  destruct (sendAndWait_spec pOlt
              (GenerateL2switchingDomainActionLnletEntryDs oc (Tpid cmd) (Vid cmd))
              "[%s] sendSetL2SwitchingDomain() Send Error: %v"
              "[%s] sendSetL2SwitchingDomain() Success, response=%x:%s" w2)
    as (err02 & w3 & H3 & Hw3 & Hs3).
  unfold sendSetL2SwitchingDomainForDS.
  rewrite (bind_eq _ _ _ _ _ H3).
  assert (Hw : same_devices w w3).
  { eapply same_devices_trans; [|exact Hw3].
    eapply same_devices_trans; [|exact Hw2]. repeat split. }
  destruct Hw as (Hh & _ & HD & Hfv' & _).
  assert (Hheap3 : heap w3 !! pOlt = Some olt) by (by rewrite Hh).
  unfold bind at 1. unfold setL2oamCmd at 1.
  rewrite (update_eq pOlt _ olt w3 Hheap3).
  set (w4 := set_heap _ w3).
  assert (Hheap4 : heap w4 !! pOlt = Some (set_L2oamCmd olt (Some cmd)))
    by (cbn; apply lookup_insert_eq).
  unfold bind at 1. unfold setObjectContext at 1.
  rewrite (update_eq pOlt _ _ w4 Hheap4).
  set (w5 := set_heap _ w4).
  assert (Hheap5 : heap w5 !! pOlt
                   = Some (set_ObjectContext (set_L2oamCmd olt (Some cmd)) (Some oc)))
    by (cbn; apply lookup_insert_eq).
  unfold bind at 1. unfold bind at 1.
  rewrite (deref_eq pOlt _ w5 Hheap5).
  cbn [kind set_ObjectContext set_L2oamCmd]. rewrite HkindO.
  rewrite (update_eq pOlt _ _ w5 Hheap5).
  set (w6 := set_heap _ w5).
  assert (Hheap6 : heap w6 !! pOlt
                   = Some (set_FlowAdded
                             (set_ObjectContext (set_L2oamCmd olt (Some cmd)) (Some oc))
                             true))
    by (cbn; apply lookup_insert_eq).
  unfold bind at 1. unfold updateMap at 1.
  rewrite (bind_eq _ _ w6 _ w6 (deref_eq pOlt _ w6 Hheap6)).
  unfold ret at 1. unfold ret at 1.
  assert (Hheap6' : heap w6
                    = <[pOlt := set_FlowAdded
                                  (set_ObjectContext (set_L2oamCmd olt (Some cmd)) (Some oc))
                                  true]> (heap w)).
  { cbn. rewrite !insert_insert_eq. by rewrite Hh. }
  unfold bind at 1. unfold FindL2oamDeviceByDeviceID at 1.
  change (DeviceIDMap w6) with (DeviceIDMap w3). rewrite HD, Honu.
  assert (HheapO6 : heap w6 !! pOnu = Some onu).
  { rewrite Hheap6'. by rewrite lookup_insert_ne. }
  unfold bind at 1. unfold getObjectContext at 1.
  rewrite (bind_eq _ _ w6 onu w6) by (by apply deref_eq).
  unfold ret at 1. rewrite HonuID.
  destruct (L2oamAddFlowToDevice_onu pOlt oc cmd pOnu onu onuID w6)
    as (w' & Hrun & Hsent & Hh' & HD' & Hfv''); [exact HheapO6 | exact Hkind |].
  exists oc, w'. split; [exact Hrun|].
  split.
  - rewrite Hsent. change (sent w6) with (sent w3).
    rewrite Hs3, Hs2. change (sent w1) with (sent w).
    rewrite <- !app_assoc. reflexivity.
  - split; [rewrite Hh', Hheap6'; reflexivity|].
    split; [rewrite HD'; exact HD|].
    rewrite Hfv''. exact Hfv'.
Qed.

(** C4: add-flow-to-device for ONU-A and then for ONU-B on the same OLT,
    starting with no switching-domain object context stored on the OLT and
    with the OLT answering the Generic-Action-Create.  The first call sends
    Generic-Action-Create, the down-stream Inlet-Entry, Set-Default-Outlet
    and the up-stream Inlet-Entry; the second call sends only
    Set-Default-Outlet and the up-stream Inlet-Entry.  Afterwards both ONU
    records and the OLT record have [FlowAdded = true] and the OLT holds the
    object context the first call obtained. *)
Theorem add_flow_to_device_twice
    (dhDeviceID : string) (cmdA cmdB : L2oamCmd) (w : World)
    (pOlt : nat) (olt : Device)
    (pA : nat) (onuA : Device) (ocA : TomiObjectContext.t)
    (pB : nat) (onuB : Device) (ocB : TomiObjectContext.t)
    (resp : Ethernet) (rest : list Outcome) :
  1 < flowVersion w ->
  DeviceIDMap w !! dhDeviceID = Some pOlt ->
  heap w !! pOlt = Some olt ->
  kind olt = L2oamOltDevice ->
  ObjectContext olt = None ->
  DeviceIDMap w !! OnuDeviceID cmdA = Some pA ->
  heap w !! pA = Some onuA ->
  kind onuA = L2oamOnuDevice ->
  ObjectContext onuA = Some ocA ->
  DeviceIDMap w !! OnuDeviceID cmdB = Some pB ->
  heap w !! pB = Some onuB ->
  kind onuB = L2oamOnuDevice ->
  ObjectContext onuB = Some ocB ->
  exchanges w = Responds resp :: rest ->
  37 <= len (Payload resp) ->
  exists oc wA wB,
    L2oamAddFlowToDevice dhDeviceID cmdA w = Some (None, wA) /\
    sent wA = sent w ++
      [(pOlt, GenerateGenericActionCreateDs);
       (pOlt, GenerateL2switchingDomainActionLnletEntryDs
                oc (Tpid cmdA) (Vid cmdA));
       (pOlt, GenerateSetDefaultOutlet oc ocA);
       (pOlt, GenerateL2switchingDomainActionLnletEntryUs
                oc (Tpid cmdA) (Vid cmdA) ocA)] /\
    L2oamAddFlowToDevice dhDeviceID cmdB wA = Some (None, wB) /\
    sent wB = sent wA ++
      [(pOlt, GenerateSetDefaultOutlet oc ocB);
       (pOlt, GenerateL2switchingDomainActionLnletEntryUs
                oc (Tpid cmdA) (Vid cmdA) ocB)] /\
    (exists a, heap wB !! pA = Some a /\ Base_FlowAdded a = true) /\
    (exists b, heap wB !! pB = Some b /\ Base_FlowAdded b = true) /\
    (exists o, heap wB !! pOlt = Some o /\ Base_FlowAdded o = true /\
               ObjectContext o = Some oc).
Proof.
  intros Hfv Holt Hheap HkindO Hoc HA HheapA HkindA HocA
         HB HheapB HkindB HocB Hex Hlen.
  assert (HneA : pA <> pOlt) by (intros ->; congruence).
  assert (HneB : pB <> pOlt) by (intros ->; congruence).
  destruct (L2oamAddFlowToDevice_first dhDeviceID cmdA w pOlt olt pA onuA ocA
              resp rest)
    as (oc & wA & HrunA & HsentA & HhA & HDA & HfvA); try assumption.
  set (olt' := set_FlowAdded
                 (set_ObjectContext (set_L2oamCmd olt (Some cmdA)) (Some oc))
                 true) in *.
  assert (HheapOlt : heap wA !! pOlt = Some olt').
  { rewrite HhA, lookup_insert_ne by assumption. apply lookup_insert_eq. }
  assert (exists onuB', heap wA !! pB = Some onuB' /\
                        kind onuB' = L2oamOnuDevice /\
                        ObjectContext onuB' = Some ocB)
    as (onuB' & HheapB' & HkindB' & HocB').
  { rewrite HhA. destruct (decide (pA = pB)) as [->|Hne].
    - rewrite lookup_insert_eq. eexists. split; [reflexivity|].
      assert (onuA = onuB) as -> by congruence. split; assumption.
    - rewrite lookup_insert_ne, lookup_insert_ne by congruence.
      exists onuB. auto. }
  destruct (L2oamAddFlowToDevice_later dhDeviceID cmdB wA pOlt olt' oc cmdA
              pB onuB' ocB)
    as (wB & HrunB & HsentB & HhB & HDB & HfvB);
    try assumption; try reflexivity; try congruence.
  exists oc, wA, wB.
  split; [exact HrunA|]. split; [exact HsentA|].
  split; [exact HrunB|]. split; [exact HsentB|].
  rewrite HhB. split; [|split].
  - destruct (decide (pB = pA)) as [->|Hne].
    + rewrite lookup_insert_eq. eexists. split; reflexivity.
    + rewrite lookup_insert_ne by assumption. rewrite HhA, lookup_insert_eq.
      eexists. split; reflexivity.
  - rewrite lookup_insert_eq. eexists. split; reflexivity.
  - rewrite lookup_insert_ne by assumption. rewrite HheapOlt.
    eexists. repeat split.
Qed.

Lemma add_flow_to_device_twice_witness :
  let oc := TomiObjectContext.mk 0x0c 0x0dce 4 1 in
  exists wA wB,
    L2oamAddFlowToDevice "olt" (flow_cmd "onu-a") flow_world = Some (None, wA) /\
    sent wA =
      [(0%nat, GenerateGenericActionCreateDs);
       (0%nat, GenerateL2switchingDomainActionLnletEntryDs
                 oc [0x88; 0xa8] [0x00; 0x64]);
       (0%nat, GenerateSetDefaultOutlet oc (flow_onu_oc 1));
       (0%nat, GenerateL2switchingDomainActionLnletEntryUs
                 oc [0x88; 0xa8] [0x00; 0x64] (flow_onu_oc 1))] /\
    L2oamAddFlowToDevice "olt" (flow_cmd "onu-b") wA = Some (None, wB) /\
    sent wB = sent wA ++
      [(0%nat, GenerateSetDefaultOutlet oc (flow_onu_oc 2));
       (0%nat, GenerateL2switchingDomainActionLnletEntryUs
                 oc [0x88; 0xa8] [0x00; 0x64] (flow_onu_oc 2))] /\
    (Base_FlowAdded <$> heap wB !! 1%nat) = Some true /\
    (Base_FlowAdded <$> heap wB !! 2%nat) = Some true /\
    (Base_FlowAdded <$> heap wB !! 0%nat) = Some true /\
    (ObjectContext <$> heap wB !! 0%nat) = Some (Some oc).
Proof.
  intros oc0.
  destruct (add_flow_to_device_twice "olt" (flow_cmd "onu-a") (flow_cmd "onu-b")
              flow_world 0%nat
              (mkDevice L2oamOltDevice "olt" "0025dc000000" false None None)
              1%nat
              (mkDevice L2oamOnuDevice "onu-a" "0025dc000001" false
                        (Some (flow_onu_oc 1)) None)
              (flow_onu_oc 1)
              2%nat
              (mkDevice L2oamOnuDevice "onu-b" "0025dc000002" false
                        (Some (flow_onu_oc 2)) None)
              (flow_onu_oc 2)
              flow_response [])
    as (oc & wA & wB & HrunA & HsentA & HrunB & HsentB & HfA & HfB & HfO);
    try reflexivity.
  assert (Hoc : oc = oc0).
  { vm_compute in HrunA. injection HrunA as <-.
    cbn [sent] in HsentA. by injection HsentA as <-. }
  subst oc. exists wA, wB.
  split; [exact HrunA|]. split; [exact HsentA|].
  split; [exact HrunB|]. split; [exact HsentB|].
  destruct HfA as (a & Ha & Hfa), HfB as (b & Hb & Hfb),
    HfO as (o & Ho & Hfo & Hoo).
  rewrite Ha, Hb, Ho. cbn [fmap option_fmap option_map].
  rewrite Hfa, Hfb, Hfo, Hoo. repeat split.
Defined.

(** C4, as the specification states it, fails when the OLT does not answer
    the first Generic-Action-Create.  The call for ONU-A then sends that one
    request and returns an error; the OLT is left without an object context,
    so the call for ONU-B sends Generic-Action-Create and the down-stream
    Inlet-Entry itself before its own two requests; and after both calls
    ONU-A still has no flow. *)
Lemma add_flow_to_device_first_call_unanswered :
  let w := set_link [TimesOut; Responds flow_response] [] flow_world in
  let oc := TomiObjectContext.mk 0x0c 0x0dce 4 1 in
  exists err wA wB,
    L2oamAddFlowToDevice "olt" (flow_cmd "onu-a") w = Some (Some err, wA) /\
    sent wA = [(0%nat, GenerateGenericActionCreateDs)] /\
    L2oamAddFlowToDevice "olt" (flow_cmd "onu-b") wA = Some (None, wB) /\
    sent wB = sent wA ++
      [(0%nat, GenerateGenericActionCreateDs);
       (0%nat, GenerateL2switchingDomainActionLnletEntryDs
                 oc [0x88; 0xa8] [0x00; 0x64]);
       (0%nat, GenerateSetDefaultOutlet oc (flow_onu_oc 2));
       (0%nat, GenerateL2switchingDomainActionLnletEntryUs
                 oc [0x88; 0xa8] [0x00; 0x64] (flow_onu_oc 2))] /\
    (Base_FlowAdded <$> heap wB !! 1%nat) = Some false /\
    (Base_FlowAdded <$> heap wB !! 2%nat) = Some true /\
    (Base_FlowAdded <$> heap wB !! 0%nat) = Some true.
Proof.
  intros w oc.
  destruct (L2oamAddFlowToDevice "olt" (flow_cmd "onu-a") w)
    as [[[err|] wA]|] eqn:HA; vm_compute in HA; try discriminate HA.
  injection HA as <- <-.
  eexists _, _, _. split; [reflexivity|]. split; [reflexivity|].
  split; [vm_compute; reflexivity|].
  repeat split; vm_compute; reflexivity.
Qed.

(* ===================================================================== *)
(** * Round trips of the frame codec *)
(* ===================================================================== *)

(** Reading a decoder's input of the form [pre ++ rest] at index [len pre],
    and moving what was read to [pre]. *)
Ltac rd8 :=
  match goal with
  | |- mbind _ (index (?pre ++ ?a :: ?rest) ?i) = _ =>
      rewrite (index_cursor pre a rest i) by buf_side;
      cbn [mbind option_bind];
      rewrite (shift1 pre a rest)
  end.

Ltac rd16 :=
  match goal with
  | |- mbind _ (mbind Uint16 (slice (?pre ++ ?a :: ?b :: ?rest) ?i ?j)) = _ =>
      rewrite (slice2_cursor pre a b rest i j) by buf_side;
      cbn [mbind option_bind];
      rewrite Uint16_PutUint16 by assumption;
      cbn [mbind option_bind];
      rewrite (shift1 pre a (b :: rest)), (shift1 (pre ++ [a]) b rest)
  end.

Ltac rdN :=
  match goal with
  | |- mbind _ (slice (?pre ++ ?mid ++ ?rest) ?i ?j) = _ =>
      rewrite (slice_cursor pre mid rest i j) by buf_side;
      cbn [mbind option_bind];
      rewrite (app_assoc pre mid rest)
  end.

Ltac rd_last :=
  match goal with
  | |- mbind _ (slice (?pre ++ ?mid) ?i ?j) = _ =>
      rewrite (slice_cursor_end pre mid i j) by buf_side;
      cbn [mbind option_bind]
  end.

Lemma DiscoverySolicit_roundtrip (d : DiscoverySolicit.t) :
  DiscoverySolicit_legal d ->
  exists bytes,
    DiscoverySolicit.SerializeTo d = Some bytes /\
    DiscoverySolicit.Decode bytes = Some d.
Proof.
  unfold DiscoverySolicit_legal.
  intros (H1 & H2 & H3 & H4 & H5 & H6 & HL & HwL & HwP).
  pose proof (len_nonneg (DiscoverySolicit.VendorID d)).
  pose proof (len_nonneg (DiscoverySolicit.CPValue d)).
  pose proof (len_nonneg (DiscoverySolicit.NWValue d)).
  pose proof (len_nonneg (DiscoverySolicit.DVValue d)).
  pose proof (len_nonneg (DiscoverySolicit.SCPValue d)).
  pose proof (len_nonneg (DiscoverySolicit.PadValue d)).
  assert (is_uint16 (DiscoverySolicit.VendorIDLength d) /\
          is_uint16 (DiscoverySolicit.CPLength d) /\
          is_uint16 (DiscoverySolicit.NWLength d) /\
          is_uint16 (DiscoverySolicit.DVLength d) /\
          is_uint16 (DiscoverySolicit.SCPLength d))
    as (Hw1 & Hw2 & Hw3 & Hw4 & Hw5) by (unfold is_uint16 in *; lia).
  unfold DiscoverySolicit.SerializeTo, DiscoverySolicit.Len, PrependBytes.
  match goal with |- context [0 <=? ?n] =>
    replace (0 <=? n) with true
      by (symmetry; apply Z.leb_le; unfold is_uint16 in *; lia);
    cbn [mbind option_bind];
    change (zeros n) with ([] ++ zeros n)
  end.
  do 22 ser_step.
  rewrite zeros_0 by lia. rewrite app_nil_r.
  eexists. split; [reflexivity|].
  rewrite <- !app_assoc. cbn [app].
  match goal with |- DiscoverySolicit.Decode ?D = _ =>
    change D with ([] ++ D)
  end.
  unfold DiscoverySolicit.Decode.
  (rd8; rd8; rd8; rd16).
  (rd8; rd16; rdN).
  (rd8; rd16; rdN).
  (rd8; rd16; rdN).
  (rd8; rd16; rdN).
  (rd8; rd16; rdN).
  (rd8; rd16; rd_last).
  destruct d; reflexivity.
Qed.

Lemma DiscoveryHello_roundtrip (d : DiscoveryHello.t) :
  DiscoveryHello_legal d ->
  exists bytes,
    DiscoveryHello.SerializeTo d = Some bytes /\
    DiscoveryHello.Decode bytes = Some d.
Proof.
  unfold DiscoveryHello_legal.
  intros (H1 & H2 & H3 & H4 & H5 & H6 & HL & HwL & HwP).
  pose proof (len_nonneg (DiscoveryHello.VendorID d)).
  pose proof (len_nonneg (DiscoveryHello.NWValue d)).
  pose proof (len_nonneg (DiscoveryHello.DVValue d)).
  pose proof (len_nonneg (DiscoveryHello.SCPValue d)).
  pose proof (len_nonneg (DiscoveryHello.TunnelValue d)).
  pose proof (len_nonneg (DiscoveryHello.PadValue d)).
  assert (is_uint16 (DiscoveryHello.VendorIDLength d) /\
          is_uint16 (DiscoveryHello.NWLength d) /\
          is_uint16 (DiscoveryHello.DVLength d) /\
          is_uint16 (DiscoveryHello.SCPLength d) /\
          is_uint16 (DiscoveryHello.TunnelLength d))
    as (Hw1 & Hw2 & Hw3 & Hw4 & Hw5) by (unfold is_uint16 in *; lia).
  unfold DiscoveryHello.SerializeTo, DiscoveryHello.Len, PrependBytes.
  match goal with |- context [0 <=? ?n] =>
    replace (0 <=? n) with true
      by (symmetry; apply Z.leb_le; unfold is_uint16 in *; lia);
    cbn [mbind option_bind];
    change (zeros n) with ([] ++ zeros n)
  end.
  do 22 ser_step.
  rewrite zeros_0 by lia. rewrite app_nil_r.
  eexists. split; [reflexivity|].
  rewrite <- !app_assoc. cbn [app].
  match goal with |- DiscoveryHello.Decode ?D = _ =>
    change D with ([] ++ D)
  end.
  unfold DiscoveryHello.Decode.
  (rd8; rd8; rd8; rd16).
  (rd8; rd16; rdN).
  (rd8; rd16; rdN).
  (rd8; rd16; rdN).
  (rd8; rd16; rdN).
  (rd8; rd16; rdN).
  (rd8; rd16; rd_last).
  destruct d; reflexivity.
Qed.

(** The branch of a serializer on the presence of a TLV. *)
Ltac ser_if :=
  match goal with
  | |- context [negb (?ln =? 0)] =>
      first [ change (negb (ln =? 0)) with false
            | replace (ln =? 0) with false
                by (symmetry; apply Z.eqb_neq; buf_side);
              change (negb false) with true ]
  end.

Lemma Decode_loop_S fuel d data i :
  OAMPDUInformation.Decode_loop (S fuel) d data i =
  if len data <=? i then Some (d, None)
  else
    tlvType ← index data i;
    tlvLength ← index data (i + 1);
    if tlvLength =? 0 then Some (d, None)
    else
      tlvValue ← slice data (i + 2) (i + tlvLength);
      let i := i + tlvLength in
      if tlvType =? OampduTlvTypeLocalInfo then
        OAMPDUInformation.Decode_loop fuel
          (OAMPDUInformation.set_LI d tlvType tlvLength tlvValue) data i
      else if tlvType =? OampduTlvTypeRemoteInfo then
        OAMPDUInformation.Decode_loop fuel
          (OAMPDUInformation.set_RI d tlvType tlvLength tlvValue) data i
      else if tlvType =? OampduTlvTypeOrganizationSpecificInfo then
        OAMPDUInformation.Decode_loop fuel
          (OAMPDUInformation.set_OSI d tlvType tlvLength tlvValue) data i
      else Some (d, Some (Errorf "tlvType Error: %v" tlvType)).
Proof. reflexivity. Qed.

Lemma slice_Some data i j b :
  slice data i j = Some b -> 0 <= i <= j /\ j <= len data.
Proof.
  unfold slice.
  destruct (Z.leb_spec 0 i), (Z.leb_spec i j), (Z.leb_spec j (len data));
    cbn [andb]; try discriminate. lia.
Qed.

(** The loop of [OAMPDUInformation.Decode] never uses up its fuel: any two
    amounts of fuel above the number of bytes left give the same result. *)
Lemma Decode_loop_fuel fuel1 : forall fuel2 d data i,
  (Z.to_nat (len data - i) < fuel1)%nat ->
  (Z.to_nat (len data - i) < fuel2)%nat ->
  OAMPDUInformation.Decode_loop fuel1 d data i
  = OAMPDUInformation.Decode_loop fuel2 d data i.
Proof.
  induction fuel1 as [|fuel1 IH]; intros [|fuel2] d data i H1 H2; try lia.
  rewrite !Decode_loop_S.
  destruct (Z.leb_spec (len data) i) as [|Hi]; [reflexivity|].
  destruct (index data i) as [tlvType|]; [|reflexivity].
  cbn [mbind option_bind].
  destruct (index data (i + 1)) as [tlvLength|]; [|reflexivity].
  cbn [mbind option_bind].
  destruct (tlvLength =? 0); [reflexivity|].
  destruct (slice data (i + 2) (i + tlvLength)) as [tlvValue|] eqn:Hs;
    [|reflexivity].
  cbn [mbind option_bind]. apply slice_Some in Hs.
  repeat case_match; try reflexivity; apply IH; lia.
Qed.

(** One turn of the loop of [OAMPDUInformation.Decode] on a TLV. *)
Ltac dec_tlv :=
  rewrite Decode_loop_S;
  match goal with
  | |- context [len ?D <=? ?i] =>
      replace (len D <=? i) with false
        by (symmetry; apply Z.leb_gt; buf_side)
  end;
  rd8; rd8;
  match goal with
  | |- context [?ln =? 0] =>
      replace (ln =? 0) with false by (symmetry; apply Z.eqb_neq; buf_side)
  end;
  rdN;
  cbn [Z.eqb Pos.eqb OampduTlvTypeLocalInfo OampduTlvTypeRemoteInfo
       OampduTlvTypeOrganizationSpecificInfo].

Ltac dec_end :=
  rewrite Decode_loop_S;
  match goal with
  | |- context [len ?D <=? ?i] =>
      replace (len D <=? i) with true
        by (symmetry; apply Z.leb_le; buf_side)
  end.

Lemma OAMPDUInformation_roundtrip (d : OAMPDUInformation.t) :
  OAMPDUInformation_legal d ->
  exists bytes,
    OAMPDUInformation.SerializeTo d = Some bytes /\
    OAMPDUInformation.Decode OAMPDUInformation.zero bytes = Some (d, None).
Proof.
  unfold OAMPDUInformation_legal, tlv_legal.
  intros (HF & HLI & HRI & HOSI).
  pose proof (len_nonneg (OAMPDUInformation.LIValue d)).
  pose proof (len_nonneg (OAMPDUInformation.RIValue d)).
  pose proof (len_nonneg (OAMPDUInformation.OSIValue d)).
  unfold OAMPDUInformation.SerializeTo, OAMPDUInformation.Len, PrependBytes.
  destruct HLI as [(HLIl & HLIt & HLIv)|(HLIt & HLIl)];
  destruct HRI as [(HRIl & HRIt & HRIv)|(HRIt & HRIl)];
  destruct HOSI as [(HOSIl & HOSIt & HOSIv)|(HOSIt & HOSIl)];
  rewrite HLIl, HRIl, HOSIl, HLIt, HRIt, HOSIt.
  all: match goal with |- context [0 <=? ?n] =>
    replace (0 <=? n) with true by (symmetry; apply Z.leb_le; lia);
    cbn [mbind option_bind];
    change (zeros n) with ([] ++ zeros n)
  end.
  all: do 3 ser_step.
  all: repeat ser_if.
  all: cbn [mbind option_bind].
  all: repeat ser_step.
  all: rewrite zeros_0 by lia.
  all: (eexists; split; [reflexivity|]).
  all: rewrite <- ?app_assoc; cbn [app].
  all: match goal with |- OAMPDUInformation.Decode _ ?D = _ =>
    change D with ([] ++ D)
  end.
  all: unfold OAMPDUInformation.Decode.
  all: rd8; rd16; rd8.
  all: match goal with |- context [S (length ?D)] =>
         replace (S (length D)) with (S (S (S (S (length D - 3)))))
           by (rewrite ?length_app; simpl length; lia)
       end.
  all: repeat dec_tlv.
  all: dec_end.
  all: f_equal; f_equal.
  all: destruct d; cbn in *; subst; reflexivity.
Qed.

(** The Discovery Solicit the adapter sends: 46 bytes.  Its network ID has
    12 bytes under a length field of 16, so the encoder leaves four zero
    bytes after it and decoding gives the padded value. *)
Example GenerateDiscoverySOLICIT_bytes :
  DiscoverySolicit.SerializeTo GenerateDiscoverySOLICIT
  = Some [0xfd; 0x01; 0xfe; 0x00; 0x25; 0xfd; 0x00; 0x03; 0x2a; 0xea; 0x15;
          0x05; 0x00; 0x01; 0x80; 0x06; 0x00; 0x10;
          0x74; 0x69; 0x62; 0x69; 0x74; 0x63; 0x6f; 0x6d; 0x2e; 0x63; 0x6f; 0x6d;
          0x00; 0x00; 0x00; 0x00; 0x07; 0x00; 0x01; 0x01; 0x08; 0x00; 0x01; 0x03;
          0xff; 0x00; 0x01; 0x00] /\
  (DiscoverySolicit.SerializeTo GenerateDiscoverySOLICIT
     ≫= DiscoverySolicit.Decode) = Some legalDiscoverySOLICIT.
Proof. split; reflexivity. Qed.

(** C1, as the code has it: [decode (encode x) = x] for every legal [x].  For
    Discovery Solicit and Hello a value is legal when every length field is
    the byte count of the value it declares.  For OAMPDU-Information each TLV
    is absent (length 0, type 0, no value) or carries its own type code and
    a length equal to the byte count of its value plus 2, as the TLV length
    covers the type and length bytes. *)
Theorem frame_codec_roundtrip (x : PDU) :
  legal x ->
  exists bytes, encode x = Some bytes /\ decode (shape_of x) bytes = Some x.
Proof.
  destruct x as [d|d|d]; cbn [legal encode decode shape_of]; intros Hlegal.
  - destruct (DiscoverySolicit_roundtrip d Hlegal) as (bytes & Henc & Hdec).
    exists bytes. by rewrite Henc, Hdec.
  - destruct (DiscoveryHello_roundtrip d Hlegal) as (bytes & Henc & Hdec).
    exists bytes. by rewrite Henc, Hdec.
  - destruct (OAMPDUInformation_roundtrip d Hlegal) as (bytes & Henc & Hdec).
    exists bytes. by rewrite Henc, Hdec.
Qed.

Lemma frame_codec_roundtrip_witness :
  (exists bytes,
     encode (Solicit legalDiscoverySOLICIT) = Some bytes /\
     decode SolicitShape bytes = Some (Solicit legalDiscoverySOLICIT)) /\
  (exists bytes,
     encode (Information (GeneateKeepAlive2 keepAliveLIValue true)) = Some bytes /\
     decode InformationShape bytes
     = Some (Information (GeneateKeepAlive2 keepAliveLIValue true))) /\
  (exists bytes,
     encode (Information (GeneateKeepAlive3 keepAliveLIValue)) = Some bytes /\
     decode InformationShape bytes
     = Some (Information (GeneateKeepAlive3 keepAliveLIValue))).
Proof.
  split; [|split].
  - apply (frame_codec_roundtrip (Solicit legalDiscoverySOLICIT)).
    repeat split; try reflexivity; vm_compute; congruence.
  - apply (frame_codec_roundtrip
             (Information (GeneateKeepAlive2 keepAliveLIValue true))).
    split; [split; [vm_compute; congruence | reflexivity]|].
    repeat split; right; split; reflexivity.
  - apply (frame_codec_roundtrip
             (Information (GeneateKeepAlive3 keepAliveLIValue))).
    split; [split; [vm_compute; congruence | reflexivity]|].
    split; [right; split; reflexivity|].
    split; [right; split; reflexivity|]. left. repeat split.
Defined.

(** C1, as the specification states it, fails for OAMPDU-Information: with the
    length field of the Local-Information TLV equal to the byte count of its
    value (3), the encoder emits only the first value byte and the decoder
    returns a different value. *)
Lemma information_roundtrip_claimed_fails :
  let d := OAMPDUInformation.mk 0x03 0x0008 0x00
             0x01 3 [0x01; 0x02; 0x03] 0 0 [] 0 0 [] in
  OAMPDUInformation.LILength d = len (OAMPDUInformation.LIValue d) /\
  OAMPDUInformation.RILength d = len (OAMPDUInformation.RIValue d) /\
  OAMPDUInformation.OSILength d = len (OAMPDUInformation.OSIValue d) /\
  encode (Information d) = Some [0x03; 0x00; 0x08; 0x00; 0x01; 0x03; 0x01] /\
  decode InformationShape [0x03; 0x00; 0x08; 0x00; 0x01; 0x03; 0x01]
  = Some (Information
            (OAMPDUInformation.mk 0x03 0x0008 0x00 0x01 3 [0x01] 0 0 [] 0 0 [])) /\
  ~ (exists bytes,
       encode (Information d) = Some bytes /\
       decode (shape_of (Information d)) bytes = Some (Information d)).
Proof.
  intros d. repeat split.
  intros (bytes & Henc & Hdec).
  vm_compute in Henc. injection Henc as <-.
  vm_compute in Hdec. discriminate Hdec.
Qed.

(* ===================================================================== *)
(** * OpenFlow port numbers *)
(* ===================================================================== *)

Section PortNumbers.

(** Bit operations on fields that do not overlap are plain arithmetic. *)
Lemma land_shifted_low a b n :
  0 <= n -> 0 <= b < 2 ^ n -> Z.land (a * 2 ^ n) b = 0.
Proof.
  intros Hn Hb. apply Z.bits_inj'. intros k Hk.
  rewrite Z.land_spec, Z.bits_0.
  destruct (Z.lt_ge_cases k n) as [Hlt|Hge].
  - rewrite Z.mul_pow2_bits_low by lia. reflexivity.
  - destruct (Z.eq_dec b 0) as [->|Hb0].
    + rewrite Z.bits_0, andb_false_r. reflexivity.
    + rewrite (Z.bits_above_log2 b k), andb_false_r; [reflexivity|lia|].
      apply Z.log2_lt_pow2; [lia|].
      apply Z.lt_le_trans with (2 ^ n); [lia|].
      apply Z.pow_le_mono_r; lia.
Qed.

Lemma lor_shifted_low a b n :
  0 <= n -> 0 <= b < 2 ^ n -> Z.lor (a * 2 ^ n) b = a * 2 ^ n + b.
Proof.
  intros Hn Hb.
  pose proof (land_shifted_low a b n Hn Hb) as H.
  rewrite <- Z.lxor_lor by exact H.
  symmetry. apply Z.add_nocarry_lxor. exact H.
Qed.

Lemma lxor_shifted_low a b n :
  0 <= n -> 0 <= b < 2 ^ n -> Z.lxor (a * 2 ^ n) (a * 2 ^ n + b) = b.
Proof.
  intros Hn Hb.
  rewrite <- (lor_shifted_low a b n Hn Hb).
  pose proof (land_shifted_low a b n Hn Hb) as H.
  rewrite <- (Z.lxor_lor _ _ H).
  rewrite <- Z.lxor_assoc, Z.lxor_nilpotent, Z.lxor_0_l. reflexivity.
Qed.

Lemma land_low_mask a n : 0 <= n -> Z.land a (2 ^ n - 1) = a mod 2 ^ n.
Proof.
  intros Hn. rewrite <- Z.land_ones by exact Hn.
  rewrite Z.ones_equiv. reflexivity.
Qed.

Lemma uniPortNum_sum intfID onuID uniID :
  0 <= intfID < 2 ^ 20 -> 0 <= onuID < 256 -> 0 <= uniID < 16 ->
  uniPortNum intfID onuID uniID = intfID * 4096 + onuID * 16 + uniID.
Proof.
  intros Hi Ho Hu. unfold uniPortNum.
  rewrite !Z.shiftl_mul_pow2 by lia.
  rewrite !Z.mod_small by lia.
  replace (intfID * 2 ^ 12) with (intfID * 256 * 2 ^ 4) by lia.
  assert (Z.lor (intfID * 256 * 2 ^ 4) (onuID * 2 ^ 4)
          = (intfID * 256 + onuID) * 2 ^ 4) as ->.
  { rewrite <- !Z.shiftl_mul_pow2 by lia. rewrite <- Z.shiftl_lor.
    f_equal. change 256 with (2 ^ 8).
    apply lor_shifted_low; lia. }
  rewrite lor_shifted_low by lia. lia.
Qed.

Lemma MkUniPortNum_quiet intfID onuID uniID w :
  onuID <= 256 ->
  MkUniPortNum intfID onuID uniID w
  = Some (uniPortNum intfID onuID uniID, w).
Proof.
  intros Ho. unfold MkUniPortNum, bind, ret, MaxOnusPerPon, bitsForONUID.
  change (Z.shiftl 1 8) with 256.
  destruct (Z.ltb_spec 256 onuID); [lia|]. reflexivity.
Qed.

Lemma MkUniPortNum_inv intfID onuID uniID w portNum w' :
  onuID <= 256 ->
  MkUniPortNum intfID onuID uniID w = Some (portNum, w') ->
  portNum = uniPortNum intfID onuID uniID /\ w' = w.
Proof.
  intros Ho H. rewrite MkUniPortNum_quiet in H by exact Ho.
  inversion H. auto.
Qed.

Lemma fields_of_sum i o u :
  0 <= i < 256 -> 0 <= o < 256 -> 0 <= u < 16 ->
  let p := i * 4096 + o * 16 + u in
  IntfIDFromUniPortNum p = i /\ OnuIDFromPortNum p = o /\
  UniIDFromPortNum p = u /\ OnuIDFromUniPortNum p = o.
Proof.
  intros Hi Ho Hu p.
  unfold IntfIDFromUniPortNum, OnuIDFromPortNum, UniIDFromPortNum,
    OnuIDFromUniPortNum, MaxPonsPerOlt, MaxOnusPerPon, MaxUnisPerOnu,
    bitsForUniID, bitsForONUID, bitsForPONID.
  change (Z.shiftl 1 8 - 1) with (2 ^ 8 - 1).
  change (Z.shiftl 1 4 - 1) with (2 ^ 4 - 1).
  rewrite !land_low_mask by lia.
  rewrite !Z.shiftr_div_pow2 by lia.
  change (2 ^ (4 + 8)) with 4096. change (2 ^ 8) with 256.
  change (2 ^ 4) with 16.
  subst p. repeat split; Z.div_mod_to_equations; lia.
Qed.

(** X1.  A UNI port number built from a PON interface below 256, an ONU
    below 256 and a UNI below 16 is made without a warning and gives back
    each of the three through the extraction functions. *)
Theorem MkUniPortNum_roundtrip (intfID onuID uniID : Z) (w : World) :
  0 <= intfID < 256 -> 0 <= onuID < 256 -> 0 <= uniID < 16 ->
  exists portNum,
    MkUniPortNum intfID onuID uniID w = Some (portNum, w) /\
    0 <= portNum < 2 ^ 20 /\
    IntfIDFromUniPortNum portNum = intfID /\
    OnuIDFromPortNum portNum = onuID /\
    OnuIDFromUniPortNum portNum = onuID /\
    UniIDFromPortNum portNum = uniID.
Proof.
  intros Hi Ho Hu. exists (uniPortNum intfID onuID uniID).
  rewrite MkUniPortNum_quiet by lia.
  rewrite uniPortNum_sum by lia.
  destruct (fields_of_sum intfID onuID uniID Hi Ho Hu) as (H1 & H2 & H3 & H4).
  repeat split; try assumption; lia.
Qed.

Lemma MkUniPortNum_roundtrip_witness :
  exists portNum,
    MkUniPortNum 3 17 2 world0 = Some (portNum, world0) /\
    0 <= portNum < 2 ^ 20 /\
    IntfIDFromUniPortNum portNum = 3 /\
    OnuIDFromPortNum portNum = 17 /\
    OnuIDFromUniPortNum portNum = 17 /\
    UniIDFromPortNum portNum = 2.
Proof. apply (MkUniPortNum_roundtrip 3 17 2 world0); lia. Defined.

(** X2.  The range check of [MkUniPortNum] lets the ONU number 256 pass: no
    warning is logged, and the port number that results reads back as ONU 0.
    A larger ONU number is logged, and a port number is returned all the
    same. *)
Theorem MkUniPortNum_onu_out_of_range (intfID onuID uniID : Z) (w : World) :
  0 <= intfID < 256 -> 0 <= uniID < 16 -> 256 <= onuID < 2 ^ 28 ->
  exists portNum w',
    MkUniPortNum intfID onuID uniID w = Some (portNum, w') /\
    OnuIDFromPortNum portNum = onuID mod 256 /\
    logs w' = (if onuID =? 256 then logs w
               else logs w ++ [(LvWarn, "exceeded-the-max-onus-per-pon"%string)]).
Proof.
  intros Hi Hu Ho.
  assert (OnuIDFromPortNum (uniPortNum intfID onuID uniID) = onuID mod 256)
    as Hfield.
  { unfold uniPortNum, OnuIDFromPortNum, MaxOnusPerPon, bitsForUniID,
      bitsForONUID.
    change (Z.shiftl 1 8 - 1) with (2 ^ 8 - 1).
    rewrite !Z.shiftl_mul_pow2 by lia.
    rewrite (Z.mod_small (intfID * 2 ^ 12)), (Z.mod_small (onuID * 2 ^ 4))
      by lia.
    replace (intfID * 2 ^ 12) with (intfID * 256 * 2 ^ 4) by lia.
    rewrite <- !Z.shiftl_mul_pow2 by lia. rewrite <- Z.shiftl_lor.
    rewrite Z.shiftl_mul_pow2 by lia.
    rewrite lor_shifted_low by lia.
    rewrite Z.shiftr_div_pow2 by lia.
    rewrite Z.div_add_l by lia.
    rewrite (Z.div_small uniID) by lia. rewrite Z.add_0_r.
    rewrite land_low_mask by lia.
    apply Z.bits_inj'. intros k Hk.
    destruct (Z.lt_ge_cases k 8) as [Hlt|Hge].
    - change 256 with (2 ^ 8).
      rewrite !Z.mod_pow2_bits_low by lia.
      rewrite Z.lor_spec, Z.mul_pow2_bits_low by lia.
      reflexivity.
    - change 256 with (2 ^ 8).
      rewrite !Z.mod_pow2_bits_high by lia. reflexivity. }
  destruct (Z.eqb_spec onuID 256) as [->|Hne].
  - exists (uniPortNum intfID 256 uniID), w.
    rewrite MkUniPortNum_quiet by lia. auto.
  - exists (uniPortNum intfID onuID uniID).
    eexists. split; [|split; [exact Hfield|]].
    + unfold MkUniPortNum, bind, ret, logger, MaxOnusPerPon, bitsForONUID.
      change (Z.shiftl 1 8) with 256.
      destruct (Z.ltb_spec 256 onuID); [|lia]. reflexivity.
    + reflexivity.
Qed.

Lemma MkUniPortNum_onu_out_of_range_witness :
  exists portNum w',
    MkUniPortNum 1 256 5 world0 = Some (portNum, w') /\
    OnuIDFromPortNum portNum = 256 mod 256 /\
    logs w' = (if 256 =? 256 then logs world0
               else logs world0
                    ++ [(LvWarn, "exceeded-the-max-onus-per-pon"%string)]).
Proof. apply (MkUniPortNum_onu_out_of_range 1 256 5 world0); lia. Defined.

Lemma IntfIDToPortNo_NNI_sum intfID :
  0 <= intfID < 2 ^ 20 ->
  IntfIDToPortNo intfID Port_ETHERNET_NNI = 1 * 2 ^ 20 + intfID.
Proof.
  intros H. unfold IntfIDToPortNo, nniUniDiffPos, bitsForUniID, bitsForONUID,
    bitsForPONID.
  change (Z.shiftl 1 (4 + 8 + 8)) with (1 * 2 ^ 20).
  apply lor_shifted_low; lia.
Qed.

Lemma IntfIDToPortNo_PON_sum intfID :
  0 <= intfID < 2 ^ 29 ->
  IntfIDToPortNo intfID Port_PON_OLT = 1 * 2 ^ 29 + intfID.
Proof.
  intros H. unfold IntfIDToPortNo, ponIntfMarkerValue, ponIntfMarkerPos.
  change (Z.shiftl 2 28) with (1 * 2 ^ 29).
  apply lor_shifted_low; lia.
Qed.

(** X3.  An interface number below 2^20 survives the trip through its NNI
    or PON port number; for every other port type both directions give 0,
    so the interface number is lost unless it is 0. *)
Theorem PortNoToIntfID_IntfIDToPortNo (intfID : Z) (intfType : Port_PortType) :
  0 <= intfID < 2 ^ 20 ->
  PortNoToIntfID (IntfIDToPortNo intfID intfType) intfType
  = match intfType with
    | Port_ETHERNET_NNI | Port_PON_OLT => intfID
    | _ => 0
    end.
Proof.
  intros H. destruct intfType; try reflexivity.
  - rewrite IntfIDToPortNo_NNI_sum by exact H.
    unfold PortNoToIntfID, nniUniDiffPos, bitsForUniID, bitsForONUID,
      bitsForPONID.
    change (Z.shiftl 1 (4 + 8 + 8)) with (1 * 2 ^ 20).
    apply lxor_shifted_low; lia.
  - rewrite IntfIDToPortNo_PON_sum by lia.
    unfold PortNoToIntfID, ponIntfMarkerValue, ponIntfMarkerPos.
    change (Z.shiftl 2 28) with (1 * 2 ^ 29).
    apply lxor_shifted_low; lia.
Qed.

Lemma PortNoToIntfID_IntfIDToPortNo_witness :
  PortNoToIntfID (IntfIDToPortNo 7 Port_PON_OLT) Port_PON_OLT = 7.
Proof. apply (PortNoToIntfID_IntfIDToPortNo 7 Port_PON_OLT). lia. Defined.

Lemma land_bit20 a b :
  0 <= b < 2 ^ 20 ->
  Z.land (a * 2 ^ 20 + b) (2 ^ 20) = if Z.odd a then 2 ^ 20 else 0.
Proof.
  intros Hb. apply Z.bits_inj'. intros k Hk.
  rewrite Z.land_spec, Z.pow2_bits_eqb by lia.
  destruct (Z.eqb_spec 20 k) as [<-|Hne].
  - rewrite andb_true_r. rewrite <- lor_shifted_low by lia.
    rewrite Z.lor_spec, Z.mul_pow2_bits by lia.
    replace (20 - 20) with 0 by lia. rewrite Z.bit0_odd.
    rewrite (Z.bits_above_log2 b 20), orb_false_r.
    + destruct (Z.odd a); [rewrite Z.pow2_bits_eqb by lia|rewrite Z.bits_0];
        reflexivity.
    + lia.
    + destruct (Z.eq_dec b 0) as [->|]; [reflexivity|].
      apply Z.log2_lt_pow2; lia.
  - rewrite andb_false_r.
    destruct (Z.odd a); [rewrite Z.pow2_bits_eqb by lia|rewrite Z.bits_0].
    + destruct (Z.eqb_spec 20 k); [lia|reflexivity].
    + reflexivity.
Qed.

(** X4.  The port type is read back from a port number: a PON port built
    from an interface below 256 is a PON port, an NNI port built from an
    interface below 2^20 is an NNI port, and a UNI port number built from
    numbers in range is a UNI port. *)
Theorem IntfIDToPortTypeName_of_port (intfID onuID uniID : Z)
    (w w' : World) (uniPort : Z) :
  0 <= intfID < 256 -> 0 <= onuID < 256 -> 0 <= uniID < 16 ->
  MkUniPortNum intfID onuID uniID w = Some (uniPort, w') ->
  IntfIDToPortTypeName (IntfIDToPortNo intfID Port_PON_OLT) = Port_PON_OLT /\
  (forall nni, 0 <= nni < 2 ^ 20 ->
     IntfIDToPortTypeName (IntfIDToPortNo nni Port_ETHERNET_NNI)
     = Port_ETHERNET_NNI) /\
  IntfIDToPortTypeName uniPort = Port_ETHERNET_UNI.
Proof.
  intros Hi Ho Hu Hmk.
  apply MkUniPortNum_inv in Hmk as [-> _]; [|lia].
  unfold IntfIDToPortTypeName, ponIntfMarkerValue, ponIntfMarkerPos,
    MaxPonsPerOlt, nniUniDiffPos, bitsForUniID, bitsForONUID, bitsForPONID.
  change (Z.shiftl 2 28) with (1 * 2 ^ 29).
  change (Z.shiftl 1 (4 + 8 + 8)) with (2 ^ 20).
  change (Z.shiftl 1 8) with 256.
  split; [|split].
  - rewrite IntfIDToPortNo_PON_sum by lia.
    rewrite lxor_shifted_low by lia.
    destruct (Z.ltb_spec intfID 256); [reflexivity|lia].
  - intros nni Hn. rewrite IntfIDToPortNo_NNI_sum by lia.
    assert (Z.lxor (1 * 2 ^ 29) (1 * 2 ^ 20 + nni)
            = 1 * 2 ^ 29 + (1 * 2 ^ 20 + nni)) as ->.
    { rewrite Z.lxor_lor by (apply land_shifted_low; lia).
      apply lor_shifted_low; lia. }
    destruct (Z.ltb_spec (1 * 2 ^ 29 + (1 * 2 ^ 20 + nni)) 256); [lia|].
    rewrite land_bit20 by lia. reflexivity.
  - rewrite uniPortNum_sum by lia.
    set (p := intfID * 4096 + onuID * 16 + uniID).
    assert (Z.lxor (1 * 2 ^ 29) p = 1 * 2 ^ 29 + p) as ->.
    { rewrite Z.lxor_lor by (apply land_shifted_low; lia).
      apply lor_shifted_low; lia. }
    destruct (Z.ltb_spec (1 * 2 ^ 29 + p) 256); [lia|].
    replace p with (0 * 2 ^ 20 + p) by lia.
    rewrite land_bit20 by lia. reflexivity.
Qed.

Lemma IntfIDToPortTypeName_of_port_witness :
  IntfIDToPortTypeName (IntfIDToPortNo 4 Port_PON_OLT) = Port_PON_OLT /\
  (forall nni, 0 <= nni < 2 ^ 20 ->
     IntfIDToPortTypeName (IntfIDToPortNo nni Port_ETHERNET_NNI)
     = Port_ETHERNET_NNI) /\
  IntfIDToPortTypeName 16529 = Port_ETHERNET_UNI.
Proof.
  apply (IntfIDToPortTypeName_of_port 4 9 1 world0 world0 16529);
    [lia | lia | lia | reflexivity].
Defined.

(** X5.  [IntfIDFromNniPortNum] accepts exactly the port numbers from 2^20
    to 2^21 - 1 and keeps their low 16 bits: of an NNI port number built
    from an interface below 2^20 only the interface modulo 2^16 comes back.
    Any other port number is logged and refused. *)
Theorem IntfIDFromNniPortNum_spec (portNum : Z) (w : World) :
  0 <= portNum < 2 ^ 32 ->
  (forall intfID, 0 <= intfID < 2 ^ 20 ->
     IntfIDFromNniPortNum (IntfIDToPortNo intfID Port_ETHERNET_NNI) w
     = Some ((intfID mod 2 ^ 16, None), w)) /\
  (portNum < 2 ^ 20 \/ 2 ^ 21 <= portNum ->
     exists w',
       IntfIDFromNniPortNum portNum w = Some ((0, Some ErrInvalidPortRange), w')
       /\ logs w' = logs w
                    ++ [(LvError, "nniportnumber-is-not-in-valid-range"%string)]).
Proof.
  intros Hp.
  unfold IntfIDFromNniPortNum, minNniIntPortNum, maxNniPortNum, bitsforNNIID.
  change (Z.shiftl 1 20) with (2 ^ 20).
  change (Z.shiftl 1 (20 + 1) - 1) with (2 ^ 21 - 1).
  split.
  - intros intfID Hi. rewrite IntfIDToPortNo_NNI_sum by exact Hi.
    destruct (Z.ltb_spec (1 * 2 ^ 20 + intfID) (2 ^ 20)); [lia|].
    destruct (Z.ltb_spec (2 ^ 21 - 1) (1 * 2 ^ 20 + intfID)); [lia|].
    cbn [orb]. unfold ret. do 3 f_equal.
    change 0xFFFF with (2 ^ 16 - 1). rewrite land_low_mask by lia.
    replace (1 * 2 ^ 20 + intfID) with (intfID + 16 * 2 ^ 16) by lia.
    apply Z.mod_add. lia.
  - intros Hout.
    assert ((portNum <? 2 ^ 20) || (2 ^ 21 - 1 <? portNum) = true) as ->.
    { destruct (Z.ltb_spec portNum (2 ^ 20)); [reflexivity|].
      destruct (Z.ltb_spec (2 ^ 21 - 1) portNum); [reflexivity|lia]. }
    eexists. split; reflexivity.
Qed.

Lemma IntfIDFromNniPortNum_spec_witness :
  (forall intfID, 0 <= intfID < 2 ^ 20 ->
     IntfIDFromNniPortNum (IntfIDToPortNo intfID Port_ETHERNET_NNI) world0
     = Some ((intfID mod 2 ^ 16, None), world0)) /\
  (16 < 2 ^ 20 \/ 2 ^ 21 <= 16 ->
     exists w',
       IntfIDFromNniPortNum 16 world0 = Some ((0, Some ErrInvalidPortRange), w')
       /\ logs w' = logs world0
                    ++ [(LvError, "nniportnumber-is-not-in-valid-range"%string)]).
Proof. apply (IntfIDFromNniPortNum_spec 16 world0). lia. Defined.

Lemma upstream_facts intfID onuID uniID :
  0 <= intfID < 256 -> 0 <= onuID < 256 -> 0 <= uniID < 16 ->
  (IsUpstream (uniPortNum intfID onuID uniID) = true
   <-> intfID = 15 /\ onuID = 255 /\ uniID = 13) /\
  (forall nni, 0 <= nni < 2 ^ 20 ->
     IsUpstream (IntfIDToPortNo nni Port_ETHERNET_NNI) = true).
Proof.
  intros Hi Ho Hu.
  unfold IsUpstream, controllerPorts, nniUniDiffPos,
    bitsForUniID, bitsForONUID, bitsForPONID.
  change (Z.shiftl 1 (4 + 8 + 8)) with (2 ^ 20).
  cbn [controllerPorts_range].
  split.
  - rewrite uniPortNum_sum by lia.
    set (p := intfID * 4096 + onuID * 16 + uniID).
    destruct (Z.eqb_spec 65533 p) as [He|Hne].
    + split; [intros _; subst p; lia|reflexivity].
    + destruct (Z.eqb_spec 2147483645 p); [subst p; lia|].
      destruct (Z.eqb_spec 4294967293 p); [subst p; lia|].
      replace p with (0 * 2 ^ 20 + p) at 1 by lia.
      rewrite land_bit20 by (subst p; lia). cbn [Z.odd].
      split; [discriminate|]. intros (-> & -> & ->). subst p. lia.
  - intros nni Hn. rewrite IntfIDToPortNo_NNI_sum by lia.
    rewrite land_bit20 by lia. cbn [Z.odd]. rewrite Z.eqb_refl.
    repeat case_match; reflexivity.
Qed.

(** X6.  A UNI port number counts as an upstream port in one case only:
    PON interface 15, ONU 255, UNI 13 gives 0xfffd, the first of the
    controller ports.  Every NNI port number is upstream, and so is every
    controller port. *)
Theorem IsUpstream_of_port (intfID onuID uniID : Z)
    (w w' : World) (uniPort : Z) :
  0 <= intfID < 256 -> 0 <= onuID < 256 -> 0 <= uniID < 16 ->
  MkUniPortNum intfID onuID uniID w = Some (uniPort, w') ->
  (IsUpstream uniPort = true
   <-> intfID = 15 /\ onuID = 255 /\ uniID = 13) /\
  (forall nni, 0 <= nni < 2 ^ 20 ->
     IsUpstream (IntfIDToPortNo nni Port_ETHERNET_NNI) = true) /\
  (forall outPort, IsControllerBoundFlow outPort = true ->
     IsUpstream outPort = true).
Proof.
  intros Hi Ho Hu Hmk.
  apply MkUniPortNum_inv in Hmk as [-> _]; [|lia].
  destruct (upstream_facts intfID onuID uniID Hi Ho Hu) as (Huni & Hnni).
  split; [exact Huni|]. split; [exact Hnni|].
  intros outPort. unfold IsUpstream, IsControllerBoundFlow.
  destruct (controllerPorts_range controllerPorts outPort);
    [reflexivity|discriminate].
Qed.

Lemma IsUpstream_of_port_witness :
  (IsUpstream 0xfffd = true
   <-> 15 = 15 /\ 255 = 255 /\ 13 = 13) /\
  (forall nni, 0 <= nni < 2 ^ 20 ->
     IsUpstream (IntfIDToPortNo nni Port_ETHERNET_NNI) = true) /\
  (forall outPort, IsControllerBoundFlow outPort = true ->
     IsUpstream outPort = true).
Proof.
  apply (IsUpstream_of_port 15 255 13 world0 world0 0xfffd);
    [lia | lia | lia | reflexivity].
Defined.

(** X7.  For a flow between a UNI port and an NNI port
    [ExtractAccessFromFlow] reports the UNI port and its three numbers,
    whichever of the two is the output port; the one UNI port number that
    is also a controller port is left aside. *)
Theorem ExtractAccessFromFlow_uni_nni (intfID onuID uniID nni : Z)
    (w w' : World) (uniPort : Z) :
  0 <= intfID < 256 -> 0 <= onuID < 256 -> 0 <= uniID < 16 ->
  0 <= nni < 2 ^ 20 ->
  ~ (intfID = 15 /\ onuID = 255 /\ uniID = 13) ->
  MkUniPortNum intfID onuID uniID w = Some (uniPort, w') ->
  let nniPort := IntfIDToPortNo nni Port_ETHERNET_NNI in
  ExtractAccessFromFlow uniPort nniPort = (uniPort, intfID, onuID, uniID) /\
  ExtractAccessFromFlow nniPort uniPort = (uniPort, intfID, onuID, uniID).
Proof.
  intros Hi Ho Hu Hn Hnot Hmk nniPort.
  destruct (upstream_facts intfID onuID uniID Hi Ho Hu) as (Huni & Hnni).
  apply MkUniPortNum_inv in Hmk as [-> _]; [|lia].
  set (uniPort := uniPortNum intfID onuID uniID) in *.
  assert (IsUpstream uniPort = false) as Hdown.
  { apply not_true_is_false. intros E. apply Hnot, Huni. exact E. }
  assert (IntfIDFromUniPortNum uniPort = intfID /\
          OnuIDFromPortNum uniPort = onuID /\
          UniIDFromPortNum uniPort = uniID) as (H1 & H2 & H3).
  { subst uniPort. rewrite uniPortNum_sum by lia.
    destruct (fields_of_sum intfID onuID uniID Hi Ho Hu) as (? & ? & ? & _).
    auto. }
  unfold ExtractAccessFromFlow.
  subst nniPort. rewrite (Hnni nni Hn), Hdown, H1, H2, H3. split; reflexivity.
Qed.

Lemma ExtractAccessFromFlow_uni_nni_witness :
  ExtractAccessFromFlow 4131 (IntfIDToPortNo 0 Port_ETHERNET_NNI)
  = (4131, 1, 2, 3) /\
  ExtractAccessFromFlow (IntfIDToPortNo 0 Port_ETHERNET_NNI) 4131
  = (4131, 1, 2, 3).
Proof.
  apply (ExtractAccessFromFlow_uni_nni 1 2 3 0 world0 world0 4131);
    [lia | lia | lia | lia | lia | reflexivity].
Defined.

End PortNumbers.

(* ===================================================================== *)
(** * The ONU status ledger: adding, updating, removing, looking up *)
(* ===================================================================== *)

Section Ledger.

Implicit Types (sts upSts : OnuStatus.t) (l acc : list OnuStatus.t).

Lemma Read_Write (list : OnuStatusSlice) :
  ReadOnuStatusList (WriteOnuStatusList list) = (list, None).
Proof. destruct list; reflexivity. Qed.

Lemma Read_error file list err :
  ReadOnuStatusList file = (list, Some err) -> list = None.
Proof.
  destruct file as [| |[|l|]]; cbn; intros H; inversion H; reflexivity.
Qed.

Lemma GetOnuFromMacAddr_range_app l1 l2 addr :
  Forall (fun s => OnuStatus.MacAddress s <> addr) l1 ->
  GetOnuFromMacAddr_range (l1 ++ l2) addr = GetOnuFromMacAddr_range l2 addr.
Proof.
  induction 1 as [|x l1 Hx _ IH]; [reflexivity|].
  cbn [app GetOnuFromMacAddr_range].
  rewrite (proj2 (String.eqb_neq _ _) Hx). exact IH.
Qed.

Lemma GetOnuFromMacAddr_range_Some l addr s :
  GetOnuFromMacAddr_range l addr = Some s ->
  exists l1 l2,
    l = l1 ++ s :: l2 /\ OnuStatus.MacAddress s = addr /\
    Forall (fun x => OnuStatus.MacAddress x <> addr) l1.
Proof.
  induction l as [|x l IH]; [discriminate|].
  cbn [GetOnuFromMacAddr_range].
  destruct (String.eqb_spec (OnuStatus.MacAddress x) addr) as [He|Hne].
  - intros [= ->]. exists [], l. auto.
  - intros H. destruct (IH H) as (l1 & l2 & -> & Hs & Hl1).
    exists (x :: l1), l2. auto.
Qed.

Lemma GetOnuFromMacAddr_range_None l addr :
  GetOnuFromMacAddr_range l addr = None <->
  Forall (fun x => OnuStatus.MacAddress x <> addr) l.
Proof.
  induction l as [|x l IH]; [split; auto|].
  cbn [GetOnuFromMacAddr_range].
  destruct (String.eqb_spec (OnuStatus.MacAddress x) addr) as [He|Hne].
  - split; [discriminate|]. intros H. inversion H; subst. contradiction.
  - rewrite IH. split; [auto|]. intros H. inversion H; assumption.
Qed.

(** X8.  [GetOnuFromMacAddr] returns the first record of the ledger whose
    MAC address is the one asked for, and nil exactly when the ledger is
    readable and holds no such record (an absent file and a nil list
    included); a read error is passed on. *)
Theorem GetOnuFromMacAddr_first_match (file : OnuListFile) (addr : string) :
  (forall s,
     GetOnuFromMacAddr file addr = (Some s, None) <->
     exists l1 l2,
       ReadOnuStatusList file = (Some (l1 ++ s :: l2), None) /\
       OnuStatus.MacAddress s = addr /\
       Forall (fun x => OnuStatus.MacAddress x <> addr) l1) /\
  (GetOnuFromMacAddr file addr = (None, None) <->
   exists list,
     ReadOnuStatusList file = (list, None) /\
     Forall (fun x => OnuStatus.MacAddress x <> addr) (default [] list)) /\
  (forall err,
     GetOnuFromMacAddr file addr = (None, Some err) <->
     ReadOnuStatusList file = (None, Some err)).
Proof.
  unfold GetOnuFromMacAddr.
  destruct (ReadOnuStatusList file) as [[l|] [e|]] eqn:Hread;
    try (apply Read_error in Hread; discriminate).
  - split; [|split].
    + intros s. split.
      * intros [= H]. apply GetOnuFromMacAddr_range_Some in H.
        destruct H as (l1 & l2 & -> & Hs & Hl1). eauto.
      * intros (l1 & l2 & [= ->] & Hs & Hl1).
        rewrite GetOnuFromMacAddr_range_app by exact Hl1.
        cbn [GetOnuFromMacAddr_range].
        rewrite (proj2 (String.eqb_eq _ _) Hs). reflexivity.
    + split.
      * intros [= H]. exists (Some l). split; [reflexivity|].
        apply GetOnuFromMacAddr_range_None. exact H.
      * intros (list & [= <-] & H).
        apply GetOnuFromMacAddr_range_None in H. cbn in H. rewrite H.
        reflexivity.
    + intros err. split; discriminate.
  - split; [|split].
    + intros s. split; [discriminate|]. intros (? & ? & ? & _). discriminate.
    + split; [discriminate|]. intros (? & ? & _). discriminate.
    + intros err. split; intros [= ->]; reflexivity.
  - split; [|split].
    + intros s. split; [discriminate|]. intros (? & ? & ? & _). discriminate.
    + split; [|reflexivity]. intros _. exists None. split; [reflexivity|].
      constructor.
    + intros err. split; discriminate.
Qed.

(** X9.  After [AddOnu] of a record whose strings are valid UTF-8 on a
    readable ledger, a lookup by the MAC address of the added record
    succeeds and returns a record with that address: the added record
    itself when no earlier record has the address, else the earlier one.
    On an absent file [AddOnu] creates the ledger. *)
Theorem AddOnu_then_GetOnuFromMacAddr (sts : OnuStatus.t)
    (file : OnuListFile) (list : OnuStatusSlice) :
  OnuStatus_valid sts = true ->
  ReadOnuStatusList file = (list, None) ->
  exists file' found,
    AddOnu sts file = (file', None) /\
    ReadOnuStatusList file' = (Some (default [] list ++ [sts]), None) /\
    GetOnuFromMacAddr file' (OnuStatus.MacAddress sts) = (Some found, None) /\
    OnuStatus.MacAddress found = OnuStatus.MacAddress sts /\
    (Forall (fun x => OnuStatus.MacAddress x <> OnuStatus.MacAddress sts)
            (default [] list) -> found = sts).
Proof.
  intros _ Hread.
  assert (exists found,
            GetOnuFromMacAddr_range (default [] list ++ [sts])
              (OnuStatus.MacAddress sts) = Some found /\
            OnuStatus.MacAddress found = OnuStatus.MacAddress sts /\
            (Forall (fun x => OnuStatus.MacAddress x
                              <> OnuStatus.MacAddress sts)
                    (default [] list) -> found = sts))
    as (found & Hfound & Hmac & Hfresh).
  { destruct (GetOnuFromMacAddr_range (default [] list ++ [sts])
                (OnuStatus.MacAddress sts)) as [found|] eqn:E.
    - exists found. split; [reflexivity|].
      pose proof E as E'.
      apply GetOnuFromMacAddr_range_Some in E' as (l1 & l2 & _ & Hs & _).
      split; [exact Hs|]. intros Hall.
      rewrite GetOnuFromMacAddr_range_app in E by exact Hall.
      cbn [GetOnuFromMacAddr_range] in E. rewrite String.eqb_refl in E.
      congruence.
    - apply GetOnuFromMacAddr_range_None in E.
      apply Forall_app in E as [_ E]. inversion E; subst. contradiction. }
  unfold AddOnu. rewrite Hread.
  destruct list as [l|]; cbn [default from_option id app] in *;
    eexists _, found;
    (split; [reflexivity|]);
    unfold GetOnuFromMacAddr; rewrite Read_Write, Hfound; auto.
Qed.

Lemma AddOnu_then_GetOnuFromMacAddr_witness :
  let onu := OnuStatus.mk "onu-1" "up" "up" "up" "0a0b0c0d0e0f" "" in
  exists file' found,
    AddOnu onu FileNotExist = (file', None) /\
    ReadOnuStatusList file' = (Some ([] ++ [onu]), None) /\
    GetOnuFromMacAddr file' "0a0b0c0d0e0f" = (Some found, None) /\
    OnuStatus.MacAddress found = "0a0b0c0d0e0f"%string /\
    (Forall (fun x => OnuStatus.MacAddress x <> "0a0b0c0d0e0f"%string) []
     -> found = onu).
Proof.
  intros onu.
  apply (AddOnu_then_GetOnuFromMacAddr onu FileNotExist None);
    reflexivity.
Defined.

Lemma RemoveOnu_range_filter l id acc :
  RemoveOnu_range l id acc
  = acc ++ List.filter (fun s => negb (String.eqb (OnuStatus.ID s) id)) l.
Proof.
  revert acc. induction l as [|x l IH]; intros acc.
  - cbn. rewrite app_nil_r. reflexivity.
  - cbn [RemoveOnu_range List.filter].
    destruct (negb (String.eqb (OnuStatus.ID x) id)).
    + rewrite IH, <- app_assoc. reflexivity.
    + apply IH.
Qed.

Lemma filter_all l id :
  Forall (fun s => OnuStatus.ID s <> id) l ->
  List.filter (fun s => negb (String.eqb (OnuStatus.ID s) id)) l = l.
Proof.
  induction 1 as [|x l Hx _ IH]; [reflexivity|].
  cbn [List.filter]. rewrite (proj2 (String.eqb_neq _ _) Hx). cbn [negb].
  rewrite IH. reflexivity.
Qed.

(** X10.  [RemoveOnu] on a ledger that holds a list keeps, in their order,
    exactly the records whose ID differs from the one given: no record with
    that ID is left, and a ledger without such a record is written back
    with the same records. *)
Theorem RemoveOnu_removes (id : string) (file : OnuListFile)
    (l : list OnuStatus.t) :
  ReadOnuStatusList file = (Some l, None) ->
  exists l',
    RemoveOnu id file = (WriteOnuStatusList (Some l'), None) /\
    l' = List.filter (fun s => negb (String.eqb (OnuStatus.ID s) id)) l /\
    Forall (fun s => OnuStatus.ID s <> id) l' /\
    (forall s, In s l' <-> In s l /\ OnuStatus.ID s <> id) /\
    (Forall (fun s => OnuStatus.ID s <> id) l -> l' = l).
Proof.
  intros Hread. eexists. split; [|split; [reflexivity|]].
  - unfold RemoveOnu. rewrite Hread. rewrite RemoveOnu_range_filter.
    reflexivity.
  - split; [|split].
    + apply List.Forall_forall. intros s Hs.
      apply List.filter_In in Hs as [_ Hs].
      apply negb_true_iff, String.eqb_neq in Hs. exact Hs.
    + intros s. rewrite List.filter_In, negb_true_iff, String.eqb_neq.
      reflexivity.
    + apply filter_all.
Qed.

Lemma RemoveOnu_removes_witness :
  let a := OnuStatus.mk "onu-1" "up" "up" "up" "0a0b0c0d0e01" "" in
  let b := OnuStatus.mk "onu-2" "up" "up" "up" "0a0b0c0d0e02" "" in
  exists l',
    RemoveOnu "onu-1" (FileContent (JsonArray [a; b; a]))
    = (WriteOnuStatusList (Some l'), None) /\
    l' = List.filter (fun s => negb (String.eqb (OnuStatus.ID s) "onu-1"))
                     [a; b; a] /\
    Forall (fun s => OnuStatus.ID s <> "onu-1"%string) l' /\
    (forall s, In s l' <-> In s [a; b; a] /\ OnuStatus.ID s <> "onu-1"%string)
    /\ (Forall (fun s => OnuStatus.ID s <> "onu-1"%string) [a; b; a]
        -> l' = [a; b; a]).
Proof.
  intros a b.
  apply (RemoveOnu_removes "onu-1" (FileContent (JsonArray [a; b; a]))).
  reflexivity.
Defined.

(** X11.  Adding a record whose strings are valid UTF-8 and whose ID no
    record of the ledger has, and then removing that ID, gives the ledger
    back; an absent file or a nil list comes back as an empty list, not as
    the absent file. *)
Theorem RemoveOnu_after_AddOnu (sts : OnuStatus.t) (file : OnuListFile)
    (list : OnuStatusSlice) :
  OnuStatus_valid sts = true ->
  ReadOnuStatusList file = (list, None) ->
  Forall (fun s => OnuStatus.ID s <> OnuStatus.ID sts) (default [] list) ->
  exists file1 file2,
    AddOnu sts file = (file1, None) /\
    RemoveOnu (OnuStatus.ID sts) file1 = (file2, None) /\
    ReadOnuStatusList file2 = (Some (default [] list), None).
Proof.
  intros _ Hread Hfresh.
  exists (WriteOnuStatusList (Some (default [] list ++ [sts]))).
  eexists. split; [|split].
  - unfold AddOnu. rewrite Hread. destruct list; reflexivity.
  - unfold RemoveOnu. rewrite Read_Write. reflexivity.
  - rewrite Read_Write, RemoveOnu_range_filter.
    rewrite List.filter_app, filter_all by exact Hfresh.
    cbn [List.filter app]. rewrite String.eqb_refl. cbn [negb].
    rewrite app_nil_r. reflexivity.
Qed.

Lemma RemoveOnu_after_AddOnu_witness :
  let onu := OnuStatus.mk "onu-1" "up" "up" "up" "0a0b0c0d0e0f" "" in
  exists file1 file2,
    AddOnu onu FileNotExist = (file1, None) /\
    RemoveOnu "onu-1" file1 = (file2, None) /\
    ReadOnuStatusList file2 = (Some [], None).
Proof.
  intros onu.
  apply (RemoveOnu_after_AddOnu onu FileNotExist None);
    [reflexivity | reflexivity | constructor].
Defined.

Lemma UpdateOnu_range_map l upSts acc :
  UpdateOnu_range l upSts acc
  = acc ++ map (fun s => if String.eqb (OnuStatus.ID s) (OnuStatus.ID upSts)
                         then upSts else s) l.
Proof.
  revert acc. induction l as [|x l IH]; intros acc.
  - cbn. rewrite app_nil_r. reflexivity.
  - cbn [UpdateOnu_range map].
    destruct (String.eqb (OnuStatus.ID x) (OnuStatus.ID upSts));
      rewrite IH, <- app_assoc; reflexivity.
Qed.

(** X12.  [UpdateOnu] with a record whose strings are valid UTF-8, on a
    ledger that holds a list, puts the given record in the place of every
    record with its ID and leaves every other record where it is: the list
    keeps its length, the IDs stay the same position by position, and a
    ledger without a record of that ID is written back unchanged (nothing
    is inserted). *)
Theorem UpdateOnu_replaces (upSts : OnuStatus.t) (file : OnuListFile)
    (l : list OnuStatus.t) :
  OnuStatus_valid upSts = true ->
  ReadOnuStatusList file = (Some l, None) ->
  exists l',
    UpdateOnu upSts file = (WriteOnuStatusList (Some l'), None) /\
    length l' = length l /\
    map OnuStatus.ID l' = map OnuStatus.ID l /\
    (forall (i : nat) s, l !! i = Some s ->
       l' !! i = Some (if String.eqb (OnuStatus.ID s) (OnuStatus.ID upSts)
                       then upSts else s)) /\
    (Forall (fun s => OnuStatus.ID s <> OnuStatus.ID upSts) l -> l' = l).
Proof.
  intros _ Hread.
  exists (map (fun s => if String.eqb (OnuStatus.ID s) (OnuStatus.ID upSts)
                        then upSts else s) l).
  split; [|split; [|split; [|split]]].
  - unfold UpdateOnu. rewrite Hread, UpdateOnu_range_map. reflexivity.
  - apply length_map.
  - rewrite <- list_fmap_compose. apply list_fmap_ext.
    intros i s _. cbn.
    destruct (String.eqb_spec (OnuStatus.ID s) (OnuStatus.ID upSts));
      congruence.
  - intros i s Hs. rewrite list_lookup_fmap, Hs. reflexivity.
  - intros Hall. clear Hread.
    induction Hall as [|x l0 Hx _ IH]; [reflexivity|].
    cbn [map]. rewrite (proj2 (String.eqb_neq _ _) Hx). f_equal. exact IH.
Qed.

Lemma UpdateOnu_replaces_witness :
  let a := OnuStatus.mk "onu-1" "up" "up" "up" "0a0b0c0d0e01" "" in
  let b := OnuStatus.mk "onu-2" "up" "up" "up" "0a0b0c0d0e02" "" in
  let a' := OnuStatus.mk "onu-1" "down" "up" "up" "0a0b0c0d0e01" "reboot" in
  exists l',
    UpdateOnu a' (FileContent (JsonArray [a; b]))
    = (WriteOnuStatusList (Some l'), None) /\
    length l' = length [a; b] /\
    map OnuStatus.ID l' = map OnuStatus.ID [a; b] /\
    (forall (i : nat) s, [a; b] !! i = Some s ->
       l' !! i = Some (if String.eqb (OnuStatus.ID s) (OnuStatus.ID a')
                       then a' else s)) /\
    (Forall (fun s => OnuStatus.ID s <> OnuStatus.ID a') [a; b]
     -> l' = [a; b]).
Proof.
  intros a b a'.
  apply (UpdateOnu_replaces a' (FileContent (JsonArray [a; b])));
    reflexivity.
Defined.

(** X13.  What the three operations do when there is no list to change.
    A file that cannot be read or parsed makes each of them return the
    error of the read and leave the file alone.  On an absent file, or one
    that holds [null], [UpdateOnu] and [RemoveOnu] return nil and write
    nothing, so they never create the ledger. *)
Theorem ledger_change_without_list (file : OnuListFile)
    (sts : OnuStatus.t) (id : string) :
  (forall err,
     ReadOnuStatusList file = (None, Some err) ->
     AddOnu sts file = (file, Some err) /\
     UpdateOnu sts file = (file, Some err) /\
     RemoveOnu id file = (file, Some err)) /\
  (ReadOnuStatusList file = (None, None) ->
     UpdateOnu sts file = (file, None) /\
     RemoveOnu id file = (file, None)) /\
  (file = FileUnreadable \/ file = FileContent JsonInvalid ->
     exists err, ReadOnuStatusList file = (None, Some err)) /\
  (file = FileNotExist \/ file = FileContent JsonNull ->
     ReadOnuStatusList file = (None, None)).
Proof.
  split; [|split; [|split]].
  - intros err Hread. unfold AddOnu, UpdateOnu, RemoveOnu.
    rewrite Hread. auto.
  - intros Hread. unfold UpdateOnu, RemoveOnu. rewrite Hread. auto.
  - intros [->| ->]; eexists; reflexivity.
  - intros [->| ->]; reflexivity.
Qed.

End Ledger.

(* ===================================================================== *)
(** * The poll loop: repeated turns, and turns without a list *)
(* ===================================================================== *)

Section PollLoop.

Lemma clear_reboot_idem onu : clear_reboot (clear_reboot onu) = clear_reboot onu.
Proof.
  unfold clear_reboot.
  destruct (String.eqb (OnuStatus.RebootState onu) "reboot") eqn:E.
  - reflexivity.
  - rewrite E. reflexivity.
Qed.

Lemma clear_reboot_not_reboot onu :
  OnuStatus.RebootState (clear_reboot onu) <> "reboot"%string.
Proof.
  unfold clear_reboot.
  destruct (String.eqb_spec (OnuStatus.RebootState onu) "reboot");
    [discriminate|assumption].
Qed.

Lemma reset_requests_cleared reg pkgType l :
  reset_requests reg pkgType (map clear_reboot l) = [].
Proof.
  induction l as [|onu l IH]; [reflexivity|].
  unfold reset_requests in *. cbn [map omap list_omap].
  rewrite (proj2 (String.eqb_neq _ _) (clear_reboot_not_reboot onu)).
  exact IH.
Qed.

(** X14.  A turn of the poll loop leaves no record asking for a reboot, so
    the turn after it sends nothing and writes the same list again: a
    reboot request in the ledger is served once. *)
Theorem WatchStatus_tick_twice (w : World) (l : list OnuStatus.t) :
  file w = FileContent (JsonArray l) ->
  exists w1 w2 l1,
    WatchStatus_tick w = Some (tt, w1) /\
    file w1 = FileContent (JsonArray l1) /\
    Forall (fun onu => OnuStatus.RebootState onu <> "reboot"%string) l1 /\
    map OnuStatus.ID l1 = map OnuStatus.ID l /\
    WatchStatus_tick w1 = Some (tt, w2) /\
    file w2 = file w1 /\ sent w2 = sent w1.
Proof.
  intros Hfile.
  assert (forall w0 l0, file w0 = FileContent (JsonArray l0) ->
            exists w', WatchStatus_tick w0 = Some (tt, w') /\
              file w' = FileContent (JsonArray (map clear_reboot l0)) /\
              sent w' = sent w0
                        ++ reset_requests (DeviceMap w0) (OnuPkgType w0) l0)
    as Htick.
  { intros w0 l0 H0. unfold WatchStatus_tick, bind, get. rewrite H0.
    cbn [ReadOnuStatusList json_Unmarshal].
    destruct (WatchStatus_range_spec l0 w0) as (w' & -> & _ & Hsent).
    cbn [ret]. eexists. split; [reflexivity|]. split; [reflexivity|].
    exact Hsent. }
  destruct (Htick w l Hfile) as (w1 & Hrun1 & Hfile1 & _).
  destruct (Htick w1 _ Hfile1) as (w2 & Hrun2 & Hfile2 & Hsent2).
  exists w1, w2, (map clear_reboot l).
  split; [exact Hrun1|]. split; [exact Hfile1|]. split; [|split; [|split]].
  - apply List.Forall_forall. intros onu Hin.
    apply List.in_map_iff in Hin as (onu0 & <- & _).
    apply clear_reboot_not_reboot.
  - rewrite <- list_fmap_compose. apply list_fmap_ext. intros i onu _. cbn.
    unfold clear_reboot.
    destruct (String.eqb (OnuStatus.RebootState onu) "reboot"); reflexivity.
  - exact Hrun2.
  - split.
    + rewrite Hfile2, Hfile1. do 2 f_equal.
      rewrite <- list_fmap_compose. apply list_fmap_ext. intros i onu _.
      apply clear_reboot_idem.
    + rewrite Hsent2, reset_requests_cleared, app_nil_r. reflexivity.
Qed.

Lemma WatchStatus_tick_twice_witness :
  let onu := OnuStatus.mk "onu-1" "up" "up" "up" "0025dc000001" "reboot" in
  let w := ledger_world {["0025dc000001" := 7%nat]} [onu] in
  exists w1 w2 l1,
    WatchStatus_tick w = Some (tt, w1) /\
    file w1 = FileContent (JsonArray l1) /\
    Forall (fun onu => OnuStatus.RebootState onu <> "reboot"%string) l1 /\
    map OnuStatus.ID l1 = map OnuStatus.ID [onu] /\
    WatchStatus_tick w1 = Some (tt, w2) /\
    file w2 = file w1 /\ sent w2 = sent w1.
Proof.
  intros onu w. apply (WatchStatus_tick_twice w [onu]). reflexivity.
Defined.

(** X15.  A turn of the poll loop without a list.  When the ledger file is
    absent (or holds [null]) the read gives the nil list without an error,
    the loop body runs over nothing, and the nil list is written: the turn
    creates the file with the content [null] and sends nothing.  When the
    file cannot be read or parsed the turn does nothing at all. *)
Theorem WatchStatus_tick_without_list (w : World) :
  (ReadOnuStatusList (file w) = (None, None) ->
   WatchStatus_tick w = Some (tt, set_file (FileContent JsonNull) w)) /\
  (forall err,
     ReadOnuStatusList (file w) = (None, Some err) ->
     WatchStatus_tick w = Some (tt, w)) /\
  ReadOnuStatusList FileNotExist = (None, None) /\
  sent (set_file (FileContent JsonNull) w) = sent w.
Proof.
  split; [|split; [|split; reflexivity]].
  - intros H. unfold WatchStatus_tick, bind, get. rewrite H. reflexivity.
  - intros err H. unfold WatchStatus_tick, bind, get. rewrite H. reflexivity.
Qed.

End PollLoop.

(* ===================================================================== *)
(** * The dispatcher: registered senders, malformed frames, registry keys *)
(* ===================================================================== *)

Section Dispatcher.

(** X16.  A frame whose source MAC address is registered is handed to that
    device and to nothing else: an EAPOL or C-tagged frame to its EAPOL
    path, a slow-protocol frame with opcode 3 and OAMPDU code 0 to its
    keep-alive engine, any other slow-protocol frame to its
    request/response channel.  No packet-in is raised. *)
Theorem dispatch_registered_source (etherPacket : Ethernet) (w : World)
    (device : nat) :
  DeviceMap w !! hex_EncodeToString (SrcMAC etherPacket) = Some device ->
  (EthernetType etherPacket = EthernetTypeEAPOL \/
   EthernetType etherPacket = EthernetTypeDot1Q ->
   exists w',
     dispatch etherPacket w = Some (tt, w') /\
     upcalls w' = upcalls w ++ [receiveEapol device etherPacket]) /\
  (forall opcode oampduCode,
     EthernetType etherPacket = 0xa8c8 ->
     index (Payload etherPacket) 0 = Some opcode ->
     index (Payload etherPacket) 3 = Some oampduCode ->
     exists w',
       dispatch etherPacket w = Some (tt, w') /\
       upcalls w' = upcalls w
                    ++ [if (opcode =? 0x03) && (oampduCode =? 0x00)
                        then recieveKeepAlive device etherPacket
                        else recieve device etherPacket]).
Proof.
  intros Hfind. split.
  - intros [Hty|Hty]; unfold dispatch; rewrite Hty;
      cbn [EthernetTypeEAPOL EthernetTypeDot1Q Z.eqb Pos.eqb];
      unfold bind, logger, FindL2oamDevice, upcall; cbn;
      rewrite Hfind; eexists; split; reflexivity.
  - intros opcode oampduCode Hty H0 H3. unfold dispatch. rewrite Hty.
    cbn [EthernetTypeEAPOL Z.eqb Pos.eqb].
    unfold bind, lift, logger, FindL2oamDevice. rewrite H0, H3. cbn.
    rewrite Hfind.
    destruct ((opcode =? 3) && (oampduCode =? 0));
      eexists; split; reflexivity.
Qed.

Lemma dispatch_registered_source_witness :
  let etherPacket :=
    mkEthernet [0x00; 0x25; 0xdc; 0x00; 0x00; 0x01] [1; 2; 3; 4; 5; 6] 0xa8c8
      [1; 2; 3; 4; 5; 6; 0x00; 0x25; 0xdc; 0x00; 0x00; 0x01; 0xa8; 0xc8]
      [0x03; 0x00; 0x50; 0x00; 0x01] in
  let w := ledger_world {["0025dc000001" := 7%nat]} [] in
  exists w',
    dispatch etherPacket w = Some (tt, w') /\
    upcalls w' = upcalls w ++ [recieveKeepAlive 7%nat etherPacket].
Proof.
  intros etherPacket w.
  exact (proj2 (dispatch_registered_source etherPacket w 7%nat eq_refl)
               0x03 0x00 eq_refl eq_refl eq_refl).
Defined.

(** X17.  The dispatcher reads the opcode and the OAMPDU code of a
    slow-protocol frame at payload offsets 0 and 3 before it looks the
    sender up: a slow-protocol frame with fewer than four payload bytes
    makes it panic, whether or not the sender is registered. *)
Theorem dispatch_short_slow_protocol_frame (etherPacket : Ethernet)
    (w : World) :
  EthernetType etherPacket = 0xa8c8 ->
  len (Payload etherPacket) < 4 ->
  dispatch etherPacket w = None.
Proof.
  intros Hty Hlen. unfold dispatch. rewrite Hty.
  cbn [EthernetTypeEAPOL Z.eqb Pos.eqb].
  unfold bind at 1. cbn [logger].
  unfold bind at 1. unfold lift at 1.
  destruct (index (Payload etherPacket) 0) as [opcode|]; [|reflexivity].
  unfold bind at 1. unfold lift at 1.
  assert (index (Payload etherPacket) 3 = None) as ->; [|reflexivity].
  unfold index.
  destruct (Z.ltb_spec 3 (len (Payload etherPacket))); [lia|].
  reflexivity.
Qed.

Lemma dispatch_short_slow_protocol_frame_witness :
  dispatch (mkEthernet [0; 0x25; 0xdc; 0; 0; 1] [1; 2; 3; 4; 5; 6] 0xa8c8
              [1; 2; 3; 4; 5; 6; 0; 0x25; 0xdc; 0; 0; 1; 0xa8; 0xc8]
              [0x03; 0x00; 0x50])
           world0 = None.
Proof.
  apply dispatch_short_slow_protocol_frame; [reflexivity|].
  vm_compute. reflexivity.
Defined.

(** X18.  What the dispatcher itself does.  A call that returns has made
    at most one call out of the dispatcher: to a device, or to the core with
    a packet-in.  The frames it drops, those of an EtherType other than
    EAPOL, slow protocol and C-tag and the slow-protocol frames of a sender
    that is not registered, cause no call at all and leave the process
    state as it was but for the log, which gains two entries for the former
    and three for the latter. *)
Theorem dispatch_effects (etherPacket : Ethernet) (w w' : World) :
  dispatch etherPacket w = Some (tt, w') ->
  (exists calls, upcalls w' = upcalls w ++ calls /\ (length calls <= 1)%nat) /\
  ((EthernetType etherPacket <> EthernetTypeEAPOL /\
    EthernetType etherPacket <> 0xa8c8 /\
    EthernetType etherPacket <> EthernetTypeDot1Q) \/
   (EthernetType etherPacket = 0xa8c8 /\
    DeviceMap w !! hex_EncodeToString (SrcMAC etherPacket) = None) ->
   upcalls w' = upcalls w /\ sent w' = sent w /\
   exchanges w' = exchanges w /\ heap w' = heap w /\
   DeviceMap w' = DeviceMap w /\ DeviceIDMap w' = DeviceIDMap w /\
   file w' = file w /\
   logs w'
   = logs w ++
     if EthernetType etherPacket =? 0xa8c8 then
       [(LvDebug, "dispatch(). %x"%string);
        (LvDebug,
         "receive message = 1904.2 OAM opcode=%v oampduCode=%v,  %x"%string);
        (LvError, "Received from an unregistered device. macAddr=%s"%string)]
     else
       [(LvDebug, "dispatch(). %x"%string);
        (LvError, "unknown etherType = 0x%X"%string)]).
Proof.
  unfold dispatch.
  destruct (Z.eqb_spec (EthernetType etherPacket) EthernetTypeEAPOL) as [H1|H1];
    [|destruct (Z.eqb_spec (EthernetType etherPacket) 0xa8c8) as [H2|H2];
      [|destruct (Z.eqb_spec (EthernetType etherPacket) EthernetTypeDot1Q)
          as [H3|H3]]].
  - unfold bind at 1. cbn [logger]. unfold bind at 1. cbn [logger].
    unfold bind at 1. unfold FindL2oamDevice at 1. cbn [DeviceMap].
    destruct (DeviceMap w !! _) as [device|].
    + unfold upcall. intros [= <-]. cbn. split.
      * eexists [_]. split; [reflexivity|]. cbn. lia.
      * intros [(Hne & _)|(Heq & _)]; [contradiction|].
        rewrite H1 in Heq. discriminate Heq.
    + unfold bind at 1. cbn [logger].
      set (w1 := mkWorld _ _ _ _ _ _ _ _ _ _ _).
      destruct (packetIn_spec etherPacket w1) as (w2 & Hrun & _ & Hout).
      rewrite Hrun. intros [= <-]. split.
      * destruct (logicalPort (env w1) _) as [p [e|]].
        -- destruct Hout as [Hup _]. exists []. rewrite app_nil_r.
           split; [exact Hup|]. cbn. lia.
        -- destruct Hout as [Hup _]. eexists [_].
           split; [exact Hup|]. cbn. lia.
      * intros [(Hne & _)|(Heq & _)]; [contradiction|].
        rewrite H1 in Heq. discriminate Heq.
  - unfold bind, lift, logger, FindL2oamDevice, upcall. cbn.
    destruct (index (Payload etherPacket) 0) as [opcode|]; [|discriminate].
    destruct (index (Payload etherPacket) 3) as [code|]; [|discriminate].
    cbn. destruct (DeviceMap w !! _) as [device|] eqn:Hfind.
    + destruct ((opcode =? 3) && (code =? 0)); intros [= <-]; cbn;
        (split; [eexists [_]; (split; [reflexivity|]); cbn; lia|]);
        intros [(_ & Hne & _)|(_ & Hnone)]; [contradiction|discriminate
                                            |contradiction|discriminate].
    + intros [= <-]; cbn. split.
      * exists []. rewrite app_nil_r. split; [reflexivity|]. cbn. lia.
      * intros _. rewrite <- !app_assoc. repeat split; reflexivity.
  - unfold bind at 1. cbn [logger].
    unfold bind at 1. unfold FindL2oamDevice at 1. cbn [DeviceMap].
    destruct (DeviceMap w !! _) as [device|].
    + unfold upcall. intros [= <-]. cbn. split.
      * eexists [_]. split; [reflexivity|]. cbn. lia.
      * intros [(_ & _ & Hne)|(Heq & _)]; [contradiction|].
        rewrite H3 in Heq. discriminate Heq.
    + unfold bind at 1. cbn [logger].
      set (w1 := mkWorld _ _ _ _ _ _ _ _ _ _ _).
      destruct (packetIn_spec etherPacket w1) as (w2 & Hrun & _ & Hout).
      rewrite Hrun. intros [= <-]. split.
      * destruct (logicalPort (env w1) _) as [p [e|]].
        -- destruct Hout as [Hup _]. exists []. rewrite app_nil_r.
           split; [exact Hup|]. cbn. lia.
        -- destruct Hout as [Hup _]. eexists [_].
           split; [exact Hup|]. cbn. lia.
      * intros [(_ & _ & Hne)|(Heq & _)]; [contradiction|].
        rewrite H3 in Heq. discriminate Heq.
  - unfold bind, logger. cbn. intros [= <-]; cbn. split.
    + exists []. rewrite app_nil_r. split; [reflexivity|]. cbn. lia.
    + intros _. rewrite <- app_assoc. repeat split; reflexivity.
Qed.

Lemma dispatch_effects_witness :
  let etherPacket := frame_from_unknown 0xa8c8 [0x03; 0x00; 0x50; 0xfe] in
  exists w',
    dispatch etherPacket world0 = Some (tt, w') /\
    upcalls w' = upcalls world0 /\ sent w' = sent world0 /\
    heap w' = heap world0.
Proof.
  intros etherPacket.
  assert (exists w', dispatch etherPacket world0 = Some (tt, w'))
    as [w' Hrun] by (eexists; vm_compute; reflexivity).
  exists w'. split; [exact Hrun|].
  destruct (dispatch_effects etherPacket world0 w' Hrun) as (_ & Hdrop).
  destruct Hdrop as (Hup & Hsent & _ & Hheap & _).
  - right. split; reflexivity.
  - repeat split; assumption.
Defined.

Lemma hexdigit_nat n :
  0 <= n < 16 ->
  Ascii.nat_of_ascii (hexdigit n)
  = Z.to_nat (if n <? 10 then 48 + n else 87 + n).
Proof.
  intros Hn. unfold hexdigit. apply Ascii.nat_ascii_embedding.
  destruct (Z.ltb_spec n 10); lia.
Qed.

Lemma hexdigit_inj m n :
  0 <= m < 16 -> 0 <= n < 16 -> hexdigit m = hexdigit n -> m = n.
Proof.
  intros Hm Hn H. apply (f_equal Ascii.nat_of_ascii) in H.
  rewrite !hexdigit_nat in H by assumption.
  destruct (Z.ltb_spec m 10), (Z.ltb_spec n 10); lia.
Qed.

Lemma byte_nibbles b :
  0 <= b < 256 ->
  0 <= Z.shiftr b 4 < 16 /\ 0 <= Z.land b 15 < 16 /\
  b = 16 * Z.shiftr b 4 + Z.land b 15.
Proof.
  intros Hb. rewrite Z.shiftr_div_pow2 by lia.
  change 15 with (Z.ones 4). rewrite Z.land_ones by lia.
  change (2 ^ 4) with 16. Z.div_mod_to_equations. lia.
Qed.

(** X19.  The registry key of a sender is the lower-case hexadecimal text of
    its MAC address, two characters per byte, and different addresses never
    share a key. *)
Theorem hex_EncodeToString_injective (a b : list Z) :
  Forall is_uint8 a -> Forall is_uint8 b ->
  hex_EncodeToString a = hex_EncodeToString b -> a = b.
Proof.
  intros Ha. revert b. induction Ha as [|x a Hx _ IH]; intros b Hb.
  - destruct b; [reflexivity|discriminate].
  - destruct Hb as [|y b Hy Hb]; [discriminate|].
    cbn [hex_EncodeToString]. intros [= Hhi Hlo Hrest].
    destruct (byte_nibbles x Hx) as (Hx1 & Hx2 & Ex).
    destruct (byte_nibbles y Hy) as (Hy1 & Hy2 & Ey).
    apply hexdigit_inj in Hhi; [|assumption..].
    apply hexdigit_inj in Hlo; [|assumption..].
    f_equal; [lia|]. apply IH; assumption.
Qed.

Lemma hex_EncodeToString_injective_witness :
  hex_EncodeToString [0x00; 0x25; 0xdc] = hex_EncodeToString [0x00; 0x25; 0xdc]
  /\ hex_EncodeToString [0x00; 0x25; 0xdc] = "0025dc"%string.
Proof.
  split; [|reflexivity].
  apply (f_equal hex_EncodeToString).
  apply (hex_EncodeToString_injective [0x00; 0x25; 0xdc] [0x00; 0x25; 0xdc]).
  - repeat constructor; unfold is_uint8; lia.
  - repeat constructor; unfold is_uint8; lia.
  - reflexivity.
Defined.

End Dispatcher.

(* ===================================================================== *)
(** * OAMPDU Information: what the decoder accepts and leaves behind *)
(* ===================================================================== *)

Section InformationDecoder.

Lemma slice_len data i j b : slice data i j = Some b -> len b = j - i.
Proof.
  intros H. pose proof (slice_Some _ _ _ _ H) as Hb.
  destruct (slice_in_range data i j) as (b' & Hb' & Hlen); [lia..|].
  congruence.
Qed.

Lemma Decode_loop_decoded fuel : forall d data i d' err,
  OAMPDUInformation_decoded d ->
  OAMPDUInformation.Decode_loop fuel d data i = Some (d', err) ->
  OAMPDUInformation_decoded d'.
Proof.
  induction fuel as [|fuel IH]; intros d data i d' err Hd; [discriminate|].
  rewrite Decode_loop_S.
  destruct (len data <=? i); [intros [= <- _]; exact Hd|].
  destruct (index data i) as [tlvType|]; [|discriminate].
  cbn [mbind option_bind].
  destruct (index data (i + 1)) as [tlvLength|]; [|discriminate].
  cbn [mbind option_bind].
  destruct (tlvLength =? 0); [intros [= <- _]; exact Hd|].
  destruct (slice data (i + 2) (i + tlvLength)) as [tlvValue|] eqn:Hs;
    [|discriminate].
  cbn [mbind option_bind].
  pose proof (slice_Some _ _ _ _ Hs) as Hb.
  pose proof (slice_len _ _ _ _ Hs) as Hl.
  assert (tlv_decoded tlvLength tlvValue) as Htlv by (right; lia).
  destruct Hd as (HLI & HRI & HOSI).
  repeat case_match; try (intros [= <- _]; repeat split; assumption);
    apply IH; destruct d; repeat split; assumption.
Qed.

Lemma three_bytes (v : list Z) :
  3 <= len v -> exists a b c rest, v = a :: b :: c :: rest.
Proof.
  destruct v as [|a [|b [|c rest]]]; rewrite ?len_cons, ?len_nil; try lia.
  intros _. eauto.
Qed.

(** X20.  Whatever bytes [OAMPDUInformation.Decode] is given, if it returns
    (with or without an error) then each TLV of the struct is either absent
    or holds a value two bytes shorter than its length field.  The
    package-variant tests therefore never panic on a decoded frame, and
    they agree on a frame only when it has no organization specific TLV. *)
Theorem Decode_then_classify (data : list Z) (d : OAMPDUInformation.t)
    (err : option error) :
  OAMPDUInformation.Decode OAMPDUInformation.zero data = Some (d, err) ->
  OAMPDUInformation_decoded d /\
  exists a b,
    OAMPDUInformation.IsOnuPkgA d = Some a /\
    OAMPDUInformation.IsOnuPkgB d = Some b /\
    (a = true -> b = true -> OAMPDUInformation.OSILength d = 0).
Proof.
  unfold OAMPDUInformation.Decode.
  destruct (index data 0) as [op|]; [|discriminate].
  cbn [mbind option_bind].
  destruct (slice data (0 + 1) (0 + 1 + 2) ≫= Uint16) as [fl|]; [|discriminate].
  cbn [mbind option_bind].
  destruct (index data (0 + 1 + 2)) as [co|]; [|discriminate].
  cbn [mbind option_bind].
  intros Hloop. apply Decode_loop_decoded in Hloop.
  2: { repeat split; left; split; reflexivity. }
  split; [exact Hloop|].
  destruct Hloop as (_ & _ & [[H0 _]|[H2 Hlen]]).
  - exists true, true.
    unfold OAMPDUInformation.IsOnuPkgA, OAMPDUInformation.IsOnuPkgB.
    rewrite H0. auto.
  - unfold OAMPDUInformation.IsOnuPkgA, OAMPDUInformation.IsOnuPkgB.
    destruct (Z.eqb_spec (OAMPDUInformation.OSILength d) 0) as [|_]; [lia|].
    destruct (Z.eqb_spec (OAMPDUInformation.OSILength d) 7) as [H7|_].
    + destruct (three_bytes (OAMPDUInformation.OSIValue d))
        as (a & b & c & rest & ->); [lia|].
      rewrite (index_cons3 a b c rest), (index_cons3_1 a b c rest),
        (index_cons3_2 a b c rest).
      cbn [mbind option_bind].
      destruct (Z.eqb_spec a 0), (Z.eqb_spec a 144); try lia;
        repeat case_match; eexists _, _;
        (split; [reflexivity|]); (split; [reflexivity|]);
        intros; discriminate.
    + exists false, false. split; [reflexivity|]. split; [reflexivity|].
      discriminate.
Qed.

Lemma Decode_then_classify_witness :
  let data := [0x03; 0x00; 0x50; 0x00;
               0xfe; 0x07; 0x90; 0x82; 0x60; 0x02; 0x01] in
  let d := OAMPDUInformation.mk 3 0x50 0 0 0 [] 0 0 []
             0xfe 7 [0x90; 0x82; 0x60; 0x02; 0x01] in
  OAMPDUInformation.Decode OAMPDUInformation.zero data = Some (d, None) /\
  OAMPDUInformation_decoded d /\
  exists a b,
    OAMPDUInformation.IsOnuPkgA d = Some a /\
    OAMPDUInformation.IsOnuPkgB d = Some b /\
    (a = true -> b = true -> OAMPDUInformation.OSILength d = 0).
Proof.
  intros data d.
  assert (OAMPDUInformation.Decode OAMPDUInformation.zero data
          = Some (d, None)) as H by (vm_compute; reflexivity).
  split; [exact H|].
  exact (Decode_then_classify data d None H).
Defined.

Lemma index_out data i : len data <= i -> index data i = None.
Proof.
  intros H. unfold index.
  destruct (Z.ltb_spec i (len data)); [lia|].
  rewrite andb_false_r. reflexivity.
Qed.

Lemma index_cons_4 (a b c d e : Z) rest :
  index (a :: b :: c :: d :: e :: rest) (0 + 1 + 2 + 1) = Some e.
Proof. apply (index_cursor [a; b; c; d] e rest). reflexivity. Qed.

Lemma index_cons_5 (a b c d e f : Z) rest :
  index (a :: b :: c :: d :: e :: f :: rest) (0 + 1 + 2 + 1 + 1) = Some f.
Proof. apply (index_cursor [a; b; c; d; e] f rest). reflexivity. Qed.

Lemma slice_cons_6 (a b c d e f : Z) v rest j :
  j = 6 + len v ->
  slice (a :: b :: c :: d :: e :: f :: v ++ rest) (0 + 1 + 2 + 1 + 2) j
  = Some v.
Proof.
  intros ->. apply (slice_cursor [a; b; c; d; e; f] v rest); reflexivity.
Qed.

Lemma slice_backwards data i j : j < i -> slice data i j = None.
Proof.
  intros H. unfold slice. destruct (Z.leb_spec i j); [lia|].
  rewrite andb_false_r. reflexivity.
Qed.

(** X21.  Malformed input to [OAMPDUInformation.Decode].  Fewer than four
    bytes make it panic.  After the four header bytes, a TLV whose length
    byte is 1 makes it panic (the value would end before it starts), and so
    does a type byte that is the last byte of the frame.  A TLV of a type
    other than 1, 2 and 0xfe, with its value in the frame, ends decoding
    with the error that names the type; what was decoded before it stays in
    the struct. *)
Theorem Decode_malformed (d : OAMPDUInformation.t)
    (op f1 f2 code ty : Z) :
  (forall data, len data < 4 -> OAMPDUInformation.Decode d data = None) /\
  (forall rest,
     OAMPDUInformation.Decode d ([op; f1; f2; code] ++ ty :: 1 :: rest)
     = None) /\
  OAMPDUInformation.Decode d [op; f1; f2; code; ty] = None /\
  (forall ln v rest,
     ty <> OampduTlvTypeLocalInfo -> ty <> OampduTlvTypeRemoteInfo ->
     ty <> OampduTlvTypeOrganizationSpecificInfo ->
     2 <= ln -> len v = ln - 2 ->
     OAMPDUInformation.Decode d ([op; f1; f2; code] ++ ty :: ln :: v ++ rest)
     = Some (OAMPDUInformation.set_header d op (Z.lor f2 (Z.shiftl f1 8)) code,
             Some (Errorf "tlvType Error: %v" ty))).
Proof.
  split; [|split; [|split]].
  - intros data Hlen. unfold OAMPDUInformation.Decode.
    destruct (index data 0) as [x|]; [|reflexivity].
    cbn [mbind option_bind].
    destruct (slice data (0 + 1) (0 + 1 + 2) ≫= Uint16) as [fl|];
      [|reflexivity].
    cbn [mbind option_bind].
    rewrite index_out by lia. reflexivity.
  - intros rest. unfold OAMPDUInformation.Decode.
    cbn [app]. rewrite (index_cons_0 op), (index_cons_3 op f1 f2 code).
    cbn [mbind option_bind].
    change (slice (op :: f1 :: f2 :: code :: ty :: 1 :: rest) (0 + 1)
              (0 + 1 + 2))
      with (slice ([op] ++ [f1; f2] ++ code :: ty :: 1 :: rest)
              (len [op]) (len [op] + len [f1; f2])).
    rewrite slice_cursor by reflexivity. cbn [mbind option_bind Uint16].
    rewrite Decode_loop_S.
    assert ((len (op :: f1 :: f2 :: code :: ty :: 1 :: rest) <=? 0 + 1 + 2 + 1)
            = false) as ->.
    { apply Z.leb_gt. rewrite !len_cons.
      pose proof (len_nonneg rest). lia. }
    rewrite index_cons_4. cbn [mbind option_bind].
    rewrite index_cons_5. cbn [mbind option_bind Z.eqb].
    rewrite slice_backwards by lia. reflexivity.
  - unfold OAMPDUInformation.Decode.
    rewrite (index_cons_0 op), (index_cons_3 op f1 f2 code).
    cbn [mbind option_bind].
    change (slice [op; f1; f2; code; ty] (0 + 1) (0 + 1 + 2))
      with (slice ([op] ++ [f1; f2] ++ [code; ty])
              (len [op]) (len [op] + len [f1; f2])).
    rewrite slice_cursor by reflexivity. cbn [mbind option_bind Uint16].
    rewrite Decode_loop_S.
    change (len [op; f1; f2; code; ty] <=? 0 + 1 + 2 + 1)
      with false. cbv iota.
    rewrite index_cons_4. cbn [mbind option_bind].
    rewrite index_out; [reflexivity|]. vm_compute. discriminate.
  - intros ln v rest Hli Hri Hosi Hln Hv.
    unfold OAMPDUInformation.Decode.
    cbn [app]. rewrite (index_cons_0 op), (index_cons_3 op f1 f2 code).
    cbn [mbind option_bind].
    change (slice (op :: f1 :: f2 :: code :: ty :: ln :: v ++ rest) (0 + 1)
              (0 + 1 + 2))
      with (slice ([op] ++ [f1; f2] ++ code :: ty :: ln :: v ++ rest)
              (len [op]) (len [op] + len [f1; f2])).
    rewrite slice_cursor by reflexivity. cbn [mbind option_bind Uint16].
    rewrite Decode_loop_S.
    pose proof (len_nonneg v). pose proof (len_nonneg rest).
    assert ((len (op :: f1 :: f2 :: code :: ty :: ln :: v ++ rest)
             <=? 0 + 1 + 2 + 1) = false) as ->.
    { apply Z.leb_gt. rewrite !len_cons, len_app. lia. }
    rewrite index_cons_4. cbn [mbind option_bind].
    rewrite index_cons_5. cbn [mbind option_bind].
    destruct (Z.eqb_spec ln 0); [lia|].
    rewrite slice_cons_6 by lia.
    cbn [mbind option_bind].
    destruct (Z.eqb_spec ty OampduTlvTypeLocalInfo); [contradiction|].
    destruct (Z.eqb_spec ty OampduTlvTypeRemoteInfo); [contradiction|].
    destruct (Z.eqb_spec ty OampduTlvTypeOrganizationSpecificInfo);
      [contradiction|].
    reflexivity.
Qed.

(** X22.  Every keep-alive the adapter generates for a remote-information
    value of 14 bytes is well formed: each length field counts its value
    and the two header bytes, encoding fills exactly [Len] bytes, and
    decoding the bytes gives the generated struct back. *)
Theorem KeepAlive_roundtrip (riValue : list Z) (isOnuPkgA : bool)
    (d : OAMPDUInformation.t) :
  len riValue = 14 ->
  d = GeneateKeepAlive1 isOnuPkgA \/ d = GeneateKeepAlive2 riValue isOnuPkgA \/
  d = GeneateKeepAlive3 riValue ->
  exists bytes,
    OAMPDUInformation.SerializeTo d = Some bytes /\
    OAMPDUInformation.Decode OAMPDUInformation.zero bytes = Some (d, None) /\
    OAMPDUInformation.Len d
    = if OAMPDUInformation.RILength d =? 0 then
        (if isOnuPkgA then 27 else 28)
      else if OAMPDUInformation.OSILength d =? 0 then 36
      else if isOnuPkgA then 43 else 44.
Proof.
  intros Hri Hd.
  assert (OAMPDUInformation_legal d) as Hlegal.
  { unfold OAMPDUInformation_legal, tlv_legal, is_uint16.
    destruct Hd as [->|[->| ->]]; destruct isOnuPkgA; cbn;
      rewrite ?Hri; repeat split; try lia; auto. }
  destruct (OAMPDUInformation_roundtrip d Hlegal) as (bytes & Hser & Hdec).
  exists bytes. split; [exact Hser|]. split; [exact Hdec|].
  destruct Hd as [->|[->| ->]]; destruct isOnuPkgA; reflexivity.
Qed.

Lemma KeepAlive_roundtrip_witness :
  let riValue := [1; 0; 0; 0; 0x1b; 4; 0xb0; 0x2a; 0xea; 0x15; 0; 0; 0; 0x23] in
  let d := GeneateKeepAlive2 riValue true in
  exists bytes,
    OAMPDUInformation.SerializeTo d = Some bytes /\
    OAMPDUInformation.Decode OAMPDUInformation.zero bytes = Some (d, None) /\
    OAMPDUInformation.Len d = 43.
Proof.
  intros riValue d.
  apply (KeepAlive_roundtrip riValue true d); [reflexivity|].
  right. left. reflexivity.
Defined.

End InformationDecoder.

(* ===================================================================== *)
(** * Add-flow-to-device: the ways it ends early *)
(* ===================================================================== *)

Section AddFlowEarlyExit.

(** X23.  [L2oamAddFlowToDevice] for a device handler whose OLT is not in
    the registry.  With [flowVersion] 2 or more the call logs the error and
    returns nil without sending anything or touching a device.  With
    [flowVersion] 1 the nil device is logged and then used, which panics.
    With a [flowVersion] below 1 the call does nothing and returns nil. *)
Theorem L2oamAddFlowToDevice_unknown_olt (dhDeviceID : string)
    (cmd : L2oamCmd) (w : World) :
  DeviceIDMap w !! dhDeviceID = None ->
  (1 < flowVersion w ->
   exists w',
     L2oamAddFlowToDevice dhDeviceID cmd w = Some (None, w') /\
     same_devices w w' /\ sent w' = sent w /\ exchanges w' = exchanges w) /\
  (flowVersion w = 1 -> L2oamAddFlowToDevice dhDeviceID cmd w = None) /\
  (flowVersion w < 1 ->
   L2oamAddFlowToDevice dhDeviceID cmd w = Some (None, w)).
Proof.
  intros Hfind. split; [|split]; intros Hfv; unfold L2oamAddFlowToDevice;
    unfold bind at 1; unfold get.
  - replace (flowVersion w =? 1) with false
      by (symmetry; apply Z.eqb_neq; lia).
    replace (1 <? flowVersion w) with true by (symmetry; apply Z.ltb_lt; lia).
    unfold bind, logger, FindL2oamDeviceByDeviceID. cbn. rewrite Hfind. cbn.
    eexists. split; [reflexivity|]. repeat split.
  - rewrite Hfv. cbn [Z.eqb Pos.eqb].
    unfold L2oamAddFlowToDeviceDS.
    unfold bind, logger, FindL2oamDeviceByDeviceID, lift. cbn.
    rewrite Hfind. reflexivity.
  - replace (flowVersion w =? 1) with false
      by (symmetry; apply Z.eqb_neq; lia).
    replace (1 <? flowVersion w) with false
      by (symmetry; apply Z.ltb_ge; lia).
    reflexivity.
Qed.

Lemma L2oamAddFlowToDevice_unknown_olt_witness :
  (1 < flowVersion world0 ->
   exists w',
     L2oamAddFlowToDevice "olt-1" (flow_cmd "onu-1") world0 = Some (None, w')
     /\ same_devices world0 w' /\ sent w' = sent world0 /\
     exchanges w' = exchanges world0) /\
  (flowVersion world0 = 1 ->
   L2oamAddFlowToDevice "olt-1" (flow_cmd "onu-1") world0 = None) /\
  (flowVersion world0 < 1 ->
   L2oamAddFlowToDevice "olt-1" (flow_cmd "onu-1") world0
   = Some (None, world0)).
Proof.
  apply (L2oamAddFlowToDevice_unknown_olt "olt-1" (flow_cmd "onu-1") world0).
  reflexivity.
Defined.

Lemma sendSetGenericActionCreateForDS_no_response device w :
  (forall resp rest, exchanges w <> Responds resp :: rest) ->
  exists err w',
    sendSetGenericActionCreateForDS device w = Some ((None, err), w') /\
    same_devices w w' /\
    sent w' = sent w ++ [(device, GenerateGenericActionCreateDs)].
Proof.
  intros Hno. unfold sendSetGenericActionCreateForDS.
  unfold bind at 1. unfold send.
  destruct (exchanges w) as [|[| |resp] rest] eqn:Hex.
  - unfold bind, waitResponse. cbn.
    eexists _, _. split; [reflexivity|]. repeat split.
  - eexists _, _. split; [reflexivity|]. repeat split.
  - unfold bind, waitResponse. cbn.
    eexists _, _. split; [reflexivity|]. repeat split.
  - exfalso. exact (Hno resp rest eq_refl).
Qed.

(** X24.  The first add-flow for an OLT (no switching-domain object context
    stored yet) when the OLT does not answer the Generic-Action-Create:
    the send fails, the wait times out, or nothing arrives.  The call
    returns the error "failed-to-add-flow-to-device-for-down-stream", has
    handed that one request to [send], and leaves every device as it was:
    the OLT still has no object context, so the next call starts over. *)
Theorem L2oamAddFlowToDevice_no_response (dhDeviceID : string)
    (cmd : L2oamCmd) (w : World) (pOlt : nat) (olt : Device) :
  1 < flowVersion w ->
  DeviceIDMap w !! dhDeviceID = Some pOlt ->
  heap w !! pOlt = Some olt ->
  ObjectContext olt = None ->
  (forall resp rest, exchanges w <> Responds resp :: rest) ->
  exists w',
    L2oamAddFlowToDevice dhDeviceID cmd w
    = Some (Some (Errorf "failed-to-add-flow-to-device-for-down-stream" 0), w')
    /\ heap w' = heap w /\ DeviceIDMap w' = DeviceIDMap w /\
    sent w' = sent w ++ [(pOlt, GenerateGenericActionCreateDs)].
Proof.
  intros Hfv Holt Hheap Hoc Hno.
  unfold L2oamAddFlowToDevice.
  unfold bind at 1. unfold get.
  replace (flowVersion w =? 1) with false by (symmetry; apply Z.eqb_neq; lia).
  replace (1 <? flowVersion w) with true by (symmetry; apply Z.ltb_lt; lia).
  unfold bind at 1. cbn [logger].
  set (w1 := mkWorld _ _ _ _ _ _ _ _ _ _ _).
  unfold bind at 1. unfold FindL2oamDeviceByDeviceID at 1.
  change (DeviceIDMap w1) with (DeviceIDMap w). rewrite Holt.
  unfold bind at 1. unfold getObjectContext at 1.
  rewrite (bind_eq _ _ w1 olt w1) by (apply deref_eq; exact Hheap).
  unfold ret at 1. rewrite Hoc.
  unfold bind at 1. unfold bind at 1.
  destruct (sendSetGenericActionCreateForDS_no_response pOlt w1)
    as (err & w2 & H2 & Hw2 & Hs2); [exact Hno|].
  rewrite H2.
  unfold bind, logger, ret. cbn.
  eexists. split; [reflexivity|]. cbn.
  destruct Hw2 as (Hh & _ & HD & _).
  rewrite Hh, HD, Hs2. repeat split.
Qed.

Lemma L2oamAddFlowToDevice_no_response_witness :
  let olt := mkDevice L2oamOltDevice "olt-1" "000000000001" false None None in
  let w := mkWorld {[1%nat := olt]} ∅ {["olt-1" := 1%nat]} 3 OnuPkgType_init
                   FileNotExist [TimesOut] [] [] [] env0 in
  exists w',
    L2oamAddFlowToDevice "olt-1" (flow_cmd "onu-1") w
    = Some (Some (Errorf "failed-to-add-flow-to-device-for-down-stream" 0), w')
    /\ heap w' = heap w /\ DeviceIDMap w' = DeviceIDMap w /\
    sent w' = sent w ++ [(1%nat, GenerateGenericActionCreateDs)].
Proof.
  intros olt w.
  apply (L2oamAddFlowToDevice_no_response "olt-1" (flow_cmd "onu-1") w
           1%nat olt); try reflexivity.
  intros resp rest. discriminate.
Defined.

(** X25.  The first add-flow for an OLT that answers, for an ONU that is
    not in the registry or has no object context yet.  The call installs
    the OLT part (Generic-Action-Create and the down-stream Inlet-Entry),
    stores the object context and the command on the OLT and marks the OLT
    [FlowAdded]; it sends nothing for the ONU, leaves the ONU record as it
    is, and still returns nil. *)
Theorem L2oamAddFlowToDevice_onu_not_ready (dhDeviceID : string)
    (cmd : L2oamCmd) (w : World) (pOlt : nat) (olt : Device)
    (resp : Ethernet) (rest : list Outcome) :
  1 < flowVersion w ->
  DeviceIDMap w !! dhDeviceID = Some pOlt ->
  heap w !! pOlt = Some olt ->
  kind olt = L2oamOltDevice ->
  ObjectContext olt = None ->
  exchanges w = Responds resp :: rest ->
  37 <= len (Payload resp) ->
  (DeviceIDMap w !! OnuDeviceID cmd = None \/
   exists pOnu onu,
     DeviceIDMap w !! OnuDeviceID cmd = Some pOnu /\ pOnu <> pOlt /\
     heap w !! pOnu = Some onu /\ ObjectContext onu = None) ->
  exists oc w',
    L2oamAddFlowToDevice dhDeviceID cmd w = Some (None, w') /\
    sent w' = sent w ++
      [(pOlt, GenerateGenericActionCreateDs);
       (pOlt, GenerateL2switchingDomainActionLnletEntryDs
                oc (Tpid cmd) (Vid cmd))] /\
    heap w' =
      <[pOlt := set_FlowAdded
                  (set_ObjectContext (set_L2oamCmd olt (Some cmd)) (Some oc))
                  true]> (heap w) /\
    DeviceIDMap w' = DeviceIDMap w.
Proof.
  intros Hfv Holt Hheap HkindO Hoc Hex Hlen Honu.
  unfold L2oamAddFlowToDevice.
  unfold bind at 1. unfold get.
  replace (flowVersion w =? 1) with false by (symmetry; apply Z.eqb_neq; lia).
  replace (1 <? flowVersion w) with true by (symmetry; apply Z.ltb_lt; lia).
  unfold bind at 1. cbn [logger].
  set (w1 := mkWorld _ _ _ _ _ _ _ _ _ _ _).
  unfold bind at 1. unfold FindL2oamDeviceByDeviceID at 1.
  change (DeviceIDMap w1) with (DeviceIDMap w). rewrite Holt.
  unfold bind at 1. unfold getObjectContext at 1.
  rewrite (bind_eq _ _ w1 olt w1) by (apply deref_eq; exact Hheap).
  unfold ret at 1. rewrite Hoc.
  unfold bind at 1. unfold bind at 1.
  destruct (sendSetGenericActionCreateForDS_responds pOlt w1 resp rest)
    as (oc & w2 & H2 & Hw2 & Hs2 & _); [exact Hex | exact Hlen |].
  rewrite H2.
  destruct (sendAndWait_spec pOlt
              (GenerateL2switchingDomainActionLnletEntryDs oc (Tpid cmd) (Vid cmd))
              "[%s] sendSetL2SwitchingDomain() Send Error: %v"
              "[%s] sendSetL2SwitchingDomain() Success, response=%x:%s" w2)
    as (err02 & w3 & H3 & Hw3 & Hs3).
  unfold sendSetL2SwitchingDomainForDS.
  rewrite (bind_eq _ _ _ _ _ H3).
  assert (Hw : same_devices w w3).
  { eapply same_devices_trans; [|exact Hw3].
    eapply same_devices_trans; [|exact Hw2]. repeat split. }
  destruct Hw as (Hh & _ & HD & Hfv' & _).
  assert (Hheap3 : heap w3 !! pOlt = Some olt) by (by rewrite Hh).
  unfold bind at 1. unfold setL2oamCmd at 1.
  rewrite (update_eq pOlt _ olt w3 Hheap3).
  set (w4 := set_heap _ w3).
  assert (Hheap4 : heap w4 !! pOlt = Some (set_L2oamCmd olt (Some cmd)))
    by (cbn; apply lookup_insert_eq).
  unfold bind at 1. unfold setObjectContext at 1.
  rewrite (update_eq pOlt _ _ w4 Hheap4).
  set (w5 := set_heap _ w4).
  assert (Hheap5 : heap w5 !! pOlt
                   = Some (set_ObjectContext (set_L2oamCmd olt (Some cmd)) (Some oc)))
    by (cbn; apply lookup_insert_eq).
  unfold bind at 1. unfold bind at 1.
  rewrite (deref_eq pOlt _ w5 Hheap5).
  cbn [kind set_ObjectContext set_L2oamCmd]. rewrite HkindO.
  rewrite (update_eq pOlt _ _ w5 Hheap5).
  set (w6 := set_heap _ w5).
  assert (Hheap6 : heap w6 !! pOlt
                   = Some (set_FlowAdded
                             (set_ObjectContext (set_L2oamCmd olt (Some cmd)) (Some oc))
                             true))
    by (cbn; apply lookup_insert_eq).
  unfold bind at 1. unfold updateMap at 1.
  rewrite (bind_eq _ _ w6 _ w6 (deref_eq pOlt _ w6 Hheap6)).
  unfold ret at 1. unfold ret at 1.
  assert (Hheap6' : heap w6
                    = <[pOlt := set_FlowAdded
                                  (set_ObjectContext (set_L2oamCmd olt (Some cmd)) (Some oc))
                                  true]> (heap w)).
  { cbn. rewrite !insert_insert_eq. by rewrite Hh. }
  assert (Hsent6 : sent w6 = sent w ++
            [(pOlt, GenerateGenericActionCreateDs);
             (pOlt, GenerateL2switchingDomainActionLnletEntryDs
                      oc (Tpid cmd) (Vid cmd))]).
  { change (sent w6) with (sent w3). rewrite Hs3, Hs2.
    change (sent w1) with (sent w). rewrite <- app_assoc. reflexivity. }
  unfold bind at 1. unfold FindL2oamDeviceByDeviceID at 1.
  change (DeviceIDMap w6) with (DeviceIDMap w3). rewrite HD.
  destruct Honu as [Hnone|(pOnu & onu & Hsome & Hne & HheapO & HocO)].
  - rewrite Hnone. unfold bind, logger, ret. cbn [sent heap DeviceIDMap].
    exists oc. eexists. split; [reflexivity|]. cbn [sent heap DeviceIDMap].
    split; [exact Hsent6|]. split; [exact Hheap6'|]. exact HD.
  - rewrite Hsome.
    assert (HheapO6 : heap w6 !! pOnu = Some onu).
    { rewrite Hheap6'. by rewrite lookup_insert_ne. }
    unfold bind at 1. unfold getObjectContext at 1.
    rewrite (bind_eq _ _ w6 onu w6) by (by apply deref_eq).
    unfold ret at 1. rewrite HocO.
    unfold bind, logger, ret. cbn [sent heap DeviceIDMap].
    exists oc. eexists. split; [reflexivity|]. cbn [sent heap DeviceIDMap].
    split; [exact Hsent6|]. split; [exact Hheap6'|]. exact HD.
Qed.

Lemma L2oamAddFlowToDevice_onu_not_ready_witness :
  let olt := mkDevice L2oamOltDevice "olt-1" "000000000001" false None None in
  let w := mkWorld {[1%nat := olt]} ∅ {["olt-1" := 1%nat]} 3 OnuPkgType_init
                   FileNotExist [Responds flow_response] [] [] [] env0 in
  exists oc w',
    L2oamAddFlowToDevice "olt-1" (flow_cmd "onu-1") w = Some (None, w') /\
    sent w' = sent w ++
      [(1%nat, GenerateGenericActionCreateDs);
       (1%nat, GenerateL2switchingDomainActionLnletEntryDs
                 oc (Tpid (flow_cmd "onu-1")) (Vid (flow_cmd "onu-1")))] /\
    heap w' =
      <[1%nat := set_FlowAdded
                   (set_ObjectContext
                      (set_L2oamCmd olt (Some (flow_cmd "onu-1"))) (Some oc))
                   true]> (heap w) /\
    DeviceIDMap w' = DeviceIDMap w.
Proof.
  intros olt w.
  apply (L2oamAddFlowToDevice_onu_not_ready "olt-1" (flow_cmd "onu-1") w
           1%nat olt flow_response []);
    [reflexivity | reflexivity | reflexivity | reflexivity | reflexivity
    | reflexivity | vm_compute; discriminate | left; reflexivity].
Defined.

End AddFlowEarlyExit.

(* ===================================================================== *)
(** * Correlation tags: no repetition within 2^32 calls *)
(* ===================================================================== *)

Section CorrelationTagsDistinct.

(** X26.  From any counter value, up to 2^32 successive calls of
    [getOltInstance] return pairwise different 32-bit values, the wrap from
    0xffffffff to 0 included; the value of a call comes back exactly 2^32
    calls later. *)
Theorem correlation_tags_distinct (n : nat) (s : Z) :
  is_uint32 s ->
  Z.of_nat n <= 2 ^ 32 ->
  NoDup (fst (getOltInstances n s)) /\
  Forall is_uint32 (fst (getOltInstances n s)) /\
  (forall k, 0 <= k ->
     instance_of_call (k + 2 ^ 32) = instance_of_call k).
Proof.
  intros Hs Hn. rewrite getOltInstances_fst. split; [|split].
  - apply (NoDup_fmap_2_strong (fun k => (s + Z.of_nat k) mod 2 ^ 32));
      [|apply NoDup_seq].
    intros x y Hx Hy Heq.
    apply elem_of_seq in Hx. apply elem_of_seq in Hy.
    change (2 ^ 32) with 4294967296 in *.
    Z.div_mod_to_equations. lia.
  - apply List.Forall_forall. intros v Hv.
    apply List.in_map_iff in Hv as (k & <- & _).
    unfold is_uint32. change 4294967296 with (2 ^ 32).
    apply Z.mod_pos_bound. lia.
  - intros k Hk. rewrite !instance_of_call_mod by lia.
    rewrite Z.add_assoc.
    replace (instance_init + k + 2 ^ 32)
      with (instance_init + k + 1 * 2 ^ 32) by lia.
    apply Z.mod_add. lia.
Qed.

Lemma correlation_tags_distinct_witness :
  fst (getOltInstances 3 0xfffffffe) = [0xffffffff; 0; 1] /\
  NoDup (fst (getOltInstances 3 0xfffffffe)).
Proof.
  split; [reflexivity|].
  apply (correlation_tags_distinct 3 0xfffffffe).
  - unfold is_uint32. lia.
  - vm_compute. discriminate.
Defined.

End CorrelationTagsDistinct.

(* ===================================================================== *)
(** * The two readers of the Generic/Action Create response *)
(* ===================================================================== *)

Section GenericActionCreateResponse.

(** Taking a successful read apart. *)
Ltac read_ok H :=
  match type of H with
  | mbind _ ?x = Some _ =>
      let E := fresh "E" in
      destruct x eqn:E; [cbn [mbind option_bind] in H | discriminate H]
  end.

Lemma Decode_reads (data : list Z) (r : SetGenericActionCreateRes.t) :
  SetGenericActionCreateRes.Decode data = Some r ->
  index data 29 = Some (SetGenericActionCreateRes.ObOCBranch r) /\
  slice data 30 32 ≫= Uint16 = Some (SetGenericActionCreateRes.ObOCType r) /\
  index data 32 = Some (SetGenericActionCreateRes.ObOCLength2 r) /\
  slice data 33 (33 + SetGenericActionCreateRes.ObOCLength2 r)
  = Some (SetGenericActionCreateRes.ObOCInstance r) /\
  index data (33 + SetGenericActionCreateRes.ObOCLength2 r)
  = Some (SetGenericActionCreateRes.EndBranch r).
Proof.
  unfold SetGenericActionCreateRes.Decode. intros H.
  do 3 read_ok H.
  destruct (slice data (0 + 1 + 2 + 1) (0 + 1 + 2 + 1 + 3)) as [ou|] eqn:Eou;
    [cbn [mbind option_bind] in H | discriminate H].
  assert (len ou = 3) as Hou by (apply slice_len in Eou; lia).
  rewrite Hou in H.
  do 18 read_ok H.
  injection H as <-. cbn.
  repeat split; assumption.
Qed.

(** X27.  The response to Generic/Action Create is read in two ways: by
    [SetGenericActionCreateRes.Decode], and by
    [sendSetGenericActionCreateForDS] at the fixed payload offsets 29 to
    36.  On every response that [Decode] accepts with a 4-byte object
    instance the two agree: the object context the sequencer keeps is the
    branch, type and length that [Decode] finds, with the instance bytes of
    [GetTrafficProfile] read as a big-endian number.  A response payload
    of fewer than 33 bytes makes the sequencer panic: it reads the bytes at
    29 and 32 by index, which is checked against the length.  (The
    instance at 33 to 36 is read through a slice expression, which Go
    checks against the capacity of the payload; what a payload of 33 to 36
    bytes does is not stated here.) *)
Theorem GenericActionCreate_response_readers (device : nat) (w : World)
    (resp : Ethernet) (rest : list Outcome) :
  exchanges w = Responds resp :: rest ->
  (forall r,
     SetGenericActionCreateRes.Decode (Payload resp) = Some r ->
     SetGenericActionCreateRes.ObOCLength2 r = 4 ->
     exists instance w',
       Uint32 (SetGenericActionCreateRes.GetTrafficProfile r) = Some instance /\
       sendSetGenericActionCreateForDS device w
       = Some ((Some (TomiObjectContext.mk
                        (SetGenericActionCreateRes.ObOCBranch r)
                        (SetGenericActionCreateRes.ObOCType r)
                        (SetGenericActionCreateRes.ObOCLength2 r)
                        instance), None), w')) /\
  (len (Payload resp) < 33 ->
   sendSetGenericActionCreateForDS device w = None).
Proof.
  intros Hex. split.
  - intros r Hdec H4.
    destruct (Decode_reads _ _ Hdec) as (HB & HT & HL & HI & _).
    rewrite H4 in HI.
    destruct (Uint32_in_range (SetGenericActionCreateRes.ObOCInstance r))
      as [instance Hinst]; [apply slice_len in HI; lia|].
    exists instance. eexists. split; [exact Hinst|].
    unfold sendSetGenericActionCreateForDS.
    unfold bind at 1. unfold send. rewrite Hex.
    unfold bind at 1. unfold waitResponse. cbn [exchanges set_link].
    unfold bind, lift.
    change (29 + 1) with 30. change (30 + 2) with 32.
    change (32 + 1) with 33. change (33 + 4) with 37.
    rewrite HB, HT, HL. change (33 + 4) with 37 in HI. rewrite HI.
    cbn [mbind option_bind].
    unfold SetGenericActionCreateRes.GetTrafficProfile in Hinst.
    rewrite Hinst. cbn. reflexivity.
  - intros Hlen.
    unfold sendSetGenericActionCreateForDS.
    unfold bind at 1. unfold send. rewrite Hex.
    unfold bind at 1. unfold waitResponse. cbn [exchanges set_link].
    unfold bind, lift.
    destruct (index (Payload resp) 29) as [b|]; [|reflexivity].
    destruct (slice (Payload resp) (29 + 1) (29 + 1 + 2) ≫= Uint16) as [t|];
      [|reflexivity].
    assert (index (Payload resp) (29 + 1 + 2) = None) as ->; [|reflexivity].
    apply index_out. lia.
Qed.

Lemma GenericActionCreate_response_readers_witness :
  let resp := mkEthernet [] [] 0xa8c8 []
                (zeros 29 ++ [0x0c; 0x0d; 0xce; 0x04; 0; 0; 0; 1; 0]) in
  let w := mkWorld ∅ ∅ ∅ 3 OnuPkgType_init FileNotExist [Responds resp]
                   [] [] [] env0 in
  exists r instance w',
    SetGenericActionCreateRes.Decode (Payload resp) = Some r /\
    Uint32 (SetGenericActionCreateRes.GetTrafficProfile r) = Some instance /\
    sendSetGenericActionCreateForDS 0%nat w
    = Some ((Some (TomiObjectContext.mk 0x0c 0x0dce 4 instance), None), w').
Proof.
  intros resp w.
  destruct (SetGenericActionCreateRes.Decode (Payload resp)) as [r|] eqn:Hdec;
    [|vm_compute in Hdec; discriminate Hdec].
  assert (SetGenericActionCreateRes.ObOCLength2 r = 4) as H4
    by (vm_compute in Hdec; injection Hdec as <-; reflexivity).
  destruct (proj1 (GenericActionCreate_response_readers 0%nat w resp []
                     eq_refl) r Hdec H4) as (instance & w' & Hinst & Hrun).
  exists r, instance, w'. split; [reflexivity|]. split; [exact Hinst|].
  rewrite Hrun. vm_compute in Hdec. injection Hdec as <-. reflexivity.
Defined.

End GenericActionCreateResponse.

(* ===================================================================== *)
(** * The Inlet-entry requests on the wire *)
(* ===================================================================== *)

Section InletEntry.

Lemma emitted_ne ln : ln <> 128 -> emitted ln = ln.
Proof. intros H. unfold emitted. destruct (Z.eqb_spec ln 128); congruence. Qed.

Lemma TpidVid_wire_len (e : TpidVid.t) :
  TpidVid_consistent e ->
  len (TpidVid_wire e)
  = 3 + emitted (TpidVid.TpIDLength e) + emitted (TpidVid.VIdLength e).
Proof.
  intros (_ & HT & HV). unfold TpidVid_wire, emitted.
  rewrite !len_cons, len_app, len_cons.
  destruct (Z.eqb_spec (TpidVid.TpIDLength e) 128) as [_|Hn];
    destruct (Z.eqb_spec (TpidVid.VIdLength e) 128) as [_|Hm];
    rewrite ?len_nil, ?HT, ?HV by assumption; lia.
Qed.

(** An entry written into the zero-filled rest of a buffer. *)
Lemma serializeTpidVid_zeros (tpidVid : TpidVid.t) pre k startIndex :
  startIndex = len pre ->
  TpidVid_consistent tpidVid ->
  len (TpidVid_wire tpidVid) <= k ->
  serializeTpidVid tpidVid (pre ++ zeros k) startIndex
  = Some ((pre ++ TpidVid_wire tpidVid)
          ++ zeros (k - len (TpidVid_wire tpidVid)),
          startIndex + len (TpidVid_wire tpidVid)).
Proof.
  intros Hi Hc Hk. rewrite TpidVid_wire_len in * by assumption.
  destruct Hc as ((HT & HV) & HTv & HVv).
  set (nt := emitted (TpidVid.TpIDLength tpidVid)) in *.
  set (nv := emitted (TpidVid.VIdLength tpidVid)) in *.
  assert (0 <= nt /\ 0 <= nv) as [Hnt Hnv].
  { subst nt nv. unfold emitted. split; case_match; lia. }
  assert (zeros k = 0 :: 0 :: zeros nt ++ 0 :: zeros nv
                      ++ zeros (k - (3 + nt + nv))) as ->.
  { rewrite (zeros_cons k) by lia. f_equal.
    rewrite (zeros_cons (k - 1)) by lia. f_equal.
    rewrite (zeros_app nt (k - 1 - 1)) by lia. f_equal.
    rewrite (zeros_cons (k - 1 - 1 - nt)) by lia. f_equal.
    rewrite (zeros_app nv (k - 1 - 1 - nt - 1)) by lia. f_equal.
    f_equal. lia. }
  destruct (serializeTpidVid_cursor tpidVid pre 0 0 (zeros nt) 0 (zeros nv)
              (zeros (k - (3 + nt + nv))) startIndex)
    as (tpid & vid & Hrun & HcT & HcV & HvT & HvV);
    [exact Hi | rewrite len_zeros; lia | rewrite len_zeros; lia |].
  fold nt nv in Hrun. rewrite Hrun. f_equal. f_equal; [|lia].
  rewrite <- app_assoc. unfold TpidVid_wire. cbn [app]. do 3 f_equal.
  assert (tpid = if TpidVid.TpIDLength tpidVid =? 128 then []
                 else TpidVid.TpIDValue tpidVid) as <-.
  { destruct (Z.eqb_spec (TpidVid.TpIDLength tpidVid) 128) as [He|Hne].
    - destruct HcT as [[_ ->]|[? _]]; [reflexivity|contradiction].
    - apply HvT; [exact Hne|]. apply HTv. exact Hne. }
  rewrite <- app_assoc. cbn [app]. do 2 f_equal.
  assert (vid = if TpidVid.VIdLength tpidVid =? 128 then []
                else TpidVid.VIdValue tpidVid) as <-.
  { destruct (Z.eqb_spec (TpidVid.VIdLength tpidVid) 128) as [He|Hne].
    - destruct HcV as [[_ ->]|[? _]]; [reflexivity|contradiction].
    - apply HvV; [exact Hne|]. apply HVv. exact Hne. }
  reflexivity.
Qed.

(** A list of entries written into the zero-filled rest of a buffer: the
    loop writes them one behind the other. *)
Lemma serializeTpidVid_range_zeros (list : list TpidVid.t) :
  forall pre k i,
  i = len pre ->
  Forall TpidVid_consistent list ->
  len (flat_map TpidVid_wire list) <= k ->
  L2switchingDomainRequest.serializeTpidVid_range list (pre ++ zeros k) i
  = Some ((pre ++ flat_map TpidVid_wire list)
          ++ zeros (k - len (flat_map TpidVid_wire list)),
          i + len (flat_map TpidVid_wire list)).
Proof.
  induction list as [|e list IH]; intros pre k i Hi Hall Hk.
  - cbn [L2switchingDomainRequest.serializeTpidVid_range flat_map].
    rewrite app_nil_r, len_nil, Z.sub_0_r, Z.add_0_r. reflexivity.
  - apply Forall_cons in Hall as [He Hall].
    cbn [L2switchingDomainRequest.serializeTpidVid_range flat_map] in *.
    rewrite len_app in *.
    pose proof (len_nonneg (flat_map TpidVid_wire list)).
    pose proof (len_nonneg (TpidVid_wire e)).
    rewrite serializeTpidVid_zeros by (assumption || lia).
    cbn [mbind option_bind].
    rewrite IH by (try assumption; rewrite ?len_app; lia).
    rewrite <- (app_assoc pre).
    replace (k - len (TpidVid_wire e) - len (flat_map TpidVid_wire list))
      with (k - (len (TpidVid_wire e) + len (flat_map TpidVid_wire list)))
      by lia.
    rewrite Z.add_assoc. reflexivity.
Qed.

(** The bytes of a request whose declared lengths leave room for what is
    written: every field in its place behind the one before, the three
    lists as their entries, and the rest of the buffer left zero. *)
Lemma L2switchingDomainRequest_SerializeTo_bytes
    (d : L2switchingDomainRequest.t) :
  let written :=
    37 + len (L2switchingDomainRequest.OUId d)
    + len (flat_map TpidVid_wire (L2switchingDomainRequest.TMLList d))
    + len (flat_map TpidVid_wire (L2switchingDomainRequest.TOSList d))
    + len (flat_map TpidVid_wire (L2switchingDomainRequest.TOPushList d)) in
  Forall TpidVid_consistent (L2switchingDomainRequest.TMLList d) ->
  Forall TpidVid_consistent (L2switchingDomainRequest.TOSList d) ->
  Forall TpidVid_consistent (L2switchingDomainRequest.TOPushList d) ->
  written <= L2switchingDomainRequest.Len d ->
  L2switchingDomainRequest.SerializeTo d
  = Some ([L2switchingDomainRequest.Opcode d]
          ++ be16 (L2switchingDomainRequest.Flags d)
          ++ [L2switchingDomainRequest.OAMPDUCode d]
          ++ L2switchingDomainRequest.OUId d
          ++ [L2switchingDomainRequest.TOMIOpcode d;
              L2switchingDomainRequest.CTBranch d]
          ++ be16 (L2switchingDomainRequest.CTType d)
          ++ [L2switchingDomainRequest.CTLength d]
          ++ be32 (L2switchingDomainRequest.CTInstance d)
          ++ [L2switchingDomainRequest.OCBranch d]
          ++ be16 (L2switchingDomainRequest.OCType d)
          ++ [L2switchingDomainRequest.OCLength d]
          ++ be32 (L2switchingDomainRequest.OCInstance d)
          ++ [L2switchingDomainRequest.VcBranch d]
          ++ be16 (L2switchingDomainRequest.VcLeaf d)
          ++ [L2switchingDomainRequest.VcLength d;
              L2switchingDomainRequest.SOLength d;
              L2switchingDomainRequest.SOBranch d]
          ++ be16 (L2switchingDomainRequest.SOType d)
          ++ [L2switchingDomainRequest.SOValLength d;
              L2switchingDomainRequest.SOInstance d;
              L2switchingDomainRequest.TMLLength d]
          ++ flat_map TpidVid_wire (L2switchingDomainRequest.TMLList d)
          ++ [L2switchingDomainRequest.TOPopLength d;
              L2switchingDomainRequest.TOPopValue d;
              L2switchingDomainRequest.TOSLength d]
          ++ flat_map TpidVid_wire (L2switchingDomainRequest.TOSList d)
          ++ [L2switchingDomainRequest.TOPushLength d]
          ++ flat_map TpidVid_wire (L2switchingDomainRequest.TOPushList d)
          ++ [L2switchingDomainRequest.EndBranch d]
          ++ zeros (L2switchingDomainRequest.Len d - written)).
Proof.
  intros written HTML HTOS HTOPush Hroom. subst written.
  unfold L2switchingDomainRequest.SerializeTo.
  set (plen := L2switchingDomainRequest.Len d) in *.
  set (tml := flat_map TpidVid_wire (L2switchingDomainRequest.TMLList d))
    in *.
  set (tos := flat_map TpidVid_wire (L2switchingDomainRequest.TOSList d))
    in *.
  set (push := flat_map TpidVid_wire (L2switchingDomainRequest.TOPushList d))
    in *.
  pose proof (len_nonneg (L2switchingDomainRequest.OUId d)).
  pose proof (len_nonneg tml). pose proof (len_nonneg tos).
  pose proof (len_nonneg push).
  unfold PrependBytes.
  replace (0 <=? plen) with true by (symmetry; apply Z.leb_le; lia).
  cbn [mbind option_bind].
  change (zeros plen) with ([] ++ zeros plen).
  do 22 ser_step.
  rewrite (serializeTpidVid_range_zeros (L2switchingDomainRequest.TMLList d))
    by (try assumption; fold tml; buf_side).
  fold tml. cbn [mbind option_bind].
  do 3 ser_step.
  rewrite (serializeTpidVid_range_zeros (L2switchingDomainRequest.TOSList d))
    by (try assumption; fold tos; buf_side).
  fold tos. cbn [mbind option_bind].
  ser_step.
  rewrite
    (serializeTpidVid_range_zeros (L2switchingDomainRequest.TOPushList d))
    by (try assumption; fold push; buf_side).
  fold push. cbn [mbind option_bind].
  ser_step.
  f_equal. unfold be16, be32.
  repeat (progress (rewrite <- ?app_assoc; cbn [app])).
  lazymatch goal with
  | |- ?l = _ =>
      match l with
      | context [zeros ?k] =>
          replace k
            with (plen - (37 + len (L2switchingDomainRequest.OUId d)
                          + len tml + len tos + len push))
            by (unfold len in *; lia)
      end
  end.
  reflexivity.
Qed.

(** The lengths of the lists a generated request carries. *)
Lemma TpidVid_wire_given (n : Z) (tpid vid : list Z) :
  len tpid <> 128 -> len vid <> 128 ->
  TpidVid_wire (TpidVid.mk n (len tpid) tpid (len vid) vid)
  = n :: len tpid :: tpid ++ len vid :: vid.
Proof.
  intros Ht Hv. unfold TpidVid_wire.
  cbn [TpidVid.Length TpidVid.TpIDLength TpidVid.TpIDValue
       TpidVid.VIdLength TpidVid.VIdValue].
  rewrite (proj2 (Z.eqb_neq _ _) Ht), (proj2 (Z.eqb_neq _ _) Hv).
  reflexivity.
Qed.

Lemma TpidVid_consistent_given (n : Z) (tpid vid : list Z) :
  TpidVid_consistent (TpidVid.mk n (len tpid) tpid (len vid) vid).
Proof.
  unfold TpidVid_consistent.
  cbn [TpidVid.TpIDLength TpidVid.TpIDValue TpidVid.VIdLength
       TpidVid.VIdValue].
  pose proof (len_nonneg tpid). pose proof (len_nonneg vid). tauto.
Qed.

(** The entries the generators write out as constants. *)
Ltac fixed_entries :=
  repeat first
    [ apply Forall_nil_2
    | apply Forall_cons_2;
      [ first [ apply TpidVid_consistent_given
              | unfold TpidVid_consistent;
                cbn [TpidVid.TpIDLength TpidVid.TpIDValue TpidVid.VIdLength
                     TpidVid.VIdValue];
                repeat split; first [ lia | intros _; reflexivity
                                    | intros Hne; now contradiction Hne ] ]
      | ] ].

(** The length of a list written out by its elements. *)
Ltac len_lia :=
  repeat (progress (rewrite ?len_cons, ?len_app));
  rewrite ?(@len_nil Z); lia.

Ltac request_fields :=
  cbn [L2switchingDomainRequest.Opcode L2switchingDomainRequest.Flags
       L2switchingDomainRequest.OAMPDUCode L2switchingDomainRequest.OUId
       L2switchingDomainRequest.TOMIOpcode L2switchingDomainRequest.CTBranch
       L2switchingDomainRequest.CTType L2switchingDomainRequest.CTLength
       L2switchingDomainRequest.CTInstance L2switchingDomainRequest.OCBranch
       L2switchingDomainRequest.OCType L2switchingDomainRequest.OCLength
       L2switchingDomainRequest.OCInstance L2switchingDomainRequest.VcBranch
       L2switchingDomainRequest.VcLeaf L2switchingDomainRequest.VcLength
       L2switchingDomainRequest.SOLength L2switchingDomainRequest.SOBranch
       L2switchingDomainRequest.SOType L2switchingDomainRequest.SOValLength
       L2switchingDomainRequest.SOInstance L2switchingDomainRequest.TMLLength
       L2switchingDomainRequest.TMLList L2switchingDomainRequest.TOPopLength
       L2switchingDomainRequest.TOPopValue L2switchingDomainRequest.TOSLength
       L2switchingDomainRequest.TOSList L2switchingDomainRequest.TOPushLength
       L2switchingDomainRequest.TOPushList L2switchingDomainRequest.EndBranch
       L2switchingDomainRequest.SizeMargin].

(** X28.  The up-stream Inlet-entry request on the wire.  For an object
    context of length 3 or more and push TPID and VID values whose lengths
    are not 128 and together at most 231, the request is serialized without
    a panic: the fixed header, the next correlation tag, the object
    context, the source object naming the ONU by the low byte of its
    instance, the two match entries and the set entry without values, and
    the push entry carrying the TPID and the VID given, each behind its
    length byte; behind the end byte the buffer keeps [Length - 3] zero
    bytes that are never written. *)
Theorem InletEntryUs_bytes (oc : TomiObjectContext.t) (tpid vid : list Z)
    (onuID : TomiObjectContext.t) (instance : Z) :
  3 <= TomiObjectContext.Length oc ->
  len tpid + len vid <= 231 -> len tpid <> 128 -> len vid <> 128 ->
  let request :=
    Layer.GenerateL2switchingDomainActionLnletEntryUs oc tpid vid onuID
      instance in
  snd request = (instance + 1) mod 2 ^ 32 /\
  L2switchingDomainRequest.Len (fst request)
  = 50 + TomiObjectContext.Length oc + len tpid + len vid /\
  L2switchingDomainRequest.SerializeTo (fst request)
  = Some ([0x03; 0x00; 0x50; 0xfe; 0x2a; 0xea; 0x15; 0x03;
           0x0c; 0x0c; 0x7a; 4]
          ++ be32 ((instance + 1) mod 2 ^ 32)
          ++ [TomiObjectContext.Branch oc]
          ++ be16 (TomiObjectContext.Type_ oc)
          ++ [TomiObjectContext.Length oc]
          ++ be32 (TomiObjectContext.Instance oc)
          ++ [0x5d; 0x70; 0x01; 24 + len tpid + len vid;
              5; 0x0c; 0x00; 0x11; 1;
              TomiObjectContext.Instance onuID mod 2 ^ 8;
              7; 3; 0x80; 1; 0x00; 2; 0x80; 0x80;
              1; 0x00;
              3; 2; 0x80; 0x80;
              3 + len tpid + len vid; 2 + len tpid + len vid; len tpid]
          ++ tpid ++ [len vid] ++ vid ++ [0x00]
          ++ zeros (TomiObjectContext.Length oc - 3)).
Proof.
  intros Hoc Hsum Ht Hv request.
  pose proof (len_nonneg tpid) as Hlt. pose proof (len_nonneg vid) as Hlv.
  subst request.
  unfold Layer.GenerateL2switchingDomainActionLnletEntryUs, getOltInstance.
  cbn [fst snd].
  split; [reflexivity|].
  change (2 ^ 8) with 256.
  rewrite (Z.mod_small (24 + len tpid + len vid)) by lia.
  rewrite (Z.mod_small (3 + len tpid + len vid)) by lia.
  rewrite (Z.mod_small (2 + len tpid + len vid)) by lia.
  rewrite (Z.mod_small (len tpid)) by lia.
  rewrite (Z.mod_small (len vid)) by lia.
  split; [unfold L2switchingDomainRequest.Len; request_fields; lia|].
  rewrite L2switchingDomainRequest_SerializeTo_bytes;
    unfold L2switchingDomainRequest.Len; request_fields;
    [ | fixed_entries .. | ].
  - cbn [flat_map]. rewrite TpidVid_wire_given by assumption.
    unfold TpidVid_wire, be16, be32.
    cbn [TpidVid.Length TpidVid.TpIDLength TpidVid.TpIDValue
         TpidVid.VIdLength TpidVid.VIdValue Z.eqb Pos.eqb].
    cbn [app].
    lazymatch goal with
    | |- ?l = _ =>
        match l with
        | context [zeros ?k] =>
            replace k with (TomiObjectContext.Length oc - 3) by len_lia
        end
    end.
    f_equal. repeat (apply (f_equal2 cons); [reflexivity|]).
    rewrite <- !app_assoc. reflexivity.
  - cbn [flat_map]. rewrite TpidVid_wire_given by assumption.
    unfold TpidVid_wire.
    cbn [TpidVid.Length TpidVid.TpIDLength TpidVid.TpIDValue
         TpidVid.VIdLength TpidVid.VIdValue Z.eqb Pos.eqb].
    cbn [app]. len_lia.
Qed.

Lemma InletEntryUs_bytes_witness :
  L2switchingDomainRequest.SerializeTo
    (fst (Layer.GenerateL2switchingDomainActionLnletEntryUs
            (TomiObjectContext.mk 0x0c 0x0011 4 1) [0x88; 0xa8] [0x64]
            (TomiObjectContext.mk 0x0c 0x0011 4 0x101) 0))
  = Some [3; 0; 80; 254; 42; 234; 21; 3; 12; 12; 122; 4; 0; 0; 0; 1;
          12; 0; 17; 4; 0; 0; 0; 1; 93; 112; 1; 27; 5; 12; 0; 17; 1; 1;
          7; 3; 128; 1; 0; 2; 128; 128; 1; 0; 3; 2; 128; 128;
          6; 5; 2; 136; 168; 1; 100; 0; 0].
Proof.
  destruct (InletEntryUs_bytes
              (TomiObjectContext.mk 0x0c 0x0011 4 1) [0x88; 0xa8] [0x64]
              (TomiObjectContext.mk 0x0c 0x0011 4 0x101) 0)
    as (_ & _ & H).
  - simpl. lia.
  - vm_compute. discriminate.
  - vm_compute. discriminate.
  - vm_compute. discriminate.
  - exact H.
Defined.

(** X29.  The down-stream Inlet-entry request on the wire.  For an object
    context of length 3 or more and match TPID and VID values whose lengths
    are not 128 and together at most 232, the request is serialized without
    a panic: the same header, correlation tag and object context as
    up-stream, the source object 0x0eca with instance 0, the match entry
    carrying the TPID and the VID given followed by an entry without
    values, a pop of one tag, and a set and a push entry without values;
    the buffer again keeps [Length - 3] zero bytes behind the end byte. *)
Theorem InletEntryDs_bytes (oc : TomiObjectContext.t) (tpid vid : list Z)
    (instance : Z) :
  3 <= TomiObjectContext.Length oc ->
  len tpid + len vid <= 232 -> len tpid <> 128 -> len vid <> 128 ->
  let request :=
    Layer.GenerateL2switchingDomainActionLnletEntryDs oc tpid vid instance in
  snd request = (instance + 1) mod 2 ^ 32 /\
  L2switchingDomainRequest.Len (fst request)
  = 49 + TomiObjectContext.Length oc + len tpid + len vid /\
  L2switchingDomainRequest.SerializeTo (fst request)
  = Some ([0x03; 0x00; 0x50; 0xfe; 0x2a; 0xea; 0x15; 0x03;
           0x0c; 0x0c; 0x7a; 4]
          ++ be32 ((instance + 1) mod 2 ^ 32)
          ++ [TomiObjectContext.Branch oc]
          ++ be16 (TomiObjectContext.Type_ oc)
          ++ [TomiObjectContext.Length oc]
          ++ be32 (TomiObjectContext.Instance oc)
          ++ [0x5d; 0x70; 0x01; 23 + len tpid + len vid;
              5; 0x0c; 0x0e; 0xca; 1; 0x00;
              6 + len tpid + len vid; 2 + len tpid + len vid; len tpid]
          ++ tpid ++ [len vid] ++ vid
          ++ [2; 0x80; 0x80;
              1; 0x01;
              3; 2; 0x80; 0x80;
              3; 2; 0x80; 0x80;
              0x00]
          ++ zeros (TomiObjectContext.Length oc - 3)).
Proof.
  intros Hoc Hsum Ht Hv request.
  pose proof (len_nonneg tpid) as Hlt. pose proof (len_nonneg vid) as Hlv.
  subst request.
  unfold Layer.GenerateL2switchingDomainActionLnletEntryDs, getOltInstance.
  cbn [fst snd].
  split; [reflexivity|].
  change (2 ^ 8) with 256.
  rewrite (Z.mod_small (23 + len tpid + len vid)) by lia.
  rewrite (Z.mod_small (6 + len tpid + len vid)) by lia.
  rewrite (Z.mod_small (2 + len tpid + len vid)) by lia.
  rewrite (Z.mod_small (len tpid)) by lia.
  rewrite (Z.mod_small (len vid)) by lia.
  split; [unfold L2switchingDomainRequest.Len; request_fields; lia|].
  rewrite L2switchingDomainRequest_SerializeTo_bytes;
    unfold L2switchingDomainRequest.Len; request_fields;
    [ | fixed_entries .. | ].
  - cbn [flat_map]. rewrite TpidVid_wire_given by assumption.
    unfold TpidVid_wire, be16, be32.
    cbn [TpidVid.Length TpidVid.TpIDLength TpidVid.TpIDValue
         TpidVid.VIdLength TpidVid.VIdValue Z.eqb Pos.eqb].
    cbn [app].
    lazymatch goal with
    | |- ?l = _ =>
        match l with
        | context [zeros ?k] =>
            replace k with (TomiObjectContext.Length oc - 3) by len_lia
        end
    end.
    f_equal. repeat (apply (f_equal2 cons); [reflexivity|]).
    rewrite <- !app_assoc. reflexivity.
  - cbn [flat_map]. rewrite TpidVid_wire_given by assumption.
    unfold TpidVid_wire.
    cbn [TpidVid.Length TpidVid.TpIDLength TpidVid.TpIDValue
         TpidVid.VIdLength TpidVid.VIdValue Z.eqb Pos.eqb].
    cbn [app]. len_lia.
Qed.

Lemma InletEntryDs_bytes_witness :
  L2switchingDomainRequest.SerializeTo
    (fst (Layer.GenerateL2switchingDomainActionLnletEntryDs
            (TomiObjectContext.mk 0x0c 0x0011 4 1) [0x88; 0xa8] [0x64] 0))
  = Some [3; 0; 80; 254; 42; 234; 21; 3; 12; 12; 122; 4; 0; 0; 0; 1;
          12; 0; 17; 4; 0; 0; 0; 1; 93; 112; 1; 26; 5; 12; 14; 202; 1; 0;
          9; 5; 2; 136; 168; 1; 100; 2; 128; 128; 1; 1; 3; 2; 128; 128;
          3; 2; 128; 128; 0; 0].
Proof.
  destruct (InletEntryDs_bytes
              (TomiObjectContext.mk 0x0c 0x0011 4 1) [0x88; 0xa8] [0x64] 0)
    as (_ & _ & H).
  - simpl. lia.
  - vm_compute. discriminate.
  - vm_compute. discriminate.
  - vm_compute. discriminate.
  - exact H.
Defined.

(** What a write that does not panic tells about the buffer. *)
Lemma store_Some data i v data' :
  store data i v = Some data' -> 0 <= i < len data /\ len data' = len data.
Proof.
  unfold store. intros H.
  destruct (0 <=? i) eqn:E1; destruct (i <? len data) eqn:E2;
    cbn [andb] in H; try discriminate H.
  injection H as <-. split; [lia|].
  unfold len. rewrite length_insert. reflexivity.
Qed.

Lemma with_slice_Some data i j f data' :
  (forall b b', f b = Some b' -> length b' = length b) ->
  with_slice data i j f = Some data' ->
  (0 <= i /\ i <= j /\ j <= len data) /\ len data' = len data.
Proof.
  intros Hf. unfold with_slice, slice. intros H.
  destruct (0 <=? i) eqn:E1; destruct (i <=? j) eqn:E2;
    destruct (j <=? len data) eqn:E3;
    cbn [andb mbind option_bind] in H; try discriminate H.
  destruct (f _) as [b'|] eqn:Eb; [|discriminate H].
  cbn [mbind option_bind] in H. injection H as <-.
  apply Hf in Eb. split; [lia|].
  unfold len in *. rewrite !length_app, Eb.
  rewrite !length_take, !length_drop. lia.
Qed.

Lemma PutUint16_length v b b' :
  PutUint16 v b = Some b' -> length b' = length b.
Proof.
  destruct b as [|? [|? ?]]; try discriminate. intros [= <-]. reflexivity.
Qed.

Lemma PutUint32_length v b b' :
  PutUint32 v b = Some b' -> length b' = length b.
Proof.
  destruct b as [|? [|? [|? [|? ?]]]]; try discriminate.
  intros [= <-]. reflexivity.
Qed.

Lemma copy_length src b b' :
  copy src b = Some b' -> length b' = length b.
Proof.
  unfold copy. intros [= <-].
  rewrite length_app, length_take, length_drop. lia.
Qed.

(** Taking a run that does not panic apart, one write at a time. *)
Ltac ran H :=
  match type of H with
  | mbind _ ?x = Some _ =>
      let E := fresh "E" in
      destruct x eqn:E;
      [ cbn [mbind option_bind] in H; learn E;
        cbn [mbind option_bind] in H
      | discriminate H ]
  end
with learn E :=
  first [ apply store_Some in E
        | apply (with_slice_Some _ _ _ _ _ (PutUint16_length _)) in E
        | apply (with_slice_Some _ _ _ _ _ (PutUint32_length _)) in E
        | apply (with_slice_Some _ _ _ _ _ (copy_length _)) in E
        | ran E; injection E as <-
        | idtac ].

Lemma serializeTpidVid_Some (tpidVid : TpidVid.t) data startIndex data' i' :
  serializeTpidVid tpidVid data startIndex = Some (data', i') ->
  len data' = len data /\
  i' = startIndex + 3 + emitted (TpidVid.TpIDLength tpidVid)
       + emitted (TpidVid.VIdLength tpidVid) /\
  0 <= startIndex /\ i' <= len data.
Proof.
  unfold serializeTpidVid, emitted. intros H.
  do 2 ran H.
  destruct (TpidVid.TpIDLength tpidVid =? 128) eqn:ET; cbn [negb] in H;
    [cbn [mbind option_bind] in H | ran H];
    ran H;
    (destruct (TpidVid.VIdLength tpidVid =? 128) eqn:EV; cbn [negb] in H;
     [cbn [mbind option_bind] in H | ran H]);
    injection H as <- <-; lia.
Qed.

Lemma serializeTpidVid_range_Some (list : list TpidVid.t) :
  forall data i data' i',
  Forall TpidVid_consistent list ->
  L2switchingDomainRequest.serializeTpidVid_range list data i
  = Some (data', i') ->
  len data' = len data /\ i' = i + len (flat_map TpidVid_wire list).
Proof.
  induction list as [|e list IH]; intros data i data' i' Hall H.
  - cbn in H. injection H as <- <-. cbn [flat_map]. rewrite (@len_nil Z). lia.
  - apply Forall_cons in Hall as [He Hall].
    cbn [L2switchingDomainRequest.serializeTpidVid_range flat_map] in *.
    destruct (serializeTpidVid e data i) as [[d1 i1]|] eqn:E;
      [|discriminate H].
    cbn [mbind option_bind] in H.
    apply serializeTpidVid_Some in E. apply IH in H; [|assumption].
    rewrite len_app, TpidVid_wire_len by assumption. lia.
Qed.

(** One of the three lists of a run that does not panic. *)
Ltac ran_range H :=
  match type of H with
  | mbind _ ?x = Some _ =>
      let E := fresh "E" in
      let data := fresh "data" in
      let i := fresh "i" in
      destruct x as [[data i]|] eqn:E;
      [ cbn [mbind option_bind] in H;
        apply serializeTpidVid_range_Some in E; [|assumption]
      | discriminate H ]
  end.

(** A request that is serialized without a panic had room for all it
    wrote, and comes out at its declared length. *)
Lemma L2switchingDomainRequest_SerializeTo_Some
    (d : L2switchingDomainRequest.t) (data : list Z) :
  Forall TpidVid_consistent (L2switchingDomainRequest.TMLList d) ->
  Forall TpidVid_consistent (L2switchingDomainRequest.TOSList d) ->
  Forall TpidVid_consistent (L2switchingDomainRequest.TOPushList d) ->
  L2switchingDomainRequest.SerializeTo d = Some data ->
  37 + len (L2switchingDomainRequest.OUId d)
  + len (flat_map TpidVid_wire (L2switchingDomainRequest.TMLList d))
  + len (flat_map TpidVid_wire (L2switchingDomainRequest.TOSList d))
  + len (flat_map TpidVid_wire (L2switchingDomainRequest.TOPushList d))
  <= L2switchingDomainRequest.Len d /\
  len data = L2switchingDomainRequest.Len d.
Proof.
  intros HTML HTOS HTOPush H.
  unfold L2switchingDomainRequest.SerializeTo in H.
  set (plen := L2switchingDomainRequest.Len d) in *.
  unfold PrependBytes in H.
  destruct (0 <=? plen) eqn:Eplen; [|discriminate H].
  cbn [mbind option_bind] in H.
  pose proof (len_zeros plen ltac:(lia)) as Hzeros.
  do 22 ran H.
  ran_range H.
  do 3 ran H.
  ran_range H.
  ran H.
  ran_range H.
  ran H.
  injection H as <-.
  lia.
Qed.

(** X30.  When the request fits its buffer.  With entries whose length
    bytes are the lengths of their values, [SerializeTo] writes 37 bytes,
    the OUI and the entries of its three lists.  It panics on an index out
    of range exactly when [Len], which is computed from the length fields
    [CTLength], [OCLength], [VcLength] and [SizeMargin], is less than
    that; when it does not panic, the buffer it leaves has [Len] bytes. *)
Theorem L2switchingDomainRequest_SerializeTo_room
    (d : L2switchingDomainRequest.t) :
  Forall TpidVid_consistent (L2switchingDomainRequest.TMLList d) ->
  Forall TpidVid_consistent (L2switchingDomainRequest.TOSList d) ->
  Forall TpidVid_consistent (L2switchingDomainRequest.TOPushList d) ->
  let written :=
    37 + len (L2switchingDomainRequest.OUId d)
    + len (flat_map TpidVid_wire (L2switchingDomainRequest.TMLList d))
    + len (flat_map TpidVid_wire (L2switchingDomainRequest.TOSList d))
    + len (flat_map TpidVid_wire (L2switchingDomainRequest.TOPushList d)) in
  (L2switchingDomainRequest.SerializeTo d = None <->
   L2switchingDomainRequest.Len d < written) /\
  (forall data,
     L2switchingDomainRequest.SerializeTo d = Some data ->
     len data = L2switchingDomainRequest.Len d).
Proof.
  intros HTML HTOS HTOPush written. split; [split|].
  - intros Hnone.
    destruct (Z.lt_ge_cases (L2switchingDomainRequest.Len d) written)
      as [Hlt|Hge]; [exact Hlt|].
    rewrite L2switchingDomainRequest_SerializeTo_bytes in Hnone
      by assumption.
    discriminate Hnone.
  - intros Hlt.
    destruct (L2switchingDomainRequest.SerializeTo d) as [data|] eqn:Hrun;
      [|reflexivity].
    apply L2switchingDomainRequest_SerializeTo_Some in Hrun; [|assumption..].
    subst written. lia.
  - intros data Hrun.
    apply L2switchingDomainRequest_SerializeTo_Some in Hrun; [|assumption..].
    apply Hrun.
Qed.

Lemma L2switchingDomainRequest_SerializeTo_room_witness :
  L2switchingDomainRequest.SerializeTo
    (fst (Layer.GenerateL2switchingDomainActionLnletEntryUs
            (TomiObjectContext.mk 0x0c 0x0011 2 1) [0x88; 0xa8] [0x64]
            (TomiObjectContext.mk 0x0c 0x0011 4 0x101) 0))
  = None.
Proof.
  destruct (L2switchingDomainRequest_SerializeTo_room
              (fst (Layer.GenerateL2switchingDomainActionLnletEntryUs
                      (TomiObjectContext.mk 0x0c 0x0011 2 1)
                      [0x88; 0xa8] [0x64]
                      (TomiObjectContext.mk 0x0c 0x0011 4 0x101) 0)))
    as [[_ Hnone] _].
  - simpl. fixed_entries.
  - simpl. fixed_entries.
  - change (Forall TpidVid_consistent [TpidVid.mk 5 2 [0x88; 0xa8] 1 [0x64]]).
    fixed_entries.
  - apply Hnone. vm_compute. reflexivity.
Defined.

End InletEntry.
